(** * N8N Approval Service: a shallow embedding of the approval workflow

    The development follows the TypeScript sources:
    - [routes/posts.routes.ts]     (module [PostsRoutes]),
    - [routes/settings.routes.ts]  (module [SettingsRoutes]),
    - [services/discord.service.ts] (module [DiscordService]),
    - the initial SQL migration    (the [Post] record and the column widths).

    Conventions of the embedding.
    - A JavaScript string is a [string]; every [ascii] stands for one code
      unit, so [String.length] is [.length] and [substring 0 n] is
      [.substring(0, n)].  Case mapping is the ASCII one.
    - A JavaScript number that holds an integer is a [Z]; [NaN] is [None],
      and a [Z] of magnitude 2^1024 or more stands for an infinity.  Numbers
      read from text are rounded to the nearest double.
    - [new Date()] in a handler is a clock reading supplied with the
      request; the notifier reads the clock of the environment again.
    - A call of the database client that raises returns [None]: an id
      outside the INTEGER column, a text that holds the code unit 0 or does
      not fit its column, a value of the wrong type.
    - Handlers run in a state monad over the database and a trace of the
      outbound effects (database commits, HTTP requests, console lines), in
      program order.  A promise that the handler does not await is run
      in place, its result dropped. *)

From Stdlib Require Import ZArith Ascii String List Lia Bool Sorted Permutation.
From Stdlib Require Import DecimalString DecimalPos Relations.
From stdpp Require Import base option list gmap strings.

Set Warnings "-register-all".
Local Open Scope Z_scope.

(** ** JavaScript strings *)

Module Js.

Definition dq : string := String (ascii_of_nat 34) EmptyString.

Definition charCode (c : ascii) : Z := Z.of_nat (nat_of_ascii c).

Definition is_digit (c : ascii) : bool :=
  (48 <=? charCode c) && (charCode c <=? 57).

(** White space skipped by [parseInt], among the code units below 256:
    TAB, LF, VT, FF, CR, SPACE and NO-BREAK SPACE. *)
Definition is_space (c : ascii) : bool :=
  ((9 <=? charCode c) && (charCode c <=? 13)) || (charCode c =? 32)
  || (charCode c =? 160).

Definition lower_char (c : ascii) : ascii :=
  if (65 <=? charCode c) && (charCode c <=? 90)
  then ascii_of_nat (nat_of_ascii c + 32) else c.

Definition upper_char (c : ascii) : ascii :=
  if (97 <=? charCode c) && (charCode c <=? 122)
  then ascii_of_nat (nat_of_ascii c - 32) else c.

Fixpoint map_chars (f : ascii -> ascii) (s : string) : string :=
  match s with
  | EmptyString => EmptyString
  | String c r => String (f c) (map_chars f r)
  end.

Definition toLowerCase : string -> string := map_chars lower_char.
Definition toUpperCase : string -> string := map_chars upper_char.

(** [s.includes(sub)] *)
Fixpoint includes (s sub : string) : bool :=
  String.prefix sub s ||
  match s with
  | EmptyString => false
  | String _ r => includes r sub
  end.

(** [s.substring(0, n)] *)
Definition substring0 (n : nat) (s : string) : string := String.substring 0 n s.

(** Number to string, for the integers below 10^21 in magnitude, which are
    printed as plain decimal digits; the routes print ids only. *)
Definition showZ (z : Z) : string := NilEmpty.string_of_int (Z.to_int z).

Fixpoint skip_space (s : string) : string :=
  match s with
  | String c r => if is_space c then skip_space r else s
  | EmptyString => EmptyString
  end.

Fixpoint digits_value (acc : Z) (s : string) : Z :=
  match s with
  | String c r =>
      if is_digit c then digits_value (10 * acc + (charCode c - 48)) r else acc
  | EmptyString => acc
  end.

(** The double nearest to a natural number, ties to even: the number itself
    up to 2^53, and 53 significant bits above.  This is how V8 reads a run
    of decimal digits. *)
Definition round_double (v : Z) : Z :=
  if v <=? 9007199254740992 then v
  else
    let e := Z.log2 v - 52 in
    let q := Z.shiftr v e in
    let r := Z.land v (Z.ones e) in
    let half := Z.shiftl 1 (e - 1) in
    let up := (half <? r) || ((half =? r) && Z.odd q) in
    Z.shiftl (if up then q + 1 else q) e.

(** A number is finite below 2^1024 in magnitude. *)
Definition finite (z : Z) : bool := Z.abs z <? 2 ^ 1024.

(** [parseInt(s, 10)]: leading white space, an optional sign, then the
    longest run of decimal digits, read as the nearest double; [None] is
    [NaN]. *)
Definition parseInt (s : string) : option Z :=
  let t := skip_space s in
  let '(sign, u) :=
    match t with
    | String "-" r => (-1, r)
    | String "+" r => (1, r)
    | _ => (1, t)
    end in
  match u with
  | String c _ =>
      if is_digit c then Some (sign * round_double (digits_value 0 u)) else None
  | EmptyString => None
  end.

(** [n || d] on numbers: [NaN] and [0] are falsy. *)
Definition num_or (n : option Z) (d : Z) : Z :=
  match n with
  | Some v => if v =? 0 then d else v
  | None => d
  end.

(** [s || d] on an optional string: [undefined], [null] and [""] are falsy. *)
Definition str_truthy (s : string) : bool :=
  match s with EmptyString => false | _ => true end.

End Js.

(** ** JavaScript values carried by request and response bodies *)

Inductive Json :=
| JNull
| JBool (b : bool)
| JNum (n : Z)
| JStr (s : string)
| JDate (t : Z)                       (* a [Date]; serialised as ISO text *)
| JArr (l : list Json)
| JObj (fields : list (string * Json)).

Module JsVal.

(** Truthiness, as tested by [!v]. *)
Definition truthy (v : option Json) : bool :=
  match v with
  | None | Some JNull => false
  | Some (JBool b) => b
  | Some (JNum n) => negb (n =? 0)
  | Some (JStr s) => Js.str_truthy s
  | Some _ => true
  end.

Definition is_string (v : option Json) : bool :=
  match v with Some (JStr _) => true | _ => false end.

(** [typeof v === 'object'] ([null] included). *)
Definition is_object (v : Json) : bool :=
  match v with JNull | JDate _ | JArr _ | JObj _ => true | _ => false end.

Fixpoint assoc (k : string) (l : list (string * Json)) : option Json :=
  match l with
  | [] => None
  | (k', v) :: r => if String.eqb k k' then Some v else assoc k r
  end.

(** Property read [v.k] on a parsed body; [None] is [undefined].  Arrays
    and primitives have none of the names read by the handlers. *)
Definition get (v : Json) (k : string) : option Json :=
  match v with
  | JObj l => assoc k l
  | _ => None
  end.

Fixpoint index_from (i : nat) (l : list Json) : list (string * Json) :=
  match l with
  | [] => []
  | v :: r => (Js.showZ (Z.of_nat i), v) :: index_from (S i) r
  end.

(** [Object.entries(v)] *)
Definition entries (v : Json) : list (string * Json) :=
  match v with
  | JObj l => l
  | JArr l => index_from 0 l
  | _ => []
  end.

(** A number in a response: [JSON.stringify] writes [null] for an
    infinity. *)
Definition of_number (z : Z) : Json := if Js.finite z then JNum z else JNull.

Definition of_option_date (t : option Z) : Json :=
  match t with Some t => JDate t | None => JNull end.

Definition of_option_string (s : option string) : Json :=
  match s with Some s => JStr s | None => JNull end.

End JsVal.

(** ** The data model (tables [posts] and [settings]) *)

Inductive PostStatus := PENDING | APPROVED | REJECTED | POSTED.

Definition PostStatus_eqb (a b : PostStatus) : bool :=
  match a, b with
  | PENDING, PENDING | APPROVED, APPROVED
  | REJECTED, REJECTED | POSTED, POSTED => true
  | _, _ => false
  end.

(** The enum label, which is the JavaScript value of [post.status]. *)
Definition status_string (s : PostStatus) : string :=
  match s with
  | PENDING => "PENDING"
  | APPROVED => "APPROVED"
  | REJECTED => "REJECTED"
  | POSTED => "POSTED"
  end.

Definition status_of_string (s : string) : option PostStatus :=
  if String.eqb s "PENDING" then Some PENDING
  else if String.eqb s "APPROVED" then Some APPROVED
  else if String.eqb s "REJECTED" then Some REJECTED
  else if String.eqb s "POSTED" then Some POSTED
  else None.

Record Post := mkPost {
  id : Z;
  content : string;
  source : option string;
  status : PostStatus;
  n8nCallbackUrl : string;
  createdAt : Z;
  approvedAt : option Z;
  postedAt : option Z
}.

(** The [settings] table is keyed by its unique [key] column; the handlers
    read and write [key] and [value] only. *)
Record Db := mkDb {
  posts : list Post;                 (* rows, oldest insertion first *)
  next_id : Z;                       (* the SERIAL sequence of posts.id *)
  settings : gmap string string
}.

(** ** Effects *)

Inductive DbWrite :=
| PostCreated (p : Post)
| PostUpdated (p : Post)             (* the row as stored by the update *)
| PostDeleted (i : Z)
| SettingUpserted (k v : string).

Inductive Event :=
| EvDb (w : DbWrite)
| EvFetch (url : string) (body : Json)   (* POST, JSON content type *)
| EvConsole (line : string).

Inductive FetchResult :=
| FetchResponse (http_status : Z)
| FetchRejected.                     (* the promise rejects: transport error *)

(** [response.ok] *)
Definition response_ok (http_status : Z) : bool :=
  (200 <=? http_status) && (http_status <=? 299).

Record World := mkWorld {
  db : Db;
  trace : list Event                 (* oldest first *)
}.

Record Env := mkEnv {
  APP_URL : option string;
  DISCORD_WEBHOOK_URL : option string;
  network : list Event -> string -> Json -> FetchResult;
  clock : list Event -> Z;             (* [new Date()] after these events *)
  toISOString : Z -> string
}.

Definition M (A : Type) : Type := World -> A * World.

#[global] Instance M_ret : MRet M := fun A a w => (a, w).
#[global] Instance M_bind : MBind M :=
  fun A B f m w => let '(a, w') := m w in f a w'.

Definition get_db : M Db := fun w => (db w, w).
Definition put_db (d : Db) : M unit := fun w => (tt, mkWorld d (trace w)).
Definition emit (e : Event) : M unit :=
  fun w => (tt, mkWorld (db w) (trace w ++ [e])).
Definition console (line : string) : M unit := emit (EvConsole line).

(** [new Date()] inside the notifier. *)
Definition read_clock (env : Env) : M Z := fun w => (clock env (trace w), w).

(** [fetch(url, { method: 'POST', body: JSON.stringify(body) })]; the body is
    kept as the value that is serialised. *)
Definition fetch (env : Env) (url : string) (body : Json) : M FetchResult :=
  fun w => (network env (trace w) url body,
            mkWorld (db w) (trace w ++ [EvFetch url body])).

(** ** The Prisma client, as far as the routes use it *)

Module Prisma.

Definition with_posts (d : Db) (l : list Post) : Db :=
  mkDb l (next_id d) (settings d).

(** The values of an INTEGER column, which [posts.id] (SERIAL) is. *)
Definition int4 (i : Z) : bool := (-2147483648 <=? i) && (i <=? 2147483647).

(** The row with the id [i]; an id outside the column type finds none. *)
Definition findUnique_in (i : Z) (l : list Post) : option Post :=
  if int4 i then List.find (fun p => id p =? i) l else None.

(** [prisma.post.findUnique({ where: { id } })]: raises ([None]) for an id
    that does not fit the column type, returns the row or [null]
    otherwise. *)
Definition post_findUnique (i : Z) : M (option (option Post)) :=
  d ← get_db;
  mret (if int4 i then Some (findUnique_in i (posts d)) else None).

(** PostgreSQL text holds no code unit 0. *)
Fixpoint has_nul (s : string) : bool :=
  match s with
  | EmptyString => false
  | String c r => (Js.charCode c =? 0) || has_nul r
  end.

Fixpoint all_spaces (s : string) : bool :=
  match s with
  | EmptyString => true
  | String c r => (Js.charCode c =? 32) && all_spaces r
  end.

Definition fits (n : nat) (s : string) : bool := (String.length s <=? n)%nat.

(** Storing into a [VARCHAR(n)] column: a longer text is refused ([None])
    unless what exceeds [n] characters is spaces only, which are cut off. *)
Definition varchar (n : nat) (s : string) : option string :=
  if fits n s then Some s
  else if all_spaces (String.substring n (String.length s - n) s)
  then Some (String.substring 0 n s)
  else None.

(** [prisma.post.create]: the row gets the next value of the id sequence,
    the creation time, and NULL [approved_at] and [posted_at].  [src] is
    the value computed by [source || null].  The call raises ([None])
    - when [src] is truthy and not a string: the client refuses it;
    - when a text holds a code unit 0: the statement is refused before it
      runs;
    - when the id sequence is exhausted;
    - when [source] or [n8n_callback_url] does not fit its column
      ([VARCHAR(255)], [VARCHAR(500)]): the id has been drawn by then, and
      a sequence does not give it back. *)
Definition post_create (now : Z) (c : string) (src : option Json)
    (url : string) : M (option Post) :=
  d ← get_db;
  let source :=
    match src with
    | None => Some None
    | Some (JStr s) => Some (Some s)
    | Some _ => None
    end in
  match source with
  | None => mret None
  | Some s =>
      if has_nul c || has_nul (default EmptyString s) || has_nul url
      then mret None
      else if negb (next_id d <=? 2147483647) then mret None
      else
        match (match s with
               | Some t => Some <$> varchar 255 t
               | None => Some None
               end), varchar 500 url with
        | Some stored_source, Some stored_url =>
            let p := mkPost (next_id d) c stored_source PENDING stored_url now
                       None None in
            _ ← put_db (mkDb (posts d ++ [p]) (next_id d + 1) (settings d));
            _ ← emit (EvDb (PostCreated p));
            mret (Some p)
        | _, _ =>
            _ ← put_db (mkDb (posts d) (next_id d + 1) (settings d));
            mret None
        end
  end.

Fixpoint update_in (i : Z) (f : Post -> Post) (l : list Post) : list Post :=
  match l with
  | [] => []
  | p :: r => if id p =? i then f p :: r else p :: update_in i f r
  end.

(** [prisma.post.update({ where: { id }, data })]: returns the stored row,
    raises ([None]) when there is none or the id does not fit the column. *)
Definition post_update (i : Z) (f : Post -> Post) : M (option Post) :=
  d ← get_db;
  match findUnique_in i (posts d) with
  | Some p =>
      _ ← put_db (with_posts d (update_in i f (posts d)));
      _ ← emit (EvDb (PostUpdated (f p)));
      mret (Some (f p))
  | None => mret None
  end.

(** [prisma.post.delete({ where: { id } })] *)
Definition post_delete (i : Z) : M unit :=
  d ← get_db;
  _ ← put_db (with_posts d (List.filter (fun p => negb (id p =? i)) (posts d)));
  emit (EvDb (PostDeleted i)).

(** A [where] clause on [status]: absent, or a label the client checks
    against the enum. *)
Definition where_ok (w : option string) : option (Post -> bool) :=
  match w with
  | None => Some (fun _ => true)
  | Some s =>
      match status_of_string s with
      | Some st => Some (fun p => PostStatus_eqb (status p) st)
      | None => None
      end
  end.

(** [ORDER BY created_at DESC]; PostgreSQL leaves the order of rows of
    equal time open, here they keep the table order. *)
Fixpoint insert_desc (p : Post) (l : list Post) : list Post :=
  match l with
  | [] => [p]
  | q :: r =>
      if createdAt q <=? createdAt p then p :: l else q :: insert_desc p r
  end.

Fixpoint sort_desc (l : list Post) : list Post :=
  match l with
  | [] => []
  | p :: r => insert_desc p (sort_desc r)
  end.

(** [take] and [skip] of [findMany]: the query engine holds them in 64
    bits and refuses others, infinities included; a negative [skip] is
    refused; a negative [take] counts from the end of the ordered rows. *)
Definition int8 (z : Z) : bool := Z.abs z <? 2 ^ 63.

Definition page (take skip : Z) (l : list Post) : option (list Post) :=
  if negb (int8 take) || negb (int8 skip) then None
  else if skip <? 0 then None
  else if 0 <=? take
  then Some (List.firstn (Z.to_nat take) (List.skipn (Z.to_nat skip) l))
  else Some (List.rev (List.firstn (Z.to_nat (- take))
                         (List.skipn (Z.to_nat skip) (List.rev l)))).

(** [prisma.post.findMany({ where, orderBy: { createdAt: 'desc' }, take, skip })] *)
Definition post_findMany (w : option string) (take skip : Z)
    : M (option (list Post)) :=
  d ← get_db;
  match where_ok w with
  | Some keep => mret (page take skip (sort_desc (List.filter keep (posts d))))
  | None => mret None
  end.

(** [prisma.post.count({ where })] *)
Definition post_count (w : option string) : M (option Z) :=
  d ← get_db;
  match where_ok w with
  | Some keep => mret (Some (Z.of_nat (length (List.filter keep (posts d)))))
  | None => mret None
  end.

(** [prisma.settings.findUnique({ where: { key } })], the [value] column;
    raises ([None]) for a key that holds a code unit 0. *)
Definition settings_findUnique (k : string) : M (option (option string)) :=
  d ← get_db;
  mret (if has_nul k then None else Some (settings d !! k)).

(** [prisma.settings.upsert]: create the entry or overwrite its value;
    raises ([None]) for a key or a value that holds a code unit 0. *)
Definition settings_upsert (k v : string) : M (option unit) :=
  d ← get_db;
  if has_nul k || has_nul v then mret None
  else
    _ ← put_db (mkDb (posts d) (next_id d) (<[k := v]> (settings d)));
    _ ← emit (EvDb (SettingUpserted k v));
    mret (Some tt).

(** [prisma.settings.findMany()], folded into the [settingsMap] object. *)
Definition settings_findMany : M (gmap string string) :=
  d ← get_db; mret (settings d).

End Prisma.

(** ** services/discord.service.ts *)

Record EmbedField := mkField {
  field_name : string;
  field_value : string;
  field_inline : bool
}.

Record DiscordEmbed := mkEmbed {
  title : string;
  description : string;
  color : Z;
  fields : option (list EmbedField);
  footer : string;                   (* [footer.text] *)
  timestamp : string
}.

(** The parameter type ['APPROVED' | 'REJECTED' | 'POSTED'] of
    [sendStatusUpdate]. *)
Inductive UpdateStatus := UPD_APPROVED | UPD_REJECTED | UPD_POSTED.

Definition update_status (u : UpdateStatus) : PostStatus :=
  match u with
  | UPD_APPROVED => APPROVED
  | UPD_REJECTED => REJECTED
  | UPD_POSTED => POSTED
  end.

Module DiscordService.

Definition field_json (f : EmbedField) : Json :=
  JObj [("name", JStr (field_name f)); ("value", JStr (field_value f));
        ("inline", JBool (field_inline f))].

(** The [DiscordMessage] [{ embeds: [embed] }] handed to [JSON.stringify]. *)
Definition message_json (e : DiscordEmbed) : Json :=
  JObj [("embeds", JArr [JObj (
    [("title", JStr (title e)); ("description", JStr (description e));
     ("color", JNum (color e))] ++
    match fields e with
    | Some fs => [("fields", JArr (List.map field_json fs))]
    | None => []
    end ++
    [("footer", JObj [("text", JStr (footer e))]);
     ("timestamp", JStr (timestamp e))])])].

Definition nonempty (o : option string) : option string :=
  match o with
  | Some s => if Js.str_truthy s then Some s else None
  | None => None
  end.

Section WithEnv.
Context (env : Env).

(** [setting?.value || process.env.DISCORD_WEBHOOK_URL || null]; the key
    of the lookup is a literal, so the lookup does not raise. *)
Definition getWebhookUrl : M (option string) :=
  found ← Prisma.settings_findUnique "discord_webhook_url";
  let setting := default None found in
  mret (match nonempty setting with
        | Some v => Some v
        | None => nonempty (DISCORD_WEBHOOK_URL env)
        end).

(** [displayContent] of the pending notice. *)
Definition displayContent (content : string) : string :=
  if (1000 <? String.length content)%nat
  then Js.substring0 997 content +:+ "..."
  else content.

Definition approvalEmbed (now postId : Z) (content : string)
    (source : option string) : DiscordEmbed :=
  let appUrl :=
    match nonempty (APP_URL env) with
    | Some u => u
    | None => "http://localhost:3001"
    end in
  let approveUrl := appUrl +:+ "/api/v1/posts/" +:+ Js.showZ postId +:+ "/approve" in
  let rejectUrl := appUrl +:+ "/api/v1/posts/" +:+ Js.showZ postId +:+ "/reject" in
  let actions :=
    mkField "🔗 Actions"
      ("[✅ Approve](" +:+ approveUrl +:+ ") | [❌ Reject](" +:+ rejectUrl +:+ ")")
      false in
  mkEmbed "📝 New Post Pending Approval"
    (displayContent content)
    16753920
    (Some match nonempty source with
          | Some src => [mkField "📁 Source" src true; actions]
          | None => [actions]
          end)
    ("Post ID: " +:+ Js.showZ postId +:+
     match nonempty source with
     | Some src => " | Source: " +:+ src
     | None => ""
     end)
    (toISOString env now).

(** [DiscordService.sendApprovalNotification(postId, content, source)] *)
Definition sendApprovalNotification (now postId : Z) (content : string)
    (source : option string) : M bool :=
  webhookUrl ← getWebhookUrl;
  match webhookUrl with
  | None => _ ← console "Discord webhook URL not configured"; mret false
  | Some url =>
      r ← fetch env url (message_json (approvalEmbed now postId content source));
      match r with
      | FetchResponse st =>
          if response_ok st then mret true
          else _ ← console "Discord webhook failed:"; mret false
      | FetchRejected =>
          _ ← console "Failed to send Discord notification:"; mret false
      end
  end.

Definition statusConfig (st : UpdateStatus) : string * Z * string :=
  match st with
  | UPD_APPROVED => ("✅", 65280, "Approved")
  | UPD_REJECTED => ("❌", 16711680, "Rejected")
  | UPD_POSTED => ("🚀", 39423, "Posted to LinkedIn")
  end.

(** The [description] of a status update; [content] is optional. *)
Definition statusDescription (postId : Z) (st : UpdateStatus)
    (content : option string) : string :=
  match nonempty content with
  | Some c =>
      if (500 <? String.length c)%nat
      then Js.substring0 497 c +:+ "..."
      else c
  | None =>
      "Post #" +:+ Js.showZ postId +:+ " has been " +:+
      Js.toLowerCase (status_string (update_status st)) +:+ "."
  end.

Definition statusEmbed (now postId : Z) (st : UpdateStatus)
    (content : option string) : DiscordEmbed :=
  let '(emoji, col, text) := statusConfig st in
  mkEmbed (emoji +:+ " Post " +:+ text)
    (statusDescription postId st content)
    col
    None
    ("Post ID: " +:+ Js.showZ postId)
    (toISOString env now).

(** [DiscordService.sendStatusUpdate(postId, status, content)] *)
Definition sendStatusUpdate (now postId : Z) (st : UpdateStatus)
    (content : option string) : M bool :=
  webhookUrl ← getWebhookUrl;
  match webhookUrl with
  | None => mret false
  | Some url =>
      r ← fetch env url (message_json (statusEmbed now postId st content));
      match r with
      | FetchResponse code => mret (response_ok code)
      | FetchRejected =>
          _ ← console "Failed to send Discord status update:"; mret false
      end
  end.

End WithEnv.
End DiscordService.

(** ** HTTP requests and responses *)

Record Request := mkRequest {
  param : string;                    (* [req.params.id] or [req.params.key] *)
  accept : option string;            (* [req.headers.accept] *)
  q_status : option string;          (* [req.query.status] *)
  q_limit : option string;           (* [req.query.limit] *)
  q_offset : option string;          (* [req.query.offset] *)
  body : Json                        (* [req.body] after [express.json()]:
                                        an object or an array, [{}] when
                                        the request carries none *)
}.

Inductive Body :=
| JsonBody (j : Json)                (* [res.json(j)] *)
| HtmlBody (html : string).          (* [res.send(html)] *)

Record Response := mkResponse {
  code : Z;
  payload : Body
}.

Definition json (c : Z) (j : Json) : Response := mkResponse c (JsonBody j).
Definition send (c : Z) (html : string) : Response := mkResponse c (HtmlBody html).

(** The error shape [{ error, message }]. *)
Definition error_json (c : Z) (error message : string) : Response :=
  json c (JObj [("error", JStr error); ("message", JStr message)]).

(** The human text of a response: the [message] member of a JSON body, the
    whole page of an HTML one. *)
Definition message_of (r : Response) : string :=
  match payload r with
  | JsonBody j =>
      match JsVal.get j "message" with
      | Some (JStr m) => m
      | _ => ""
      end
  | HtmlBody h => h
  end.

(** ** routes/posts.routes.ts *)

Module PostsRoutes.

Inductive PageType := success | error | warning.

Definition bg (t : PageType) : string :=
  match t with success => "#d4edda" | error => "#f8d7da" | warning => "#fff3cd" end.
Definition border (t : PageType) : string :=
  match t with success => "#c3e6cb" | error => "#f5c6cb" | warning => "#ffeeba" end.
Definition text (t : PageType) : string :=
  match t with success => "#155724" | error => "#721c24" | warning => "#856404" end.

(** [generateHtmlResponse(title, message, type)]; the text is the template
    after [.trim()], which removes the line break before the doctype and
    the white space after the closing tag. *)
Definition generateHtmlResponse (title message : string) (type : PageType)
    : string :=
  let color := type in
  let emoji :=
    match type with success => "✅" | error => "❌" | warning => "⚠️" end in
  "<!DOCTYPE html>
<html lang=" +:+ Js.dq +:+ "en" +:+ Js.dq +:+ ">
<head>
  <meta charset=" +:+ Js.dq +:+ "UTF-8" +:+ Js.dq +:+ ">
  <meta name=" +:+ Js.dq +:+ "viewport" +:+ Js.dq +:+ " content=" +:+ Js.dq +:+ "width=device-width, initial-scale=1.0" +:+ Js.dq +:+ ">
  <title>" +:+ title +:+ " - N8N Approval Service</title>
  <style>
    * {
      box-sizing: border-box;
      margin: 0;
      padding: 0;
    }
    body {
      font-family: -apple-system, BlinkMacSystemFont, 'Segoe UI', Roboto, 'Helvetica Neue', Arial, sans-serif;
      background: linear-gradient(135deg, #667eea 0%, #764ba2 100%);
      min-height: 100vh;
      display: flex;
      align-items: center;
      justify-content: center;
      padding: 20px;
    }
    .card {
      background: white;
      border-radius: 16px;
      box-shadow: 0 10px 40px rgba(0, 0, 0, 0.2);
      padding: 40px;
      max-width: 500px;
      width: 100%;
      text-align: center;
    }
    .emoji {
      font-size: 64px;
      margin-bottom: 20px;
    }
    h1 {
      color: #333;
      margin-bottom: 16px;
      font-size: 24px;
    }
    .message {
      background: " +:+ (bg color) +:+ ";
      border: 1px solid " +:+ (border color) +:+ ";
      color: " +:+ (text color) +:+ ";
      padding: 16px;
      border-radius: 8px;
      margin-bottom: 24px;
      font-size: 16px;
    }
    .back-link {
      color: #667eea;
      text-decoration: none;
      font-weight: 500;
    }
    .back-link:hover {
      text-decoration: underline;
    }
  </style>
</head>
<body>
  <div class=" +:+ Js.dq +:+ "card" +:+ Js.dq +:+ ">
    <div class=" +:+ Js.dq +:+ "emoji" +:+ Js.dq +:+ ">" +:+ emoji +:+ "</div>
    <h1>" +:+ title +:+ "</h1>
    <div class=" +:+ Js.dq +:+ "message" +:+ Js.dq +:+ ">" +:+ message +:+ "</div>
    <a href=" +:+ Js.dq +:+ "/" +:+ Js.dq +:+ " class=" +:+ Js.dq +:+ "back-link" +:+ Js.dq +:+ ">← Back to Dashboard</a>
  </div>
</body>
</html>".

Definition wantsJson (req : Request) : bool :=
  match accept req with
  | Some a => Js.includes a "application/json"
  | None => false
  end.

Definition as_string (v : option Json) : string :=
  match v with Some (JStr s) => s | _ => "" end.

Definition string_of (v : option Json) : option string :=
  match v with Some (JStr s) => Some s | _ => None end.

(** The row as listed by [GET /] and [GET /:id]. *)
Definition post_json (post : Post) : Json :=
  JObj [("id", JNum (id post));
        ("content", JStr (content post));
        ("source", JsVal.of_option_string (source post));
        ("status", JStr (status_string (status post)));
        ("n8n_callback_url", JStr (n8nCallbackUrl post));
        ("created_at", JDate (createdAt post));
        ("approved_at", JsVal.of_option_date (approvedAt post));
        ("posted_at", JsVal.of_option_date (postedAt post))].

Definition set_approved (now : Z) (p : Post) : Post :=
  mkPost (id p) (content p) (source p) APPROVED (n8nCallbackUrl p)
         (createdAt p) (Some now) (postedAt p).

Definition set_rejected (p : Post) : Post :=
  mkPost (id p) (content p) (source p) REJECTED (n8nCallbackUrl p)
         (createdAt p) (approvedAt p) (postedAt p).

Definition set_posted (now : Z) (p : Post) : Post :=
  mkPost (id p) (content p) (source p) POSTED (n8nCallbackUrl p)
         (createdAt p) (approvedAt p) (Some now).

(** The body of the callback to the second workflow. *)
Definition callback_body (post : Post) : Json :=
  JObj [("post_id", JNum (id post));
        ("status", JStr "APPROVED");
        ("post_content", JStr (content post))].

Definition already_message (post : Post) : string :=
  "This post has already been " +:+
  Js.toLowerCase (status_string (status post)) +:+ ".".

Section WithEnv.
Context (env : Env).

(** [POST /submit]; [now] is the time at which the row is created, the
    notice carries a reading of its own. *)
Definition submit (now : Z) (req : Request) : M Response :=
  let content := JsVal.get (body req) "content" in
  let source := JsVal.get (body req) "source" in
  let n8n_callback_url := JsVal.get (body req) "n8n_callback_url" in
  if negb (JsVal.truthy content) || negb (JsVal.is_string content) then
    mret (error_json 400 "Bad Request" "Content is required and must be a string")
  else if negb (JsVal.truthy n8n_callback_url)
          || negb (JsVal.is_string n8n_callback_url) then
    mret (error_json 400 "Bad Request"
            "n8n_callback_url is required and must be a string")
  else
    created ← Prisma.post_create now (as_string content)
                (if JsVal.truthy source then source else None)
                (as_string n8n_callback_url);
    match created with
    | Some post =>
        sent ← read_clock env;
        _ ← DiscordService.sendApprovalNotification env sent (id post)
              (as_string content) (string_of source);
        mret (json 202 (JObj [
          ("success", JBool true);
          ("message", JStr "Post submitted successfully and pending approval");
          ("data", JObj [("id", JNum (id post));
                         ("status", JStr (status_string (status post)));
                         ("created_at", JDate (createdAt post))])]))
    | None =>
        _ ← console "Error submitting post:";
        mret (error_json 500 "Internal Server Error" "Failed to submit post")
    end.

Definition fail (req : Request) (c : Z) (error_name page_title message : string)
    (type : PageType) : Response :=
  if wantsJson req then error_json c error_name message
  else send c (generateHtmlResponse page_title message type).

(** [GET /:id/approve]; [now] is the [approvedAt] of the update, the status
    update carries a reading of its own, taken after the callback. *)
Definition approve (now : Z) (req : Request) : M Response :=
  match Js.parseInt (param req) with
  | None => mret (fail req 400 "Bad Request" "Error" "Invalid post ID" error)
  | Some postId =>
      found ← Prisma.post_findUnique postId;
      match found with
      | None =>
          _ ← console "Error approving post:";
          mret (fail req 500 "Internal Server Error" "Error"
                  "Failed to approve post" error)
      | Some None =>
          mret (fail req 404 "Not Found" "Not Found" "Post not found" error)
      | Some (Some post) =>
          if negb (PostStatus_eqb (status post) PENDING) then
            mret (fail req 400 "Bad Request" "Already Processed"
                    (already_message post) warning)
          else
            updated ← Prisma.post_update postId (set_approved now);
            match updated with
            | Some updatedPost =>
                r ← fetch env (n8nCallbackUrl post) (callback_body post);
                _ ← match r with
                    | FetchResponse st =>
                        if response_ok st then mret tt
                        else console "n8n callback failed:"
                    | FetchRejected => console "Failed to call n8n callback URL:"
                    end;
                sent ← read_clock env;
                _ ← DiscordService.sendStatusUpdate env sent postId UPD_APPROVED
                      (Some (content post));
                mret (if wantsJson req then
                        json 200 (JObj [
                          ("success", JBool true);
                          ("message", JStr "Post approved and sent for posting");
                          ("data", JObj [
                             ("id", JNum (id updatedPost));
                             ("status", JStr (status_string (status updatedPost)));
                             ("approved_at",
                              JsVal.of_option_date (approvedAt updatedPost))])])
                      else
                        send 200 (generateHtmlResponse "Post Approved"
                                    "Post Approved. Pushing to LinkedIn." success))
            | None =>
                _ ← console "Error approving post:";
                mret (fail req 500 "Internal Server Error" "Error"
                        "Failed to approve post" error)
            end
      end
  end.

(** [GET /:id/reject] *)
Definition reject (now : Z) (req : Request) : M Response :=
  match Js.parseInt (param req) with
  | None => mret (fail req 400 "Bad Request" "Error" "Invalid post ID" error)
  | Some postId =>
      found ← Prisma.post_findUnique postId;
      match found with
      | None =>
          _ ← console "Error rejecting post:";
          mret (fail req 500 "Internal Server Error" "Error"
                  "Failed to reject post" error)
      | Some None =>
          mret (fail req 404 "Not Found" "Not Found" "Post not found" error)
      | Some (Some post) =>
          if negb (PostStatus_eqb (status post) PENDING) then
            mret (fail req 400 "Bad Request" "Already Processed"
                    (already_message post) warning)
          else
            updated ← Prisma.post_update postId set_rejected;
            match updated with
            | Some updatedPost =>
                sent ← read_clock env;
                _ ← DiscordService.sendStatusUpdate env sent postId UPD_REJECTED
                      (Some (content post));
                mret (if wantsJson req then
                        json 200 (JObj [
                          ("success", JBool true);
                          ("message", JStr "Post rejected");
                          ("data", JObj [
                             ("id", JNum (id updatedPost));
                             ("status", JStr (status_string (status updatedPost)))])])
                      else
                        send 200 (generateHtmlResponse "Post Rejected"
                                    "Post Rejected. No action taken." success))
            | None =>
                _ ← console "Error rejecting post:";
                mret (fail req 500 "Internal Server Error" "Error"
                        "Failed to reject post" error)
            end
      end
  end.

Definition posted_message (post : Post) : string :=
  "Cannot mark post as posted. Current status: " +:+ status_string (status post).

(** [PUT /:id/posted] and [POST /:id/posted] *)
Definition handlePostedConfirmation (now : Z) (req : Request) : M Response :=
  match Js.parseInt (param req) with
  | None => mret (error_json 400 "Bad Request" "Invalid post ID")
  | Some postId =>
      found ← Prisma.post_findUnique postId;
      match found with
      | None =>
          _ ← console "Error marking post as posted:";
          mret (error_json 500 "Internal Server Error"
                  "Failed to mark post as posted")
      | Some None => mret (error_json 404 "Not Found" "Post not found")
      | Some (Some post) =>
          if negb (PostStatus_eqb (status post) APPROVED) then
            mret (error_json 400 "Bad Request" (posted_message post))
          else
            updated ← Prisma.post_update postId (set_posted now);
            match updated with
            | Some updatedPost =>
                sent ← read_clock env;
                _ ← DiscordService.sendStatusUpdate env sent postId UPD_POSTED
                      (Some (content post));
                mret (json 200 (JObj [
                  ("success", JBool true);
                  ("message", JStr "Post marked as posted successfully");
                  ("data", JObj [
                     ("id", JNum (id updatedPost));
                     ("status", JStr (status_string (status updatedPost)));
                     ("posted_at",
                      JsVal.of_option_date (postedAt updatedPost))])]))
            | None =>
                _ ← console "Error marking post as posted:";
                mret (error_json 500 "Internal Server Error"
                        "Failed to mark post as posted")
            end
      end
  end.

End WithEnv.

(** The [where] object of [GET /]: [status.toUpperCase()] for a non-empty
    [status]. *)
Definition list_where (req : Request) : option string :=
  match q_status req with
  | Some s => if Js.str_truthy s then Some (Js.toUpperCase s) else None
  | None => None
  end.

(** [parseInt(limit, 10) || 50] with the default ['50'] of an absent
    parameter, and the same for [offset]. *)
Definition list_limit (req : Request) : Z :=
  Js.num_or (Js.parseInt (default "50" (q_limit req))) 50.

Definition list_offset (req : Request) : Z :=
  Js.num_or (Js.parseInt (default "0" (q_offset req))) 0.

Definition list_failed : Response :=
  error_json 500 "Internal Server Error" "Failed to fetch posts".

(** [GET /] *)
Definition listPosts (req : Request) : M Response :=
  let where_ := list_where req in
  found ← Prisma.post_findMany where_ (Z.min (list_limit req) 100)
             (list_offset req);
  match found with
  | Some posts =>
      counted ← Prisma.post_count where_;
      match counted with
      | Some total =>
          mret (json 200 (JObj [
            ("success", JBool true);
            ("data", JArr (List.map post_json posts));
            ("pagination", JObj [("total", JNum total);
                                 ("limit", JsVal.of_number (list_limit req));
                                 ("offset", JsVal.of_number (list_offset req))])]))
      | None => _ ← console "Error fetching posts:"; mret list_failed
      end
  | None => _ ← console "Error fetching posts:"; mret list_failed
  end.

(** [GET /:id] *)
Definition getPost (req : Request) : M Response :=
  match Js.parseInt (param req) with
  | None => mret (error_json 400 "Bad Request" "Invalid post ID")
  | Some postId =>
      found ← Prisma.post_findUnique postId;
      match found with
      | None =>
          _ ← console "Error fetching post:";
          mret (error_json 500 "Internal Server Error" "Failed to fetch post")
      | Some None => mret (error_json 404 "Not Found" "Post not found")
      | Some (Some post) =>
          mret (json 200 (JObj [("success", JBool true);
                                ("data", post_json post)]))
      end
  end.

(** [DELETE /:id] *)
Definition deletePost (req : Request) : M Response :=
  match Js.parseInt (param req) with
  | None => mret (error_json 400 "Bad Request" "Invalid post ID")
  | Some postId =>
      found ← Prisma.post_findUnique postId;
      match found with
      | None =>
          _ ← console "Error deleting post:";
          mret (error_json 500 "Internal Server Error" "Failed to delete post")
      | Some None => mret (error_json 404 "Not Found" "Post not found")
      | Some (Some post) =>
          _ ← Prisma.post_delete postId;
          mret (json 200 (JObj [("success", JBool true);
                                ("message", JStr "Post deleted successfully")]))
      end
  end.

Definition stats_failed : Response :=
  error_json 500 "Internal Server Error" "Failed to fetch statistics".

(** [GET /stats/summary] *)
Definition stats : M Response :=
  pending ← Prisma.post_count (Some "PENDING");
  approved ← Prisma.post_count (Some "APPROVED");
  rejected ← Prisma.post_count (Some "REJECTED");
  posted ← Prisma.post_count (Some "POSTED");
  match pending, approved, rejected, posted with
  | Some pending, Some approved, Some rejected, Some posted =>
      mret (json 200 (JObj [
        ("success", JBool true);
        ("data", JObj [("pending", JNum pending);
                       ("approved", JNum approved);
                       ("rejected", JNum rejected);
                       ("posted", JNum posted);
                       ("total", JNum (pending + approved + rejected + posted))])]))
  | _, _, _, _ => _ ← console "Error fetching stats:"; mret stats_failed
  end.

End PostsRoutes.

(** ** routes/settings.routes.ts *)

Module SettingsRoutes.

Definition allowedKeys : list string := ["discord_webhook_url"; "n8n_base_url"].

(** [allowedKeys.includes(key)] *)
Definition allowed (key : string) : bool := existsb (String.eqb key) allowedKeys.

(** The [settingsMap] object built from the rows by [settingsMap[key] =
    value]; for the key [__proto__] that assignment creates no member. *)
Definition settingsMap (m : gmap string string) : Json :=
  JObj ((fun kv => (kv.1, JStr kv.2)) <$> map_to_list (delete "__proto__" m)).

(** [GET /] *)
Definition getAll : M Response :=
  m ← Prisma.settings_findMany;
  mret (json 200 (JObj [("success", JBool true); ("data", settingsMap m)])).

(** The loop of [PUT /] with its [Promise.all]: an entry outside the
    allow-list, or whose value is not a string, is passed over; the others
    are upserted, every one of them, and the result is [false] when one of
    the upserts raised. *)
Fixpoint upsertEntries (l : list (string * Json)) : M bool :=
  match l with
  | [] => mret true
  | (key, value) :: r =>
      if negb (allowed key) then upsertEntries r
      else match value with
           | JStr v =>
               done ← Prisma.settings_upsert key v;
               rest ← upsertEntries r;
               mret (bool_decide (is_Some done) && rest)
           | _ => upsertEntries r
           end
  end.

(** [PUT /] *)
Definition putAll (req : Request) : M Response :=
  let settings := body req in
  if negb (JsVal.truthy (Some settings)) || negb (JsVal.is_object settings) then
    mret (error_json 400 "Bad Request" "Settings must be an object")
  else
    stored ← upsertEntries (JsVal.entries settings);
    if (stored : bool) then
      m ← Prisma.settings_findMany;
      mret (json 200 (JObj [("success", JBool true);
                            ("message", JStr "Settings updated successfully");
                            ("data", settingsMap m)]))
    else
      _ ← console "Error updating settings:";
      mret (error_json 500 "Internal Server Error" "Failed to update settings").

(** [GET /:key] *)
Definition getKey (req : Request) : M Response :=
  let key := param req in
  setting ← Prisma.settings_findUnique key;
  match setting with
  | None =>
      _ ← console "Error fetching setting:";
      mret (error_json 500 "Internal Server Error" "Failed to fetch setting")
  | Some None => mret (error_json 404 "Not Found" "Setting not found")
  | Some (Some v) =>
      mret (json 200 (JObj [("success", JBool true);
                            ("data", JObj [("key", JStr key);
                                           ("value", JStr v)])]))
  end.

(** [PUT /:key] *)
Definition putKey (req : Request) : M Response :=
  let key := param req in
  let value := JsVal.get (body req) "value" in
  if negb (allowed key) then
    mret (error_json 400 "Bad Request" "Invalid setting key")
  else
    match value with
    | Some (JStr v) =>
        done ← Prisma.settings_upsert key v;
        match done with
        | Some _ =>
            mret (json 200 (JObj [("success", JBool true);
                                  ("message", JStr "Setting updated successfully");
                                  ("data", JObj [("key", JStr key);
                                                 ("value", JStr v)])]))
        | None =>
            _ ← console "Error updating setting:";
            mret (error_json 500 "Internal Server Error"
                    "Failed to update setting")
        end
    | _ => mret (error_json 400 "Bad Request" "Value must be a string")
    end.

End SettingsRoutes.

(** ** frontend/src/pages/Dashboard.tsx *)

Module Dashboard.

(** [truncateContent(content, maxLength = 100)]; [None] is the omitted
    second argument. *)
Definition truncateContent (content : string) (maxLength : option nat) : string :=
  let maxLength := default 100%nat maxLength in
  if (String.length content <=? maxLength)%nat then content
  else Js.substring0 maxLength content +:+ "...".

End Dashboard.

(** ** The service: one request at a time *)

Inductive Call :=
| Submit (now : Z) (req : Request)
| Approve (now : Z) (req : Request)
| Reject (now : Z) (req : Request)
| ConfirmPosted (now : Z) (req : Request)
| ListPosts (req : Request)
| GetPost (req : Request)
| DeletePost (req : Request)
| Stats
| GetSettings
| PutSettings (req : Request)
| GetSetting (req : Request)
| PutSetting (req : Request).

Definition handle (env : Env) (c : Call) : M Response :=
  match c with
  | Submit now req => PostsRoutes.submit env now req
  | Approve now req => PostsRoutes.approve env now req
  | Reject now req => PostsRoutes.reject env now req
  | ConfirmPosted now req => PostsRoutes.handlePostedConfirmation env now req
  | ListPosts req => PostsRoutes.listPosts req
  | GetPost req => PostsRoutes.getPost req
  | DeletePost req => PostsRoutes.deletePost req
  | Stats => PostsRoutes.stats
  | GetSettings => SettingsRoutes.getAll
  | PutSettings req => SettingsRoutes.putAll req
  | GetSetting req => SettingsRoutes.getKey req
  | PutSetting req => SettingsRoutes.putKey req
  end.

(** The freshly migrated database. *)
Definition initial : World := mkWorld (mkDb [] 1 ∅) [].

Definition run (env : Env) (w : World) (c : Call) : World := (handle env c w).2.

Inductive reachable (env : Env) : World -> Prop :=
| reachable_initial : reachable env initial
| reachable_step w c : reachable env w -> reachable env (run env w c).

(** ** Vocabulary of the properties *)

(** An event of the notification dispatcher: a webhook message (an object
    that starts with [embeds]) or a console line. *)
Definition notify_event (e : Event) : bool :=
  match e with
  | EvFetch _ (JObj ((k, _) :: _)) => String.eqb k "embeds"
  | EvConsole _ => true
  | _ => false
  end.

Definition is_db_event (e : Event) : bool :=
  match e with EvDb _ => true | _ => false end.

(** What the approve handler prints for a callback outcome. *)
Definition callback_log (r : FetchResult) : list Event :=
  match r with
  | FetchResponse st =>
      if response_ok st then [] else [EvConsole "n8n callback failed:"]
  | FetchRejected => [EvConsole "Failed to call n8n callback URL:"]
  end.

(** A POST to the callback URL of [post] whose body is exactly
    [{ post_id, status: "APPROVED", post_content }]. *)
Definition is_callback_for (post : Post) (e : Event) : bool :=
  match e with
  | EvFetch url (JObj [(k1, JNum i); (k2, JStr st); (k3, JStr c)]) =>
      String.eqb url (n8nCallbackUrl post)
      && String.eqb k1 "post_id" && (i =? id post)
      && String.eqb k2 "status" && String.eqb st "APPROVED"
      && String.eqb k3 "post_content" && String.eqb c (content post)
  | _ => false
  end.

(** The same with the member names [id], [status], [content]. *)
Definition is_id_status_content_for (post : Post) (e : Event) : bool :=
  match e with
  | EvFetch url (JObj [(k1, JNum i); (k2, JStr st); (k3, JStr c)]) =>
      String.eqb url (n8nCallbackUrl post)
      && String.eqb k1 "id" && (i =? id post)
      && String.eqb k2 "status" && String.eqb st "APPROVED"
      && String.eqb k3 "content" && String.eqb c (content post)
  | _ => false
  end.

Definition count_events (f : Event -> bool) (l : list Event) : nat :=
  length (List.filter f l).

(** The timestamps agree with the status. *)
Definition timestamps_ok (p : Post) : Prop :=
  (is_Some (approvedAt p) <-> status p = APPROVED \/ status p = POSTED) /\
  (is_Some (postedAt p) <-> status p = POSTED).

(** The edges of the workflow. *)
Inductive edge : PostStatus -> PostStatus -> Prop :=
| edge_approve : edge PENDING APPROVED
| edge_reject : edge PENDING REJECTED
| edge_posted : edge APPROVED POSTED.

(** What every reachable database satisfies. *)
Record Inv (d : Db) : Prop := mkInv {
  inv_ids : NoDup (List.map id (posts d));
  inv_fresh : Forall (fun p => id p < next_id d) (posts d);
  inv_low : Forall (fun p => 1 <= id p) (posts d);
  inv_next : 1 <= next_id d <= 2147483648;
  inv_times : Forall timestamps_ok (posts d);
  inv_content : Forall (fun p => content p <> EmptyString) (posts d)
}.

(** Newest first. *)
Definition newest_first : list Post -> Prop :=
  StronglySorted (fun a b => createdAt b <= createdAt a).

(** A record as a listing shows it. *)
Definition listed (p : Post) : Json :=
  JObj [("id", JNum (id p));
        ("content", JStr (content p));
        ("source", match source p with Some s => JStr s | None => JNull end);
        ("status", JStr (status_string (status p)));
        ("n8n_callback_url", JStr (n8nCallbackUrl p));
        ("created_at", JDate (createdAt p));
        ("approved_at", match approvedAt p with Some t => JDate t | None => JNull end);
        ("posted_at", match postedAt p with Some t => JDate t | None => JNull end)].

(** The shape of a successful listing; a number that is not finite is
    written as [null]. *)
Definition listing (rows : list Post) (total limit offset : Z) : Response :=
  json 200 (JObj [
    ("success", JBool true);
    ("data", JArr (List.map listed rows));
    ("pagination", JObj [("total", JNum total);
                         ("limit", if Js.finite limit then JNum limit else JNull);
                         ("offset", if Js.finite offset then JNum offset else JNull)])]).

(** A [status] parameter the listing accepts: absent, empty, or an enum
    label in any case. *)
Definition status_param_ok (req : Request) : Prop :=
  match q_status req with
  | Some s => s = EmptyString \/ is_Some (status_of_string (Js.toUpperCase s))
  | None => True
  end.

(** A text without the code unit 0. *)
Definition nul_free (s : string) : Prop :=
  ~ In (ascii_of_nat 0) (list_ascii_of_string s).

(** A [limit] parameter the listing accepts: absent, not a number, or a
    number that is not below the 32-bit integers. *)
Definition limit_param_ok (req : Request) : Prop :=
  forall s n, q_limit req = Some s -> Js.parseInt s = Some n -> -2147483648 <= n.

(** An [offset] parameter the listing accepts: absent, not a number, or a
    number from 0 to 2147483647. *)
Definition offset_param_ok (req : Request) : Prop :=
  forall s o,
    q_offset req = Some s -> Js.parseInt s = Some o -> 0 <= o <= 2147483647.

(** The three updates of a row, each with the status it starts from. *)
Inductive transition : Post -> (Post -> Post) -> Prop :=
| transition_approve now p :
    status p = PENDING -> transition p (PostsRoutes.set_approved now)
| transition_reject p :
    status p = PENDING -> transition p PostsRoutes.set_rejected
| transition_posted now p :
    status p = APPROVED -> transition p (PostsRoutes.set_posted now).

(** What one request can do to the database. *)
Inductive db_step (d : Db) : Db -> Prop :=
| db_settings m : db_step d (mkDb (posts d) (next_id d) m)
| db_skip :
    next_id d <= 2147483647 ->
    db_step d (mkDb (posts d) (next_id d + 1) (settings d))
| db_create now c s url :
    c <> EmptyString -> next_id d <= 2147483647 ->
    db_step d (mkDb (posts d ++ [mkPost (next_id d) c s PENDING url now None None])
                 (next_id d + 1) (settings d))
| db_update i p f :
    Prisma.findUnique_in i (posts d) = Some p -> transition p f ->
    db_step d (Prisma.with_posts d (Prisma.update_in i f (posts d)))
| db_delete i :
    db_step d (Prisma.with_posts d
                 (List.filter (fun p => negb (id p =? i)) (posts d))).

(** A small deployment used to exercise the statements: no environment
    variables, a network that answers 500 to every request, and a clock
    that reads 20 seconds and one more for every event so far. *)
Definition demo_env : Env :=
  mkEnv None None (fun _ _ _ => FetchResponse 500)
    (fun tr => 20 + Z.of_nat (length tr))
    (fun t => "1970-01-01T00:00:" +:+ Js.showZ t +:+ ".000Z").

Definition demo_request (p : string) : Request :=
  mkRequest p (Some "application/json") None None None (JObj []).

Definition demo_submission : Request :=
  mkRequest "" None None None None
    (JObj [("content", JStr "Hello");
           ("n8n_callback_url", JStr "https://cb.example/x")]).

Definition demo_pending : World := run demo_env initial (Submit 10 demo_submission).

Definition demo_hello : Post :=
  mkPost 1 "Hello" None PENDING "https://cb.example/x" 10 None None.

Definition demo_approved : World :=
  run demo_env demo_pending (Approve 11 (demo_request "1")).

(** The settings after the loop of the bulk update. *)
Fixpoint upserted (l : list (string * Json)) (m : gmap string string)
    : gmap string string :=
  match l with
  | [] => m
  | (key, value) :: r =>
      if negb (SettingsRoutes.allowed key) then upserted r m
      else match value with
           | JStr v =>
               if Prisma.has_nul key || Prisma.has_nul v then upserted r m
               else upserted r (<[key := v]> m)
           | _ => upserted r m
           end
  end.

Definition demo_list (limit : string) : Request :=
  mkRequest "" None (Some "pending") (Some limit) None (JObj []).

Definition demo_settings : Request :=
  mkRequest "" None None None None
    (JObj [("discord_webhook_url", JStr "https://discord.example/hook");
           ("theme", JStr "dark");
           ("n8n_base_url", JNum 3)]).

(** Several requests, one after the other. *)
Definition run_all (env : Env) (w : World) (cs : list Call) : World :=
  fold_left (run env) cs w.

(** The routes that only read. *)
Definition read_only (c : Call) : bool :=
  match c with
  | ListPosts _ | GetPost _ | Stats | GetSettings | GetSetting _ => true
  | _ => false
  end.

Definition is_json_body (r : Response) : bool :=
  match payload r with JsonBody _ => true | HtmlBody _ => false end.

(** How a record may differ from an earlier version of itself. *)
Record evolves (p p' : Post) : Prop := mkEvolves {
  ev_id : id p' = id p;
  ev_content : content p' = content p;
  ev_source : source p' = source p;
  ev_url : n8nCallbackUrl p' = n8nCallbackUrl p;
  ev_created : createdAt p' = createdAt p;
  ev_status : clos_refl_trans PostStatus edge (status p) (status p');
  ev_terminal : status p = REJECTED \/ status p = POSTED -> p' = p;
  ev_approved : forall t, approvedAt p = Some t -> approvedAt p' = Some t
}.

(** No row of the database has the id [i]. *)
Definition absent (i : Z) (d : Db) : Prop :=
  Prisma.findUnique_in i (posts d) = None.

Definition demo_approve_then_post : list Call :=
  [Approve 11 (demo_request "1"); ConfirmPosted 12 (demo_request "1")].

Definition demo_hooked : World :=
  run demo_env demo_pending
    (PutSetting (mkRequest "discord_webhook_url" None None None None
                   (JObj [("value", JStr "https://discord.example/hook")]))).

(** The answers of the three transitions, as the handlers build them. *)
Definition approved_response (req : Request) (updatedPost : Post) : Response :=
  if PostsRoutes.wantsJson req then
    json 200 (JObj [
      ("success", JBool true);
      ("message", JStr "Post approved and sent for posting");
      ("data", JObj [
         ("id", JNum (id updatedPost));
         ("status", JStr (status_string (status updatedPost)));
         ("approved_at", JsVal.of_option_date (approvedAt updatedPost))])])
  else
    send 200 (PostsRoutes.generateHtmlResponse "Post Approved"
                "Post Approved. Pushing to LinkedIn." PostsRoutes.success).

Definition rejected_response (req : Request) (updatedPost : Post) : Response :=
  if PostsRoutes.wantsJson req then
    json 200 (JObj [
      ("success", JBool true);
      ("message", JStr "Post rejected");
      ("data", JObj [
         ("id", JNum (id updatedPost));
         ("status", JStr (status_string (status updatedPost)))])])
  else
    send 200 (PostsRoutes.generateHtmlResponse "Post Rejected"
                "Post Rejected. No action taken." PostsRoutes.success).

Definition posted_response (updatedPost : Post) : Response :=
  json 200 (JObj [
    ("success", JBool true);
    ("message", JStr "Post marked as posted successfully");
    ("data", JObj [
       ("id", JNum (id updatedPost));
       ("status", JStr (status_string (status updatedPost)));
       ("posted_at", JsVal.of_option_date (postedAt updatedPost))])]).

(** The number of records in a status. *)
Definition count_status (st : PostStatus) (l : list Post) : Z :=
  Z.of_nat (length (List.filter (fun p => PostStatus_eqb (status p) st) l)).

(** [true] exactly for a 2xx answer. *)
Definition fetch_ok (r : FetchResult) : bool :=
  match r with FetchResponse c => response_ok c | FetchRejected => false end.

(** ** Unfolding the monad *)

Ltac run_m :=
  unfold mbind, M_bind, mret, M_ret, get_db, put_db, console, emit, fetch,
    read_clock in *;
  cbn beta iota; cbn [fst snd db trace posts next_id settings] in *.

(** ** The notification dispatcher touches no row *)

Lemma getWebhookUrl_run env w :
  DiscordService.getWebhookUrl env w =
    (match DiscordService.nonempty (settings (db w) !! "discord_webhook_url") with
     | Some v => Some v
     | None => DiscordService.nonempty (DISCORD_WEBHOOK_URL env)
     end, w).
Proof. reflexivity. Qed.

Lemma sendStatusUpdate_run env now i st c w :
  exists b ev,
    DiscordService.sendStatusUpdate env now i st c w
      = (b, mkWorld (db w) (trace w ++ ev)) /\
    forallb notify_event ev = true.
Proof.
  unfold DiscordService.sendStatusUpdate.
  unfold mbind at 1, M_bind at 1. rewrite getWebhookUrl_run.
  run_m.
  destruct w as [d t]; cbn.
  destruct (match DiscordService.nonempty (settings d !! "discord_webhook_url") with
            | Some v => Some v
            | None => DiscordService.nonempty (DISCORD_WEBHOOK_URL env)
            end) as [url|].
  - match goal with |- context [network env ?a ?b ?c] =>
      destruct (network env a b c) as [code|] end.
    + eexists _, [_]; split; [reflexivity | reflexivity].
    + eexists _, [_; _]; split; [cbn; rewrite <- app_assoc; reflexivity | reflexivity].
  - exists false, []. rewrite app_nil_r. split; reflexivity.
Qed.

Lemma sendApprovalNotification_run env now i c src w :
  exists b ev,
    DiscordService.sendApprovalNotification env now i c src w
      = (b, mkWorld (db w) (trace w ++ ev)) /\
    forallb notify_event ev = true.
Proof.
  unfold DiscordService.sendApprovalNotification.
  unfold mbind at 1, M_bind at 1. rewrite getWebhookUrl_run.
  run_m.
  destruct w as [d t]; cbn.
  destruct (match DiscordService.nonempty (settings d !! "discord_webhook_url") with
            | Some v => Some v
            | None => DiscordService.nonempty (DISCORD_WEBHOOK_URL env)
            end) as [url|].
  - match goal with |- context [network env ?a ?b ?c] =>
      destruct (network env a b c) as [code|] end.
    + destruct (response_ok code).
      * eexists _, [_]; split; reflexivity.
      * eexists _, [_; _]; split; [cbn; rewrite <- app_assoc; reflexivity | reflexivity].
    + eexists _, [_; _]; split; [cbn; rewrite <- app_assoc; reflexivity | reflexivity].
  - eexists false, [_]. split; reflexivity.
Qed.

(** ** Rows: lookup and update *)

Lemma findUnique_in_int4 i l p :
  Prisma.findUnique_in i l = Some p -> Prisma.int4 i = true.
Proof.
  unfold Prisma.findUnique_in. destruct (Prisma.int4 i); [reflexivity | discriminate].
Qed.

Lemma int4_range i :
  -2147483648 <= i <= 2147483647 -> Prisma.int4 i = true.
Proof. intros H. unfold Prisma.int4. apply andb_true_iff. lia. Qed.

Lemma findUnique_in_id i l p :
  Prisma.findUnique_in i l = Some p -> id p = i /\ In p l.
Proof.
  unfold Prisma.findUnique_in. destruct (Prisma.int4 i); [|discriminate]. intros H.
  pose proof (find_some _ _ H) as [Hin Heq].
  split; [lia | exact Hin].
Qed.

Ltac found H := rewrite ?(findUnique_in_int4 _ _ _ H), ?H.

Lemma findUnique_in_update i f l p :
  Prisma.findUnique_in i l = Some p -> id (f p) = id p ->
  Prisma.findUnique_in i (Prisma.update_in i f l) = Some (f p).
Proof.
  unfold Prisma.findUnique_in. destruct (Prisma.int4 i); [|discriminate].
  induction l as [|q r IH]; cbn; [discriminate|].
  destruct (id q =? i) eqn:E; intros H Hid.
  - injection H as ->. cbn. rewrite Hid, E. reflexivity.
  - cbn. rewrite E. auto.
Qed.

Lemma PostStatus_eqb_eq a b : PostStatus_eqb a b = true <-> a = b.
Proof. destruct a, b; cbn; split; congruence. Qed.

Lemma PostStatus_eqb_neq a b : PostStatus_eqb a b = false <-> a <> b.
Proof. destruct a, b; cbn; split; congruence. Qed.

(** ** The approve handler, case by case *)

Section Approve.
Context (env : Env) (now : Z) (req : Request) (w : World).

Lemma approve_invalid_id :
  Js.parseInt (param req) = None ->
  PostsRoutes.approve env now req w =
    (PostsRoutes.fail req 400 "Bad Request" "Error" "Invalid post ID"
       PostsRoutes.error, w).
Proof. unfold PostsRoutes.approve. intros ->. reflexivity. Qed.

Lemma approve_missing i :
  Js.parseInt (param req) = Some i ->
  -2147483648 <= i <= 2147483647 ->
  Prisma.findUnique_in i (posts (db w)) = None ->
  PostsRoutes.approve env now req w =
    (PostsRoutes.fail req 404 "Not Found" "Not Found" "Post not found"
       PostsRoutes.error, w).
Proof.
  unfold PostsRoutes.approve, Prisma.post_findUnique. intros -> Hi H.
  run_m. rewrite (int4_range _ Hi), H. reflexivity.
Qed.

Lemma approve_raised i :
  Js.parseInt (param req) = Some i ->
  Prisma.int4 i = false ->
  PostsRoutes.approve env now req w =
    (PostsRoutes.fail req 500 "Internal Server Error" "Error"
       "Failed to approve post" PostsRoutes.error,
     mkWorld (db w) (trace w ++ [EvConsole "Error approving post:"])).
Proof.
  unfold PostsRoutes.approve, Prisma.post_findUnique. intros -> H.
  run_m. rewrite H. reflexivity.
Qed.

Lemma approve_processed i post :
  Js.parseInt (param req) = Some i ->
  Prisma.findUnique_in i (posts (db w)) = Some post ->
  status post <> PENDING ->
  PostsRoutes.approve env now req w =
    (PostsRoutes.fail req 400 "Bad Request" "Already Processed"
       (PostsRoutes.already_message post) PostsRoutes.warning, w).
Proof.
  unfold PostsRoutes.approve, Prisma.post_findUnique. intros -> H Hst.
  run_m. found H.
  apply PostStatus_eqb_neq in Hst. rewrite Hst. reflexivity.
Qed.

Lemma approve_pending i post :
  Js.parseInt (param req) = Some i ->
  Prisma.findUnique_in i (posts (db w)) = Some post ->
  status post = PENDING ->
  let stored := PostsRoutes.set_approved now post in
  let committed := trace w ++ [EvDb (PostUpdated stored)] in
  let outcome :=
    network env committed (n8nCallbackUrl post) (PostsRoutes.callback_body post) in
  exists r ev,
    PostsRoutes.approve env now req w =
      (r, mkWorld
            (Prisma.with_posts (db w)
               (Prisma.update_in i (PostsRoutes.set_approved now) (posts (db w))))
            (committed
               ++ EvFetch (n8nCallbackUrl post) (PostsRoutes.callback_body post)
               :: callback_log outcome ++ ev)) /\
    code r = 200 /\
    forallb notify_event ev = true.
Proof.
  intros Hp Hf Hst stored committed outcome.
  unfold PostsRoutes.approve, Prisma.post_findUnique, Prisma.post_update.
  rewrite Hp. run_m. found Hf. rewrite Hst.
  cbn [PostStatus_eqb negb]. run_m. found Hf. run_m.
  fold stored. fold committed. fold outcome.
  assert (Hcode : code (if PostsRoutes.wantsJson req
                        then json 200 (JObj [
                          ("success", JBool true);
                          ("message", JStr "Post approved and sent for posting");
                          ("data", JObj [
                             ("id", JNum (id stored));
                             ("status", JStr (status_string (status stored)));
                             ("approved_at",
                              JsVal.of_option_date (approvedAt stored))])])
                        else send 200 (PostsRoutes.generateHtmlResponse
                               "Post Approved"
                               "Post Approved. Pushing to LinkedIn."
                               PostsRoutes.success)) = 200).
  { destruct (PostsRoutes.wantsJson req); reflexivity. }
  unfold callback_log.
  destruct outcome as [st|]; [destruct (response_ok st)|]; run_m;
    match goal with
    | |- context [DiscordService.sendStatusUpdate env ?t i UPD_APPROVED ?c ?w0] =>
        destruct (sendStatusUpdate_run env t i UPD_APPROVED c w0)
          as (b & ev & -> & Hev)
    end;
    eexists _, ev; (split; [|split; [exact Hcode | exact Hev]]);
    cbn [db trace]; rewrite <- ?app_assoc; reflexivity.
Qed.

End Approve.

(** ** The reject handler, case by case *)

Section Reject.
Context (env : Env) (now : Z) (req : Request) (w : World).

Lemma reject_invalid_id :
  Js.parseInt (param req) = None ->
  PostsRoutes.reject env now req w =
    (PostsRoutes.fail req 400 "Bad Request" "Error" "Invalid post ID"
       PostsRoutes.error, w).
Proof. unfold PostsRoutes.reject. intros ->. reflexivity. Qed.

Lemma reject_missing i :
  Js.parseInt (param req) = Some i ->
  -2147483648 <= i <= 2147483647 ->
  Prisma.findUnique_in i (posts (db w)) = None ->
  PostsRoutes.reject env now req w =
    (PostsRoutes.fail req 404 "Not Found" "Not Found" "Post not found"
       PostsRoutes.error, w).
Proof.
  unfold PostsRoutes.reject, Prisma.post_findUnique. intros -> Hi H.
  run_m. rewrite (int4_range _ Hi), H. reflexivity.
Qed.

Lemma reject_raised i :
  Js.parseInt (param req) = Some i ->
  Prisma.int4 i = false ->
  PostsRoutes.reject env now req w =
    (PostsRoutes.fail req 500 "Internal Server Error" "Error"
       "Failed to reject post" PostsRoutes.error,
     mkWorld (db w) (trace w ++ [EvConsole "Error rejecting post:"])).
Proof.
  unfold PostsRoutes.reject, Prisma.post_findUnique. intros -> H.
  run_m. rewrite H. reflexivity.
Qed.

Lemma reject_processed i post :
  Js.parseInt (param req) = Some i ->
  Prisma.findUnique_in i (posts (db w)) = Some post ->
  status post <> PENDING ->
  PostsRoutes.reject env now req w =
    (PostsRoutes.fail req 400 "Bad Request" "Already Processed"
       (PostsRoutes.already_message post) PostsRoutes.warning, w).
Proof.
  unfold PostsRoutes.reject, Prisma.post_findUnique. intros -> H Hst.
  run_m. found H.
  apply PostStatus_eqb_neq in Hst. rewrite Hst. reflexivity.
Qed.

Lemma reject_pending i post :
  Js.parseInt (param req) = Some i ->
  Prisma.findUnique_in i (posts (db w)) = Some post ->
  status post = PENDING ->
  exists r ev,
    PostsRoutes.reject env now req w =
      (r, mkWorld
            (Prisma.with_posts (db w)
               (Prisma.update_in i PostsRoutes.set_rejected (posts (db w))))
            (trace w ++ EvDb (PostUpdated (PostsRoutes.set_rejected post)) :: ev)) /\
    code r = 200 /\
    forallb notify_event ev = true.
Proof.
  intros Hp Hf Hst.
  unfold PostsRoutes.reject, Prisma.post_findUnique, Prisma.post_update.
  rewrite Hp. run_m. found Hf. rewrite Hst.
  cbn [PostStatus_eqb negb]. run_m. found Hf. run_m.
  match goal with
  | |- context [DiscordService.sendStatusUpdate env ?t i UPD_REJECTED ?c ?w0] =>
      destruct (sendStatusUpdate_run env t i UPD_REJECTED c w0)
        as (b & ev & -> & Hev)
  end.
  eexists _, ev. split; [|split; [|exact Hev]].
  - cbn [db trace]. rewrite <- ?app_assoc. reflexivity.
  - destruct (PostsRoutes.wantsJson req); reflexivity.
Qed.

End Reject.

(** ** The posted confirmation, case by case *)

Section Posted.
Context (env : Env) (now : Z) (req : Request) (w : World).

Lemma posted_invalid_id :
  Js.parseInt (param req) = None ->
  PostsRoutes.handlePostedConfirmation env now req w =
    (error_json 400 "Bad Request" "Invalid post ID", w).
Proof. unfold PostsRoutes.handlePostedConfirmation. intros ->. reflexivity. Qed.

Lemma posted_missing i :
  Js.parseInt (param req) = Some i ->
  -2147483648 <= i <= 2147483647 ->
  Prisma.findUnique_in i (posts (db w)) = None ->
  PostsRoutes.handlePostedConfirmation env now req w =
    (error_json 404 "Not Found" "Post not found", w).
Proof.
  unfold PostsRoutes.handlePostedConfirmation, Prisma.post_findUnique.
  intros -> Hi H. run_m. rewrite (int4_range _ Hi), H. reflexivity.
Qed.

Lemma posted_raised i :
  Js.parseInt (param req) = Some i ->
  Prisma.int4 i = false ->
  PostsRoutes.handlePostedConfirmation env now req w =
    (error_json 500 "Internal Server Error" "Failed to mark post as posted",
     mkWorld (db w) (trace w ++ [EvConsole "Error marking post as posted:"])).
Proof.
  unfold PostsRoutes.handlePostedConfirmation, Prisma.post_findUnique.
  intros -> H. run_m. rewrite H. reflexivity.
Qed.

Lemma posted_refused i post :
  Js.parseInt (param req) = Some i ->
  Prisma.findUnique_in i (posts (db w)) = Some post ->
  status post <> APPROVED ->
  PostsRoutes.handlePostedConfirmation env now req w =
    (error_json 400 "Bad Request" (PostsRoutes.posted_message post), w).
Proof.
  unfold PostsRoutes.handlePostedConfirmation, Prisma.post_findUnique.
  intros -> H Hst. run_m. found H.
  apply PostStatus_eqb_neq in Hst. rewrite Hst. reflexivity.
Qed.

Lemma posted_approved i post :
  Js.parseInt (param req) = Some i ->
  Prisma.findUnique_in i (posts (db w)) = Some post ->
  status post = APPROVED ->
  exists r ev,
    PostsRoutes.handlePostedConfirmation env now req w =
      (r, mkWorld
            (Prisma.with_posts (db w)
               (Prisma.update_in i (PostsRoutes.set_posted now) (posts (db w))))
            (trace w ++ EvDb (PostUpdated (PostsRoutes.set_posted now post)) :: ev)) /\
    code r = 200 /\
    forallb notify_event ev = true.
Proof.
  intros Hp Hf Hst.
  unfold PostsRoutes.handlePostedConfirmation, Prisma.post_findUnique,
    Prisma.post_update.
  rewrite Hp. run_m. found Hf. rewrite Hst.
  cbn [PostStatus_eqb negb]. run_m. found Hf. run_m.
  match goal with
  | |- context [DiscordService.sendStatusUpdate env ?t i UPD_POSTED ?c ?w0] =>
      destruct (sendStatusUpdate_run env t i UPD_POSTED c w0)
        as (b & ev & -> & Hev)
  end.
  eexists _, ev. split.
  { cbn [db trace]. rewrite <- ?app_assoc. reflexivity. }
  split; [reflexivity | exact Hev].
Qed.

End Posted.

(** ** Every request is a database step *)

Lemma db_same (d : Db) : db_step d d.
Proof. destruct d as [l n m]. exact (db_settings (mkDb l n m) m). Qed.

Lemma upsertEntries_run l w :
  exists b m ev,
    SettingsRoutes.upsertEntries l w =
      (b, mkWorld (mkDb (posts (db w)) (next_id (db w)) m) (trace w ++ ev)).
Proof.
  revert w. induction l as [|[k v] r IH]; intros [[ps n m] t];
    cbn [SettingsRoutes.upsertEntries].
  - exists true, m, []. rewrite app_nil_r. reflexivity.
  - destruct (SettingsRoutes.allowed k); cbn [negb]; [|apply (IH (mkWorld _ _))].
    destruct v; try apply (IH (mkWorld _ _)).
    unfold Prisma.settings_upsert. run_m.
    destruct (Prisma.has_nul k || Prisma.has_nul s); run_m.
    + edestruct IH as (b & m' & ev & ->). cbn [db trace posts next_id].
      eexists _, _, ev. reflexivity.
    + edestruct IH as (b & m' & ev & ->). cbn [db trace posts next_id].
      eexists _, _, (_ :: ev). rewrite <- app_assoc. reflexivity.
Qed.

Lemma required_string v :
  negb (JsVal.truthy v) || negb (JsVal.is_string v) = false ->
  exists c, v = Some (JStr c) /\ c <> EmptyString.
Proof.
  destruct v as [[|?|?|c|?|?|?]|]; cbn; rewrite ?orb_true_r; try discriminate.
  destruct c; cbn; [discriminate|].
  intros _. eexists; split; [reflexivity | discriminate].
Qed.

Lemma post_create_cases now c src url w :
  (next_id (db w) <= 2147483647 /\
   exists s u,
     let p := mkPost (next_id (db w)) c s PENDING u now None None in
     Prisma.post_create now c src url w =
       (Some p,
        mkWorld (mkDb (posts (db w) ++ [p]) (next_id (db w) + 1) (settings (db w)))
          (trace w ++ [EvDb (PostCreated p)]))) \/
  Prisma.post_create now c src url w = (None, w) \/
  (next_id (db w) <= 2147483647 /\
   Prisma.post_create now c src url w =
     (None,
      mkWorld (mkDb (posts (db w)) (next_id (db w) + 1) (settings (db w)))
        (trace w))).
Proof.
  unfold Prisma.post_create. run_m. destruct w as [d t]. cbn [db trace].
  destruct (match src with
            | Some (JStr s) => Some (Some s)
            | Some _ => None
            | None => Some None
            end) as [s|]; [|right; left; reflexivity].
  destruct (Prisma.has_nul c || _ || _); [right; left; reflexivity|].
  destruct (next_id d <=? 2147483647) eqn:Hn; cbn [negb];
    [|right; left; reflexivity].
  apply Z.leb_le in Hn.
  destruct (match s with
            | Some t => Some <$> Prisma.varchar 255 t
            | None => Some None
            end) as [s'|]; [|right; right; split; [exact Hn | reflexivity]].
  destruct (Prisma.varchar 500 url) as [u|];
    [|right; right; split; [exact Hn | reflexivity]].
  left. split; [exact Hn|]. exists s', u. reflexivity.
Qed.

Lemma submit_db_step env now req w :
  db_step (db w) (db (PostsRoutes.submit env now req w).2).
Proof.
  unfold PostsRoutes.submit.
  destruct (negb (JsVal.truthy (JsVal.get (body req) "content")) || _) eqn:Ec;
    [apply db_same|].
  destruct (negb (JsVal.truthy (JsVal.get (body req) "n8n_callback_url")) || _)
    eqn:Eu; [apply db_same|].
  apply required_string in Ec as (c & -> & Hc).
  apply required_string in Eu as (u & -> & Hu).
  cbn [PostsRoutes.as_string]. unfold mbind, M_bind.
  match goal with
  | |- context [Prisma.post_create now c ?src u w] =>
      destruct (post_create_cases now c src u w)
        as [(Hn & s & url & Heq)|[Heq|[Hn Heq]]]; rewrite Heq
  end.
  - run_m.
    match goal with
    | |- context [DiscordService.sendApprovalNotification env ?t ?i ?c ?s ?w0] =>
        destruct (sendApprovalNotification_run env t i c s w0) as (r & ev & -> & _)
    end.
    cbn. apply db_create; [exact Hc | exact Hn].
  - apply db_same.
  - cbn. apply db_skip. exact Hn.
Qed.

Lemma int4_true i : Prisma.int4 i = true -> -2147483648 <= i <= 2147483647.
Proof. unfold Prisma.int4. intros H. apply andb_true_iff in H. lia. Qed.

Lemma approve_db_step env now req w :
  db_step (db w) (db (PostsRoutes.approve env now req w).2).
Proof.
  destruct (Js.parseInt (param req)) as [i|] eqn:Hp.
  - destruct (Prisma.findUnique_in i (posts (db w))) as [post|] eqn:Hf.
    + destruct (PostStatus_eqb (status post) PENDING) eqn:Hst.
      * apply PostStatus_eqb_eq in Hst.
        destruct (approve_pending env now req w i post Hp Hf Hst)
          as (r & ev & -> & _).
        cbn. eapply db_update; [exact Hf | constructor; exact Hst].
      * apply PostStatus_eqb_neq in Hst.
        rewrite (approve_processed env now req w i post Hp Hf Hst).
        apply db_same.
    + destruct (Prisma.int4 i) eqn:Hi.
      * rewrite (approve_missing env now req w i Hp (int4_true i Hi) Hf).
        apply db_same.
      * rewrite (approve_raised env now req w i Hp Hi). apply db_same.
  - rewrite (approve_invalid_id env now req w Hp). apply db_same.
Qed.

Lemma reject_db_step env now req w :
  db_step (db w) (db (PostsRoutes.reject env now req w).2).
Proof.
  destruct (Js.parseInt (param req)) as [i|] eqn:Hp.
  - destruct (Prisma.findUnique_in i (posts (db w))) as [post|] eqn:Hf.
    + destruct (PostStatus_eqb (status post) PENDING) eqn:Hst.
      * apply PostStatus_eqb_eq in Hst.
        destruct (reject_pending env now req w i post Hp Hf Hst)
          as (r & ev & -> & _).
        cbn. eapply db_update; [exact Hf | constructor; exact Hst].
      * apply PostStatus_eqb_neq in Hst.
        rewrite (reject_processed env now req w i post Hp Hf Hst).
        apply db_same.
    + destruct (Prisma.int4 i) eqn:Hi.
      * rewrite (reject_missing env now req w i Hp (int4_true i Hi) Hf).
        apply db_same.
      * rewrite (reject_raised env now req w i Hp Hi). apply db_same.
  - rewrite (reject_invalid_id env now req w Hp). apply db_same.
Qed.

Lemma posted_db_step env now req w :
  db_step (db w) (db (PostsRoutes.handlePostedConfirmation env now req w).2).
Proof.
  destruct (Js.parseInt (param req)) as [i|] eqn:Hp.
  - destruct (Prisma.findUnique_in i (posts (db w))) as [post|] eqn:Hf.
    + destruct (PostStatus_eqb (status post) APPROVED) eqn:Hst.
      * apply PostStatus_eqb_eq in Hst.
        destruct (posted_approved env now req w i post Hp Hf Hst)
          as (r & ev & -> & _).
        cbn. eapply db_update; [exact Hf | constructor; exact Hst].
      * apply PostStatus_eqb_neq in Hst.
        rewrite (posted_refused env now req w i post Hp Hf Hst).
        apply db_same.
    + destruct (Prisma.int4 i) eqn:Hi.
      * rewrite (posted_missing env now req w i Hp (int4_true i Hi) Hf).
        apply db_same.
      * rewrite (posted_raised env now req w i Hp Hi). apply db_same.
  - rewrite (posted_invalid_id env now req w Hp). apply db_same.
Qed.

Lemma listed_post_json rows :
  List.map PostsRoutes.post_json rows = List.map listed rows.
Proof.
  apply map_ext. intros p. unfold PostsRoutes.post_json, listed.
  destruct (source p), (approvedAt p), (postedAt p); reflexivity.
Qed.

Lemma listPosts_run req w :
  PostsRoutes.listPosts req w =
    let failed :=
      (PostsRoutes.list_failed,
       mkWorld (db w) (trace w ++ [EvConsole "Error fetching posts:"])) in
    match Prisma.where_ok (PostsRoutes.list_where req) with
    | Some keep =>
        match Prisma.page (Z.min (PostsRoutes.list_limit req) 100)
                (PostsRoutes.list_offset req)
                (Prisma.sort_desc (List.filter keep (posts (db w)))) with
        | Some rows =>
            (listing rows (Z.of_nat (length (List.filter keep (posts (db w)))))
               (PostsRoutes.list_limit req) (PostsRoutes.list_offset req), w)
        | None => failed
        end
    | None => failed
    end.
Proof.
  unfold PostsRoutes.listPosts, Prisma.post_findMany, Prisma.post_count.
  run_m.
  destruct (Prisma.where_ok (PostsRoutes.list_where req)); run_m; [|reflexivity].
  destruct (Prisma.page _ _ _); run_m; [|reflexivity].
  unfold listing. rewrite listed_post_json. reflexivity.
Qed.

Lemma handle_db_step env c w : db_step (db w) (db (run env w c)).
Proof.
  unfold run. destruct c; cbn [handle].
  - apply submit_db_step.
  - apply approve_db_step.
  - apply reject_db_step.
  - apply posted_db_step.
  - rewrite listPosts_run. cbn zeta.
    destruct (Prisma.where_ok _); [destruct (Prisma.page _ _ _)|]; apply db_same.
  - unfold PostsRoutes.getPost, Prisma.post_findUnique.
    destruct (Js.parseInt _); run_m; [|apply db_same].
    destruct (Prisma.int4 _); [|apply db_same].
    destruct (Prisma.findUnique_in _ _); apply db_same.
  - unfold PostsRoutes.deletePost, Prisma.post_findUnique, Prisma.post_delete.
    destruct (Js.parseInt _); run_m; [|apply db_same].
    destruct (Prisma.int4 _); [|apply db_same].
    destruct (Prisma.findUnique_in _ _); run_m; [apply db_delete | apply db_same].
  - unfold PostsRoutes.stats, Prisma.post_count.
    run_m. cbn. apply db_same.
  - unfold SettingsRoutes.getAll, Prisma.settings_findMany. run_m. apply db_same.
  - unfold SettingsRoutes.putAll, Prisma.settings_findMany.
    destruct (negb _ || negb _); run_m; [apply db_same|].
    destruct (upsertEntries_run (JsVal.entries (body req)) w) as (b & m & ev & ->).
    destruct b; cbn; apply db_settings.
  - unfold SettingsRoutes.getKey, Prisma.settings_findUnique.
    run_m. destruct (Prisma.has_nul _); [apply db_same|].
    destruct (settings (db w) !! param req); apply db_same.
  - unfold SettingsRoutes.putKey, Prisma.settings_upsert.
    destruct (negb _); run_m; [apply db_same|].
    destruct (JsVal.get (body req) "value") as [[|?|?|v|?|?|?]|]; run_m;
      try apply db_same.
    destruct (Prisma.has_nul _ || Prisma.has_nul _); run_m;
      [apply db_same | apply db_settings].
Qed.

(** ** The invariant *)

Lemma transition_id p f : transition p f -> forall q, id (f q) = id q.
Proof. destruct 1; reflexivity. Qed.

Lemma transition_content p f : transition p f -> content (f p) = content p.
Proof. destruct 1; reflexivity. Qed.

Lemma transition_edge p f : transition p f -> edge (status p) (status (f p)).
Proof. destruct 1 as [now p H|p H|now p H]; rewrite H; constructor. Qed.

Lemma transition_times p f :
  transition p f -> timestamps_ok p -> timestamps_ok (f p).
Proof.
  unfold timestamps_ok.
  destruct 1 as [now p H|p H|now p H]; destruct p as [i c s st u ca aa pa];
    cbn in *; subst st; intros [Ha Hp]; split; split;
    try (intros _; eauto; fail); try (intros [?|?]; discriminate);
    try discriminate.
  - intros Hs. apply Hp in Hs. discriminate.
  - intros Hs. apply Ha in Hs as [?|?]; discriminate.
  - intros Hs. apply Hp in Hs. discriminate.
  - intros _. apply Ha. now left.
Qed.

Lemma update_in_ids i f l :
  (forall q, id (f q) = id q) ->
  List.map id (Prisma.update_in i f l) = List.map id l.
Proof.
  intros Hid. induction l as [|q r IH]; cbn; [reflexivity|].
  destruct (id q =? i); cbn; [rewrite Hid | rewrite IH]; reflexivity.
Qed.

Lemma update_in_Forall (P : Post -> Prop) i f l p :
  Prisma.findUnique_in i l = Some p ->
  Forall P l -> P (f p) -> Forall P (Prisma.update_in i f l).
Proof.
  unfold Prisma.findUnique_in. destruct (Prisma.int4 i); [|discriminate].
  induction l as [|q r IH]; cbn; [discriminate|].
  intros Hf Hall Hp. inversion Hall as [|? ? Hq Hr]; subst.
  destruct (id q =? i).
  - injection Hf as ->. constructor; assumption.
  - constructor; [assumption | auto].
Qed.

Lemma update_in_In i f l q :
  Prisma.int4 i = true ->
  In q (Prisma.update_in i f l) ->
  In q l \/ exists p, Prisma.findUnique_in i l = Some p /\ q = f p.
Proof.
  unfold Prisma.findUnique_in. intros ->.
  induction l as [|a r IH]; cbn; [tauto|].
  destruct (id a =? i); cbn.
  - intros [<-|H]; [right; eauto | left; tauto].
  - intros [<-|H]; [left; tauto|].
    destruct (IH H) as [?|?]; [left; tauto | right; assumption].
Qed.

Lemma unique_by_id l p q :
  NoDup (List.map id l) -> In p l -> In q l -> id p = id q -> p = q.
Proof.
  induction l as [|a r IH]; cbn; [tauto|].
  intros Hnd [->|Hp] [->|Hq] Heq; try reflexivity.
  - apply NoDup_cons in Hnd as [Hn _]. exfalso. apply Hn.
    rewrite Heq. apply list_elem_of_In, in_map, Hq.
  - apply NoDup_cons in Hnd as [Hn _]. exfalso. apply Hn.
    rewrite <- Heq. apply list_elem_of_In, in_map, Hp.
  - apply NoDup_cons in Hnd as [_ Hnd]. auto.
Qed.

Lemma filter_sublist {A} (f : A -> bool) (l : list A) :
  List.filter f l `sublist_of` l.
Proof.
  induction l as [|a r IH]; cbn; [constructor|].
  destruct (f a); [apply sublist_skip | apply sublist_cons]; exact IH.
Qed.

Lemma db_step_Inv d d' : db_step d d' -> Inv d -> Inv d'.
Proof.
  intros Hstep [Hids Hfresh Hlow Hnext Htimes Hcontent].
  destruct Hstep as [m|Hs|now c s url Hc Hn|i p f Hf Htr|i]; constructor; cbn;
    try assumption.
  - eapply Forall_impl; [exact Hfresh|]. cbn. intros; lia.
  - lia.
  - rewrite map_app. cbn. apply NoDup_app. split; [assumption|]. split.
    + intros x Hx Hx'. apply list_elem_of_In in Hx.
      apply in_map_iff in Hx as (q & <- & Hq).
      rewrite Forall_forall in Hfresh. apply list_elem_of_In in Hq.
      specialize (Hfresh q Hq).
      apply list_elem_of_In in Hx'. cbn in Hx'. lia.
    + apply NoDup_singleton.
  - apply Forall_app. split.
    + eapply Forall_impl; [exact Hfresh|]. cbn. intros; lia.
    + constructor; [cbn; lia | constructor].
  - apply Forall_app. split; [assumption|].
    constructor; [cbn; lia | constructor].
  - lia.
  - apply Forall_app. split; [assumption|].
    constructor; [|constructor].
    split; cbn; split; try (intros [? ?]; discriminate);
      try (intros [?|?]; discriminate); discriminate.
  - apply Forall_app. split; [assumption|].
    constructor; [exact Hc | constructor].
  - rewrite update_in_ids; [assumption | apply (transition_id p f Htr)].
  - apply (update_in_Forall _ i f _ p Hf Hfresh).
    rewrite (transition_id p f Htr).
    rewrite Forall_forall in Hfresh. apply Hfresh.
    apply list_elem_of_In. apply (findUnique_in_id _ _ _ Hf).
  - apply (update_in_Forall _ i f _ p Hf Hlow).
    rewrite (transition_id p f Htr).
    rewrite Forall_forall in Hlow. apply Hlow.
    apply list_elem_of_In. apply (findUnique_in_id _ _ _ Hf).
  - apply (update_in_Forall _ i f _ p Hf Htimes).
    apply transition_times; [assumption|].
    rewrite Forall_forall in Htimes. apply Htimes.
    apply list_elem_of_In. apply (findUnique_in_id _ _ _ Hf).
  - apply (update_in_Forall _ i f _ p Hf Hcontent).
    rewrite (transition_content p f Htr).
    rewrite Forall_forall in Hcontent. apply Hcontent.
    apply list_elem_of_In. apply (findUnique_in_id _ _ _ Hf).
  - apply (sublist_NoDup _ (List.map id (posts d))); [exact Hids|].
    apply (fmap_sublist id). apply filter_sublist.
  - apply Forall_forall. intros q Hq. apply list_elem_of_In, filter_In in Hq as [Hq _].
    rewrite Forall_forall in Hfresh. apply Hfresh. now apply list_elem_of_In.
  - apply Forall_forall. intros q Hq. apply list_elem_of_In, filter_In in Hq as [Hq _].
    rewrite Forall_forall in Hlow. apply Hlow. now apply list_elem_of_In.
  - apply Forall_forall. intros q Hq. apply list_elem_of_In, filter_In in Hq as [Hq _].
    rewrite Forall_forall in Htimes. apply Htimes. now apply list_elem_of_In.
  - apply Forall_forall. intros q Hq. apply list_elem_of_In, filter_In in Hq as [Hq _].
    rewrite Forall_forall in Hcontent. apply Hcontent. now apply list_elem_of_In.
Qed.

Lemma initial_Inv : Inv (db initial).
Proof. constructor; cbn; try constructor; lia. Qed.

(** The ids of a store that satisfies the invariant fit the id column. *)
Lemma Inv_int4 d p : Inv d -> In p (posts d) -> Prisma.int4 (id p) = true.
Proof.
  intros [_ Hfresh Hlow Hnext _ _] Hin. apply list_elem_of_In in Hin.
  rewrite Forall_forall in Hfresh, Hlow.
  specialize (Hfresh p Hin). specialize (Hlow p Hin). cbn in *.
  apply int4_range. lia.
Qed.

Lemma reachable_Inv env w : reachable env w -> Inv (db w).
Proof.
  induction 1 as [|w c _ IH]; [apply initial_Inv|].
  eapply db_step_Inv; [apply handle_db_step | exact IH].
Qed.

Lemma db_step_edges d d' p p' :
  Inv d -> db_step d d' ->
  In p (posts d) -> In p' (posts d') -> id p = id p' ->
  status p' = status p \/ edge (status p) (status p').
Proof.
  intros [Hids Hfresh _ _ _ _] Hstep Hp Hp' Heq.
  destruct Hstep as [m|Hs|now c s url Hc Hn|i q f Hf Htr|i]; cbn in Hp'.
  - left. f_equal. symmetry. eapply unique_by_id; eassumption.
  - left. f_equal. symmetry. eapply unique_by_id; eassumption.
  - apply in_app_iff in Hp' as [Hp'|[<-|[]]].
    + left. f_equal. symmetry. eapply unique_by_id; eassumption.
    + rewrite Forall_forall in Hfresh.
      apply list_elem_of_In in Hp. specialize (Hfresh p Hp). cbn in Heq. lia.
  - apply update_in_In in Hp' as [Hp'|(q' & Hq' & ->)];
      [| |exact (findUnique_in_int4 _ _ _ Hf)].
    + left. f_equal. symmetry. eapply unique_by_id; eassumption.
    + rewrite Hf in Hq'. injection Hq' as <-.
      destruct (findUnique_in_id _ _ _ Hf) as [Hiq Hq].
      rewrite (transition_id q f Htr) in Heq.
      assert (p = q) as -> by (eapply unique_by_id; eassumption).
      right. apply transition_edge. exact Htr.
  - apply filter_In in Hp' as [Hp' _].
    left. f_equal. symmetry. eapply unique_by_id; eassumption.
Qed.

(** ** Excerpts *)

Lemma substring0_prefix n s :
  (n <= String.length s)%nat ->
  exists rest,
    s = Js.substring0 n s +:+ rest /\ String.length (Js.substring0 n s) = n.
Proof.
  unfold Js.substring0. revert s.
  induction n as [|n IH]; intros s Hn.
  - exists s. destruct s; split; reflexivity.
  - destruct s as [|c s]; cbn in Hn; [lia|].
    destruct (IH s) as (rest & Hs & Hl); [lia|].
    exists rest. cbn. split; [|f_equal; exact Hl].
    change (String c s = String c (String.substring 0 n s +:+ rest)).
    f_equal. exact Hs.
Qed.

(** ** Ordering and paging *)

Lemma insert_desc_In p l q :
  In q (Prisma.insert_desc p l) <-> q = p \/ In q l.
Proof.
  induction l as [|a r IH]; cbn; [intuition|].
  destruct (createdAt a <=? createdAt p); cbn; [intuition|].
  rewrite IH. intuition.
Qed.

Lemma insert_desc_sorted p l :
  newest_first l -> newest_first (Prisma.insert_desc p l).
Proof.
  unfold newest_first.
  induction l as [|a r IH]; cbn; intros Hs.
  - repeat constructor.
  - inversion Hs as [|? ? Hr Ha]; subst.
    destruct (createdAt a <=? createdAt p) eqn:E.
    + apply Z.leb_le in E. constructor; [exact Hs|].
      constructor; [exact E|].
      eapply Forall_impl; [exact Ha|]. cbn. intros; lia.
    + apply Z.leb_gt in E. constructor; [auto|].
      apply Forall_forall. intros q Hq.
      apply list_elem_of_In, insert_desc_In in Hq as [->|Hq]; [lia|].
      rewrite Forall_forall in Ha. apply Ha. now apply list_elem_of_In.
Qed.

Lemma sort_desc_sorted l : newest_first (Prisma.sort_desc l).
Proof.
  induction l as [|a r IH]; cbn; [constructor | now apply insert_desc_sorted].
Qed.

Lemma sort_desc_In l q : In q (Prisma.sort_desc l) <-> In q l.
Proof.
  induction l as [|a r IH]; cbn; [tauto|].
  rewrite insert_desc_In, IH. intuition.
Qed.

Lemma sublist_sorted (l k : list Post) :
  l `sublist_of` k -> newest_first k -> newest_first l.
Proof.
  unfold newest_first. induction 1 as [|x l k Hsub IH|x l k Hsub IH]; intros Hs.
  - constructor.
  - inversion Hs as [|? ? Hk Hx]; subst. constructor; [auto|].
    apply Forall_forall. intros q Hq. rewrite Forall_forall in Hx.
    apply Hx. eapply elem_of_sublist; eassumption.
  - inversion Hs; subst. auto.
Qed.

Lemma sublist_rev {A} (l k : list A) :
  l `sublist_of` k -> List.rev l `sublist_of` List.rev k.
Proof.
  induction 1 as [|x l k Hsub IH|x l k Hsub IH]; cbn.
  - constructor.
  - apply sublist_app; [exact IH | reflexivity].
  - apply sublist_inserts_r. exact IH.
Qed.

Lemma int8_range z : - 2 ^ 63 < z < 2 ^ 63 -> Prisma.int8 z = true.
Proof. intros H. unfold Prisma.int8. apply Z.ltb_lt. lia. Qed.

Lemma page_sublist take skip l rows :
  Prisma.page take skip l = Some rows -> rows `sublist_of` l.
Proof.
  unfold Prisma.page.
  destruct (negb (Prisma.int8 take) || negb (Prisma.int8 skip)); [discriminate|].
  destruct (skip <? 0); [discriminate|].
  destruct (0 <=? take); intros [= <-].
  - etransitivity; [apply sublist_take | apply sublist_drop].
  - rewrite <- (rev_involutive l) at 2. apply sublist_rev.
    etransitivity; [apply sublist_take | apply sublist_drop].
Qed.

Lemma page_length take skip l rows :
  0 <= take -> Prisma.page take skip l = Some rows ->
  Z.of_nat (length rows) <= take.
Proof.
  unfold Prisma.page. intros Ht.
  destruct (negb (Prisma.int8 take) || negb (Prisma.int8 skip)); [discriminate|].
  destruct (skip <? 0); [discriminate|].
  apply Z.leb_le in Ht as Hb. rewrite Hb. intros [= <-].
  rewrite length_take. lia.
Qed.

Lemma page_total take skip l :
  - 2 ^ 63 < take < 2 ^ 63 -> 0 <= skip < 2 ^ 63 ->
  is_Some (Prisma.page take skip l).
Proof.
  unfold Prisma.page. intros Ht Hs.
  rewrite (int8_range take Ht), (int8_range skip) by lia. cbn [negb orb].
  destruct Hs as [Hs _]. apply Z.ltb_ge in Hs. rewrite Hs.
  destruct (0 <=? take); eexists; reflexivity.
Qed.

Lemma status_of_string_label s st :
  status_of_string s = Some st -> status_string st = s.
Proof.
  unfold status_of_string.
  repeat (destruct (String.eqb s _) eqn:E;
          [apply String.eqb_eq in E; subst s; intros [= <-]; reflexivity | clear E]).
  discriminate.
Qed.


Lemma status_param_where req :
  status_param_ok req ->
  match PostsRoutes.list_where req with
  | Some label => is_Some (status_of_string label)
  | None => True
  end.
Proof.
  unfold status_param_ok, PostsRoutes.list_where.
  destruct (q_status req) as [[|c s]|]; cbn [Js.str_truthy]; [trivial| |trivial].
  intros [H|H]; [discriminate | exact H].
Qed.

(** The limit and the offset, from the parameters as they are sent. *)
Lemma list_limit_parsed req s n :
  q_limit req = Some s -> Js.parseInt s = Some n -> n <> 0 ->
  PostsRoutes.list_limit req = n.
Proof.
  unfold PostsRoutes.list_limit. intros -> Hn Hz.
  cbn [from_option Datatypes.id]. rewrite Hn. cbn [Js.num_or].
  destruct (n =? 0) eqn:E; [apply Z.eqb_eq in E; contradiction | reflexivity].
Qed.

Lemma list_limit_default req :
  match q_limit req with
  | Some s => Js.parseInt s = None \/ Js.parseInt s = Some 0
  | None => True
  end -> PostsRoutes.list_limit req = 50.
Proof.
  unfold PostsRoutes.list_limit.
  destruct (q_limit req) as [s|]; cbn [from_option Datatypes.id]; [|reflexivity].
  intros [-> | ->]; reflexivity.
Qed.

Lemma list_offset_parsed req s o :
  q_offset req = Some s -> Js.parseInt s = Some o -> o <> 0 ->
  PostsRoutes.list_offset req = o.
Proof.
  unfold PostsRoutes.list_offset. intros -> Hn Hz.
  cbn [from_option Datatypes.id]. rewrite Hn. cbn [Js.num_or].
  destruct (o =? 0) eqn:E; [apply Z.eqb_eq in E; contradiction | reflexivity].
Qed.

Lemma list_offset_default req :
  match q_offset req with
  | Some s => Js.parseInt s = None \/ Js.parseInt s = Some 0
  | None => True
  end -> PostsRoutes.list_offset req = 0.
Proof.
  unfold PostsRoutes.list_offset.
  destruct (q_offset req) as [s|]; cbn [from_option Datatypes.id]; [|reflexivity].
  intros [-> | ->]; reflexivity.
Qed.

Lemma limit_param_range req :
  limit_param_ok req -> -2147483648 <= PostsRoutes.list_limit req.
Proof.
  intros Hok. destruct (q_limit req) as [s|] eqn:Hq.
  - destruct (Js.parseInt s) as [n|] eqn:Hp.
    + destruct (Z.eq_dec n 0) as [->|Hz].
      * rewrite list_limit_default; [lia | rewrite Hq; now right].
      * rewrite (list_limit_parsed req s n Hq Hp Hz). exact (Hok s n Hq Hp).
    + rewrite list_limit_default; [lia | rewrite Hq; now left].
  - rewrite list_limit_default; [lia | now rewrite Hq].
Qed.

Lemma offset_param_range req :
  offset_param_ok req -> 0 <= PostsRoutes.list_offset req <= 2147483647.
Proof.
  intros Hok. destruct (q_offset req) as [s|] eqn:Hq.
  - destruct (Js.parseInt s) as [n|] eqn:Hp.
    + destruct (Z.eq_dec n 0) as [->|Hz].
      * rewrite list_offset_default; [lia | rewrite Hq; now right].
      * rewrite (list_offset_parsed req s n Hq Hp Hz). exact (Hok s n Hq Hp).
    + rewrite list_offset_default; [lia | rewrite Hq; now left].
  - rewrite list_offset_default; [lia | now rewrite Hq].
Qed.

(** The listing of a well-formed request. *)
Lemma listPosts_ok req w :
  status_param_ok req -> limit_param_ok req -> offset_param_ok req ->
  exists rows total,
    PostsRoutes.listPosts req w =
      (listing rows total (PostsRoutes.list_limit req) (PostsRoutes.list_offset req), w) /\
    newest_first rows /\
    Forall (fun p => In p (posts (db w))) rows /\
    (forall label, PostsRoutes.list_where req = Some label ->
       Forall (fun p => status_string (status p) = label) rows) /\
    (0 <= Z.min (PostsRoutes.list_limit req) 100 ->
     Z.of_nat (length rows) <= Z.min (PostsRoutes.list_limit req) 100).
Proof.
  intros Hok Hlim Hoff. rewrite listPosts_run. cbn zeta.
  apply status_param_where in Hok. unfold Prisma.where_ok.
  apply limit_param_range in Hlim. apply offset_param_range in Hoff.
  assert (Htake : - 2 ^ 63 < Z.min (PostsRoutes.list_limit req) 100 < 2 ^ 63) by lia.
  assert (Hskip : 0 <= PostsRoutes.list_offset req < 2 ^ 63) by lia.
  set (sorted := fun keep => Prisma.sort_desc (List.filter keep (posts (db w)))).
  assert (Hrows : forall keep rows,
    Prisma.page (Z.min (PostsRoutes.list_limit req) 100)
      (PostsRoutes.list_offset req) (sorted keep) = Some rows ->
    newest_first rows /\
    Forall (fun p => In p (posts (db w)) /\ keep p = true) rows /\
    (0 <= Z.min (PostsRoutes.list_limit req) 100 ->
     Z.of_nat (length rows) <= Z.min (PostsRoutes.list_limit req) 100)).
  { intros keep rows Hpage. split; [|split].
    - eapply sublist_sorted; [eapply page_sublist; exact Hpage|].
      apply sort_desc_sorted.
    - apply Forall_forall. intros p Hp.
      eapply elem_of_sublist in Hp; [|eapply page_sublist; exact Hpage].
      apply list_elem_of_In, sort_desc_In, filter_In in Hp. exact Hp.
    - intros Ht. eapply page_length; eassumption. }
  destruct (PostsRoutes.list_where req) as [label|] eqn:Hw.
  - destruct Hok as [st Hst]. rewrite Hst.
    destruct (page_total (Z.min (PostsRoutes.list_limit req) 100)
                (PostsRoutes.list_offset req)
                (sorted (fun p => PostStatus_eqb (status p) st)) Htake Hskip)
      as [rows Hpage].
    fold (sorted (fun p => PostStatus_eqb (status p) st)). rewrite Hpage.
    destruct (Hrows _ _ Hpage) as (Hs & Hin & Hlen).
    eexists rows, _. split; [reflexivity|].
    split; [exact Hs|]. split; [|split; [|exact Hlen]].
    + eapply Forall_impl; [exact Hin|]. cbn. tauto.
    + intros l [= <-]. eapply Forall_impl; [exact Hin|]. cbn.
      intros p [_ Hp]. apply PostStatus_eqb_eq in Hp. rewrite Hp.
      now apply status_of_string_label.
  - destruct (page_total (Z.min (PostsRoutes.list_limit req) 100)
                (PostsRoutes.list_offset req) (sorted (fun _ => true)) Htake Hskip)
      as [rows Hpage].
    fold (sorted (fun _ => true)). rewrite Hpage.
    destruct (Hrows _ _ Hpage) as (Hs & Hin & Hlen).
    eexists rows, _. split; [reflexivity|].
    split; [exact Hs|]. split; [|split; [|exact Hlen]].
    + eapply Forall_impl; [exact Hin|]. cbn. tauto.
    + discriminate.
Qed.

(** ** Settings *)

Lemma has_nul_free s : Prisma.has_nul s = false <-> nul_free s.
Proof.
  unfold nul_free. induction s as [|c r IH]; cbn [Prisma.has_nul list_ascii_of_string].
  - split; [intros _ [] | reflexivity].
  - rewrite orb_false_iff, IH. unfold Js.charCode.
    assert (Hc : (Z.of_nat (nat_of_ascii c) =? 0) = false <-> c <> ascii_of_nat 0).
    { rewrite Z.eqb_neq. split.
      - intros H ->. apply H. reflexivity.
      - intros H E. apply H. rewrite <- (ascii_nat_embedding c).
        replace (nat_of_ascii c) with 0%nat by lia. reflexivity. }
    rewrite Hc. cbn [In]. tauto.
Qed.

Lemma allowed_keys k :
  SettingsRoutes.allowed k = true <->
  k = "discord_webhook_url" \/ k = "n8n_base_url".
Proof.
  unfold SettingsRoutes.allowed, SettingsRoutes.allowedKeys. cbn [existsb].
  rewrite orb_false_r, orb_true_iff, !String.eqb_eq. reflexivity.
Qed.

Lemma allowed_no_nul k : SettingsRoutes.allowed k = true -> Prisma.has_nul k = false.
Proof. intros H. apply allowed_keys in H as [->| ->]; reflexivity. Qed.

Lemma not_allowed_keys k :
  SettingsRoutes.allowed k = false <->
  k <> "discord_webhook_url" /\ k <> "n8n_base_url".
Proof.
  rewrite <- not_true_iff_false, allowed_keys. tauto.
Qed.

Lemma upsertEntries_upserted l w :
  exists b ev,
    SettingsRoutes.upsertEntries l w =
      (b, mkWorld (mkDb (posts (db w)) (next_id (db w))
                     (upserted l (settings (db w))))
            (trace w ++ ev)) /\
    forallb is_db_event ev = true /\
    ((forall k v, In (k, JStr v) l -> SettingsRoutes.allowed k = true ->
        Prisma.has_nul v = false) -> b = true).
Proof.
  revert w. induction l as [|[k v] r IH]; intros [[ps n m] t];
    cbn [SettingsRoutes.upsertEntries upserted].
  - exists true, []. rewrite app_nil_r. repeat split.
  - destruct (SettingsRoutes.allowed k) eqn:Hk; cbn [negb].
    2:{ destruct (IH (mkWorld (mkDb ps n m) t)) as (b & ev & Heq & Hev & Hb).
        exists b, ev. split; [exact Heq|]. split; [exact Hev|].
        intros H. apply Hb. intros k0 v0 Hin. apply H. now right. }
    destruct v as [|?|?|s|?|?|?];
      try (destruct (IH (mkWorld (mkDb ps n m) t)) as (ok & ev & Heq & Hev & Hb);
           exists ok, ev; split; [exact Heq|]; split; [exact Hev|];
           intros H; apply Hb; intros k0 v0 Hin; apply H; now right).
    unfold Prisma.settings_upsert. run_m.
    destruct (Prisma.has_nul k || Prisma.has_nul s) eqn:Hnul; run_m.
    + edestruct IH as (b & ev & -> & Hev & Hb). cbn [db trace posts next_id settings].
      eexists _, ev. split; [reflexivity|]. split; [exact Hev|].
      intros H. exfalso.
      rewrite (allowed_no_nul k Hk), (H k s (or_introl eq_refl) Hk) in Hnul.
      discriminate.
    + edestruct IH as (b & ev & -> & Hev & Hb). cbn [db trace posts next_id settings].
      eexists _, (_ :: ev). rewrite <- app_assoc.
      split; [reflexivity|]. split; [exact Hev|].
      intros H. cbn. apply Hb. intros k0 v0 Hin. apply H. now right.
Qed.

Lemma upserted_disallowed k l m :
  SettingsRoutes.allowed k = false -> upserted l m !! k = m !! k.
Proof.
  intros Hk. revert m. induction l as [|[k' v] r IH]; intros m; cbn [upserted]; [reflexivity|].
  destruct (SettingsRoutes.allowed k') eqn:E; cbn [negb]; [|apply IH].
  destruct v; try apply IH.
  destruct (Prisma.has_nul k' || Prisma.has_nul s); [apply IH|].
  rewrite IH. apply lookup_insert_ne. intros ->. congruence.
Qed.

Lemma upserted_untouched k l m :
  (forall v, ~ In (k, JStr v) l) -> upserted l m !! k = m !! k.
Proof.
  revert m. induction l as [|[k' v] r IH]; intros m Hk; cbn [upserted]; [reflexivity|].
  assert (Hr : forall v, ~ In (k, JStr v) r) by (intros v0 H; apply (Hk v0); now right).
  destruct (SettingsRoutes.allowed k'); cbn [negb]; [|now apply IH].
  destruct v; try now apply IH.
  destruct (Prisma.has_nul k' || Prisma.has_nul s); [now apply IH|].
  rewrite IH by exact Hr. apply lookup_insert_ne.
  intros ->. apply (Hk s). now left.
Qed.

Lemma upserted_written k v l m :
  NoDup l.*1 -> In (k, JStr v) l -> SettingsRoutes.allowed k = true ->
  Prisma.has_nul v = false ->
  upserted l m !! k = Some v.
Proof.
  revert m. induction l as [|[k' v'] r IH]; intros m Hnd Hin Hk Hv; [destruct Hin|].
  cbn in Hnd. apply NoDup_cons in Hnd as [Hfresh Hnd].
  destruct Hin as [[= -> ->]|Hin].
  - cbn [upserted]. rewrite Hk, (allowed_no_nul k Hk), Hv. cbn [negb orb].
    rewrite upserted_untouched; [apply lookup_insert_eq|].
    intros v0 H. apply Hfresh. apply list_elem_of_In.
    change k with (fst (k, JStr v0)). now apply in_map.
  - cbn [upserted]. destruct (SettingsRoutes.allowed k'); cbn [negb]; [|now apply IH].
    destruct v'; try now apply IH.
    destruct (Prisma.has_nul k' || Prisma.has_nul s); now apply IH.
Qed.

(** The members of the [settingsMap] object are the entries of the table,
    but for a key [__proto__]. *)
Lemma settingsMap_members (m : gmap string string) :
  exists data,
    SettingsRoutes.settingsMap m = JObj data /\
    NoDup data.*1 /\
    forall k j,
      In (k, j) data <->
      k <> "__proto__" /\ exists v, j = JStr v /\ m !! k = Some v.
Proof.
  unfold SettingsRoutes.settingsMap. eexists. split; [reflexivity|]. split.
  - rewrite <- list_fmap_compose.
    replace (fst ∘ (fun kv : string * string => (kv.1, JStr kv.2)))
      with (fst : string * string -> string) by reflexivity.
    apply NoDup_fst_map_to_list.
  - intros k j. rewrite <- list_elem_of_In, list_elem_of_fmap. split.
    + intros ([k' v] & [= -> ->] & Hin). apply elem_of_map_to_list in Hin.
      apply lookup_delete_Some in Hin as [Hne Hin].
      split; [congruence|]. exists v. split; [reflexivity | exact Hin].
    + intros (Hne & v & -> & Hm). exists (k, v). split; [reflexivity|].
      apply elem_of_map_to_list, lookup_delete_Some. split; [congruence | exact Hm].
Qed.

Lemma putAll_object req w es :
  body req = JObj es ->
  (forall k v, In (k, JStr v) es -> SettingsRoutes.allowed k = true ->
     Prisma.has_nul v = false) ->
  exists ev,
    let m := upserted es (settings (db w)) in
    SettingsRoutes.putAll req w =
      (json 200 (JObj [("success", JBool true);
                       ("message", JStr "Settings updated successfully");
                       ("data", SettingsRoutes.settingsMap m)]),
       mkWorld (mkDb (posts (db w)) (next_id (db w)) m) (trace w ++ ev)).
Proof.
  intros Hb Hnul. unfold SettingsRoutes.putAll, Prisma.settings_findMany.
  rewrite Hb. cbn [JsVal.truthy JsVal.is_object negb orb JsVal.entries].
  run_m.
  destruct (upsertEntries_upserted es w) as (b & ev & -> & _ & Hok).
  rewrite (Hok Hnul). exists ev. reflexivity.
Qed.

Lemma putKey_disallowed req w :
  SettingsRoutes.allowed (param req) = false ->
  SettingsRoutes.putKey req w =
    (error_json 400 "Bad Request" "Invalid setting key", w).
Proof. unfold SettingsRoutes.putKey. intros ->. reflexivity. Qed.

Lemma getKey_missing req w :
  Prisma.has_nul (param req) = false ->
  settings (db w) !! param req = None ->
  SettingsRoutes.getKey req w = (error_json 404 "Not Found" "Setting not found", w).
Proof.
  unfold SettingsRoutes.getKey, Prisma.settings_findUnique. intros Hn H.
  run_m. rewrite Hn, H. reflexivity.
Qed.

(** ** Approval and the callback *)

Lemma is_callback_for_body post :
  is_callback_for post
    (EvFetch (n8nCallbackUrl post) (PostsRoutes.callback_body post)) = true.
Proof.
  cbn. rewrite !String.eqb_refl, Z.eqb_refl. reflexivity.
Qed.

Lemma notify_event_not_callback post e :
  notify_event e = true -> is_callback_for post e = false.
Proof.
  destruct e as [?|url b|?]; cbn; try reflexivity.
  destruct b as [|?|?|?|?|?|[|[k v] r]]; try reflexivity.
  intros Hk. apply String.eqb_eq in Hk. subst k.
  destruct v; try reflexivity.
  destruct r as [|[k2 [|?|?|?|?|?|?]] [|[k3 [|?|?|?|?|?|?]] [|? ?]]]; try reflexivity.
  cbn. rewrite andb_false_r. reflexivity.
Qed.

Lemma count_events_cons f e l :
  count_events f (e :: l) = ((if f e then 1 else 0) + count_events f l)%nat.
Proof. unfold count_events. cbn. destruct (f e); reflexivity. Qed.

Lemma count_events_app f l k :
  count_events f (l ++ k) = (count_events f l + count_events f k)%nat.
Proof. unfold count_events. rewrite List.filter_app, List.length_app. reflexivity. Qed.

Lemma count_notify_events post ev :
  forallb notify_event ev = true -> count_events (is_callback_for post) ev = 0%nat.
Proof.
  induction ev as [|e r IH]; [reflexivity|].
  intros H. cbn in H. apply andb_true_iff in H as [He Hr].
  rewrite count_events_cons, (notify_event_not_callback post e He). auto.
Qed.

Lemma callback_log_notify r : forallb notify_event (callback_log r) = true.
Proof. destruct r as [st|]; cbn; [destruct (response_ok st)|]; reflexivity. Qed.

(** C1, as the handler does it: when [approve] finds a PENDING record, the
    requests and writes it adds to the trace contain exactly one POST to the
    record's stored callback URL whose JSON body is the object with members
    [post_id] (the record's id), [status] (the text APPROVED) and
    [post_content] (the record's stored content). *)
Theorem approve_delivers_one_callback env now req w i post :
  Js.parseInt (param req) = Some i ->
  Prisma.findUnique_in i (posts (db w)) = Some post ->
  status post = PENDING ->
  exists sent,
    trace (PostsRoutes.approve env now req w).2 = trace w ++ sent /\
    In (EvFetch (n8nCallbackUrl post)
          (JObj [("post_id", JNum (id post));
                 ("status", JStr "APPROVED");
                 ("post_content", JStr (content post))])) sent /\
    count_events (is_callback_for post) sent = 1%nat.
Proof.
  intros Hp Hf Hst.
  destruct (approve_pending env now req w i post Hp Hf Hst)
    as (r & ev & -> & _ & Hev).
  cbn [snd trace]. eexists. split; [rewrite <- app_assoc; reflexivity|].
  cbn [app]. split; [right; left; reflexivity|].
  rewrite !count_events_cons, count_events_app, is_callback_for_body.
  rewrite !count_notify_events; [reflexivity | exact Hev | apply callback_log_notify].
Qed.

Lemma approve_delivers_one_callback_witness :
  exists sent,
    trace (PostsRoutes.approve demo_env 11 (demo_request "1") demo_pending).2
      = trace demo_pending ++ sent /\
    In (EvFetch "https://cb.example/x"
          (JObj [("post_id", JNum 1); ("status", JStr "APPROVED");
                 ("post_content", JStr "Hello")])) sent /\
    count_events (is_callback_for demo_hello) sent = 1%nat.
Proof.
  apply (approve_delivers_one_callback demo_env 11 (demo_request "1")
           demo_pending 1 demo_hello); reflexivity.
Defined.

(** C1, counterexample: approving the PENDING record "Hello" succeeds, and
    the trace holds no POST to its callback URL with the members [id],
    [status], [content]; the one POST sent there carries [post_id],
    [status], [post_content]. *)
Lemma callback_members_counterexample :
  let result := PostsRoutes.approve demo_env 11 (demo_request "1") demo_pending in
  Prisma.findUnique_in 1 (posts (db demo_pending)) = Some demo_hello /\
  code result.1 = 200 /\
  count_events (is_id_status_content_for demo_hello) (trace result.2) <> 1%nat /\
  List.filter (is_callback_for demo_hello) (trace result.2) =
    [EvFetch "https://cb.example/x"
       (JObj [("post_id", JNum 1); ("status", JStr "APPROVED");
              ("post_content", JStr "Hello")])].
Proof.
  vm_compute. repeat split; discriminate.
Qed.

(** C3: for a PENDING record, [approve] first commits the row as APPROVED
    with [approvedAt] set, then issues the callback; for every outcome of
    the callback (any status code, or a transport error) the only further
    events are console lines and webhook messages, the stored row is the
    approved one, and the response is 200. *)
Theorem approve_commits_before_callback env now req w i post :
  Js.parseInt (param req) = Some i ->
  Prisma.findUnique_in i (posts (db w)) = Some post ->
  status post = PENDING ->
  let stored := PostsRoutes.set_approved now post in
  let outcome :=
    network env (trace w ++ [EvDb (PostUpdated stored)])
      (n8nCallbackUrl post) (PostsRoutes.callback_body post) in
  exists r w' ev,
    PostsRoutes.approve env now req w = (r, w') /\
    trace w' =
      trace w ++ EvDb (PostUpdated stored)
        :: EvFetch (n8nCallbackUrl post) (PostsRoutes.callback_body post)
        :: callback_log outcome ++ ev /\
    forallb notify_event ev = true /\
    Prisma.findUnique_in i (posts (db w')) = Some stored /\
    status stored = APPROVED /\ approvedAt stored = Some now /\
    code r = 200.
Proof.
  intros Hp Hf Hst stored outcome.
  destruct (approve_pending env now req w i post Hp Hf Hst)
    as (r & ev & Heq & Hcode & Hev).
  eexists r, _, ev. split; [exact Heq|]. cbn [trace db posts Prisma.with_posts].
  split; [rewrite <- app_assoc; reflexivity|].
  split; [exact Hev|].
  split; [apply findUnique_in_update; [exact Hf | reflexivity]|].
  repeat split. exact Hcode.
Qed.

Lemma approve_commits_before_callback_witness :
  exists r w' ev,
    PostsRoutes.approve demo_env 11 (demo_request "1") demo_pending = (r, w') /\
    trace w' =
      trace demo_pending
        ++ EvDb (PostUpdated (PostsRoutes.set_approved 11 demo_hello))
        :: EvFetch "https://cb.example/x" (PostsRoutes.callback_body demo_hello)
        :: callback_log (FetchResponse 500) ++ ev /\
    forallb notify_event ev = true /\
    Prisma.findUnique_in 1 (posts (db w'))
      = Some (PostsRoutes.set_approved 11 demo_hello) /\
    status (PostsRoutes.set_approved 11 demo_hello) = APPROVED /\
    approvedAt (PostsRoutes.set_approved 11 demo_hello) = Some 11 /\
    code r = 200.
Proof.
  apply (approve_commits_before_callback demo_env 11 (demo_request "1")
           demo_pending 1 demo_hello); reflexivity.
Defined.

(** ** The workflow invariant *)

(** C2: in every reachable state [approvedAt] is set exactly for the
    APPROVED and POSTED records and [postedAt] exactly for the POSTED ones;
    and a request of any kind leaves the status of a record as it is or
    moves it along PENDING to APPROVED, PENDING to REJECTED, or APPROVED to
    POSTED. *)
Theorem workflow_invariant env w :
  reachable env w ->
  Forall timestamps_ok (posts (db w)) /\
  forall c p p',
    In p (posts (db w)) -> In p' (posts (db (run env w c))) -> id p = id p' ->
    status p' = status p \/ edge (status p) (status p').
Proof.
  intros Hr. pose proof (reachable_Inv env w Hr) as Hinv.
  split; [apply Hinv|].
  intros c p p'. apply db_step_edges; [exact Hinv | apply handle_db_step].
Qed.

Lemma workflow_invariant_witness :
  reachable demo_env demo_approved /\
  Forall timestamps_ok (posts (db demo_approved)) /\
  forall c p p',
    In p (posts (db demo_approved)) ->
    In p' (posts (db (run demo_env demo_approved c))) -> id p = id p' ->
    status p' = status p \/ edge (status p) (status p').
Proof.
  assert (H : reachable demo_env demo_approved).
  { apply reachable_step, reachable_step, reachable_initial. }
  split; [exact H | exact (workflow_invariant demo_env demo_approved H)].
Defined.

(** ** The status guards *)

Lemma already_message_names_status req post :
  status post <> PENDING ->
  Js.includes
    (message_of (PostsRoutes.fail req 400 "Bad Request" "Already Processed"
                   (PostsRoutes.already_message post) PostsRoutes.warning))
    (Js.toLowerCase (status_string (status post))) = true.
Proof.
  intros Hst. unfold PostsRoutes.fail, PostsRoutes.already_message.
  destruct (PostsRoutes.wantsJson req);
    destruct (status post); try congruence; vm_compute; reflexivity.
Qed.

Lemma fail_code req c e t m ty : code (PostsRoutes.fail req c e t m ty) = c.
Proof. unfold PostsRoutes.fail. destruct (PostsRoutes.wantsJson req); reflexivity. Qed.

Lemma findUnique_in_absent i l :
  (forall p, In p l -> id p <> i) -> Prisma.findUnique_in i l = None.
Proof.
  intros H. unfold Prisma.findUnique_in. destruct (Prisma.int4 i); [|reflexivity].
  destruct (List.find _ l) as [p|] eqn:Hf; [|reflexivity].
  apply find_some in Hf as [Hin Heq]. exfalso. apply (H p Hin). lia.
Qed.

(** C4: on a record that is not PENDING, [approve] and [reject] answer 400
    with a message that contains the record's status in lower case
    ("approved" for an APPROVED record), and change nothing; on an id
    within the 32-bit range of the id column that no record has they answer
    404 and change nothing. *)
Theorem approve_reject_guard env now req w i :
  Js.parseInt (param req) = Some i ->
  (forall post,
     Prisma.findUnique_in i (posts (db w)) = Some post ->
     status post <> PENDING ->
     forall handler,
       handler = PostsRoutes.approve \/ handler = PostsRoutes.reject ->
       exists r,
         handler env now req w = (r, w) /\
         code r = 400 /\
         Js.includes (message_of r)
           (Js.toLowerCase (status_string (status post))) = true /\
         (status post = APPROVED -> Js.includes (message_of r) "approved" = true)) /\
  (-2147483648 <= i <= 2147483647 ->
   (forall p, In p (posts (db w)) -> id p <> i) ->
   forall handler,
     handler = PostsRoutes.approve \/ handler = PostsRoutes.reject ->
     exists r, handler env now req w = (r, w) /\ code r = 404).
Proof.
  intros Hp. split.
  - intros post Hf Hst handler Hh.
    eexists. split; [|split; [apply fail_code|split]].
    + destruct Hh as [->| ->];
        [apply (approve_processed env now req w i post Hp Hf Hst)
        |apply (reject_processed env now req w i post Hp Hf Hst)].
    + apply already_message_names_status. exact Hst.
    + intros Ha. pose proof (already_message_names_status req post Hst) as H.
      rewrite Ha in H. exact H.
  - intros Hi Hno handler Hh. apply findUnique_in_absent in Hno as Hf.
    eexists. split; [|apply fail_code].
    destruct Hh as [->| ->];
      [apply (approve_missing env now req w i Hp Hi Hf)
      |apply (reject_missing env now req w i Hp Hi Hf)].
Qed.

Lemma approve_reject_guard_witness :
  (exists r,
     PostsRoutes.approve demo_env 12 (demo_request "1") demo_approved
       = (r, demo_approved) /\
     code r = 400 /\
     Js.includes (message_of r) "approved" = true) /\
  (exists r,
     PostsRoutes.reject demo_env 12 (demo_request "7") demo_approved
       = (r, demo_approved) /\
     code r = 404).
Proof.
  split.
  - destruct (approve_reject_guard demo_env 12 (demo_request "1") demo_approved 1
                eq_refl) as [H _].
    destruct (H (PostsRoutes.set_approved 11 demo_hello) eq_refl
                ltac:(discriminate) PostsRoutes.approve (or_introl eq_refl))
      as (r & Hr & Hc & Hm & _).
    exists r. repeat split; assumption.
  - destruct (approve_reject_guard demo_env 12 (demo_request "7") demo_approved 7
                eq_refl) as [_ H].
    apply (H ltac:(lia)); [|right; reflexivity].
    intros p Hin. vm_compute in Hin. destruct Hin as [<-|[]]. discriminate.
Defined.

(** C4, counterexample: the path id 2147483648 is a number that no record
    has; it does not fit the id column, the lookup raises, and [approve]
    and [reject] answer 500, not 404. *)
Lemma approve_out_of_range_counterexample :
  let req := demo_request "2147483648" in
  Js.parseInt (param req) = Some 2147483648 /\
  (forall p, In p (posts (db demo_pending)) -> id p <> 2147483648) /\
  PostsRoutes.approve demo_env 12 req demo_pending
    = (json 500 (JObj [("error", JStr "Internal Server Error");
                       ("message", JStr "Failed to approve post")]),
       mkWorld (db demo_pending)
         (trace demo_pending ++ [EvConsole "Error approving post:"])) /\
  PostsRoutes.reject demo_env 12 req demo_pending
    = (json 500 (JObj [("error", JStr "Internal Server Error");
                       ("message", JStr "Failed to reject post")]),
       mkWorld (db demo_pending)
         (trace demo_pending ++ [EvConsole "Error rejecting post:"])).
Proof.
  cbn zeta. split; [vm_compute; reflexivity|]. split.
  - intros p Hin. vm_compute in Hin. destruct Hin as [<-|[]]. discriminate.
  - split; vm_compute; reflexivity.
Qed.

Lemma posted_message_names_status post :
  Js.includes (PostsRoutes.posted_message post) (status_string (status post)) = true.
Proof.
  unfold PostsRoutes.posted_message. destruct (status post); vm_compute; reflexivity.
Qed.

(** C5: on a record that is not APPROVED, the posted confirmation answers
    400 with the message "Cannot mark post as posted. Current status: "
    followed by the status label as stored, in upper case, and changes
    nothing; on an id within the 32-bit range of the id column that no
    record has it answers 404. *)
Theorem posted_guard env now req w i :
  Js.parseInt (param req) = Some i ->
  (forall post,
     Prisma.findUnique_in i (posts (db w)) = Some post ->
     status post <> APPROVED ->
     exists r,
       PostsRoutes.handlePostedConfirmation env now req w = (r, w) /\
       code r = 400 /\
       message_of r =
         "Cannot mark post as posted. Current status: " +:+
         status_string (status post) /\
       Js.includes (message_of r) (status_string (status post)) = true) /\
  (-2147483648 <= i <= 2147483647 ->
   (forall p, In p (posts (db w)) -> id p <> i) ->
   exists r,
     PostsRoutes.handlePostedConfirmation env now req w = (r, w) /\ code r = 404).
Proof.
  intros Hp. split.
  - intros post Hf Hst.
    rewrite (posted_refused env now req w i post Hp Hf Hst).
    eexists. split; [reflexivity|]. split; [reflexivity|].
    split; [reflexivity|]. apply posted_message_names_status.
  - intros Hi Hno. apply findUnique_in_absent in Hno as Hf.
    rewrite (posted_missing env now req w i Hp Hi Hf).
    eexists. split; reflexivity.
Qed.

Lemma posted_guard_witness :
  (exists r,
     PostsRoutes.handlePostedConfirmation demo_env 12 (demo_request "1")
       demo_pending = (r, demo_pending) /\
     code r = 400 /\
     message_of r = "Cannot mark post as posted. Current status: PENDING") /\
  (exists r,
     PostsRoutes.handlePostedConfirmation demo_env 12 (demo_request "7")
       demo_pending = (r, demo_pending) /\
     code r = 404).
Proof.
  split.
  - destruct (posted_guard demo_env 12 (demo_request "1") demo_pending 1 eq_refl)
      as [H _].
    destruct (H demo_hello eq_refl ltac:(discriminate)) as (r & Hr & Hc & Hm & _).
    exists r. repeat split; assumption.
  - destruct (posted_guard demo_env 12 (demo_request "7") demo_pending 7 eq_refl)
      as [_ H].
    apply (H ltac:(lia)).
    intros p Hin. vm_compute in Hin. destruct Hin as [<-|[]]. discriminate.
Defined.

(** C5, counterexample: the path id 2147483648 is a number that no record
    has; the lookup raises, and the posted confirmation answers 500, not
    404. *)
Lemma posted_out_of_range_counterexample :
  let req := demo_request "2147483648" in
  Js.parseInt (param req) = Some 2147483648 /\
  (forall p, In p (posts (db demo_pending)) -> id p <> 2147483648) /\
  PostsRoutes.handlePostedConfirmation demo_env 12 req demo_pending
    = (json 500 (JObj [("error", JStr "Internal Server Error");
                       ("message", JStr "Failed to mark post as posted")]),
       mkWorld (db demo_pending)
         (trace demo_pending ++ [EvConsole "Error marking post as posted:"])).
Proof.
  cbn zeta. split; [vm_compute; reflexivity|]. split.
  - intros p Hin. vm_compute in Hin. destruct Hin as [<-|[]]. discriminate.
  - vm_compute. reflexivity.
Qed.

(** C6, as the handler does it: on a PENDING record the posted confirmation
    answers 400 with a message that contains the current status token
    PENDING, and changes nothing. *)
Theorem posted_on_pending env now req w i post :
  Js.parseInt (param req) = Some i ->
  Prisma.findUnique_in i (posts (db w)) = Some post ->
  status post = PENDING ->
  exists r,
    PostsRoutes.handlePostedConfirmation env now req w = (r, w) /\
    code r = 400 /\
    Js.includes (message_of r) "PENDING" = true.
Proof.
  intros Hp Hf Hst.
  rewrite (posted_refused env now req w i post Hp Hf); [|congruence].
  eexists. split; [reflexivity|]. split; [reflexivity|].
  cbn. unfold PostsRoutes.posted_message. rewrite Hst. vm_compute. reflexivity.
Qed.

Lemma posted_on_pending_witness :
  exists r,
    PostsRoutes.handlePostedConfirmation demo_env 12 (demo_request "1")
      demo_pending = (r, demo_pending) /\
    code r = 400 /\
    Js.includes (message_of r) "PENDING" = true.
Proof.
  apply (posted_on_pending demo_env 12 (demo_request "1") demo_pending 1
           demo_hello); reflexivity.
Defined.

(** C6, counterexample: the posted confirmation of the PENDING record
    "Hello" answers 400, leaves the store as it was, and its message does
    not contain APPROVED. *)
Lemma posted_on_pending_counterexample :
  let result :=
    PostsRoutes.handlePostedConfirmation demo_env 12 (demo_request "1")
      demo_pending in
  Prisma.findUnique_in 1 (posts (db demo_pending)) = Some demo_hello /\
  status demo_hello = PENDING /\
  code result.1 = 400 /\
  result.2 = demo_pending /\
  message_of result.1 = "Cannot mark post as posted. Current status: PENDING" /\
  Js.includes (message_of result.1) "APPROVED" = false.
Proof.
  vm_compute. repeat split.
Qed.

(** ** Excerpts in the notices *)

(** C7: for the content of every record of a reachable store, the pending
    notice shows it unchanged when it has at most 1000 characters and
    otherwise shows its first 997 characters followed by "..."; a status
    update shows it unchanged when it has at most 500 characters and
    otherwise shows its first 497 characters followed by "...". *)
Theorem excerpt_budgets env w p now st :
  reachable env w -> In p (posts (db w)) ->
  let shown_pending :=
    description
      (DiscordService.approvalEmbed env now (id p) (content p) (source p)) in
  let shown_update :=
    description
      (DiscordService.statusEmbed env now (id p) st (Some (content p))) in
  ((String.length (content p) <= 1000)%nat -> shown_pending = content p) /\
  ((1000 < String.length (content p))%nat ->
   exists first rest,
     content p = first +:+ rest /\ String.length first = 997%nat /\
     shown_pending = first +:+ "...") /\
  ((String.length (content p) <= 500)%nat -> shown_update = content p) /\
  ((500 < String.length (content p))%nat ->
   exists first rest,
     content p = first +:+ rest /\ String.length first = 497%nat /\
     shown_update = first +:+ "...").
Proof.
  intros Hr Hin. cbn zeta.
  assert (Hne : content p <> EmptyString).
  { pose proof (inv_content _ (reachable_Inv env w Hr)) as H.
    rewrite Forall_forall in H. apply H. now apply list_elem_of_In. }
  assert (Hupdate :
    description (DiscordService.statusEmbed env now (id p) st (Some (content p)))
    = DiscordService.statusDescription (id p) st (Some (content p))).
  { unfold DiscordService.statusEmbed.
    destruct (DiscordService.statusConfig st) as [[? ?] ?]. reflexivity. }
  rewrite Hupdate. cbn [description DiscordService.approvalEmbed].
  unfold DiscordService.displayContent, DiscordService.statusDescription.
  destruct (content p) as [|c s] eqn:Hc; [congruence|].
  cbn [DiscordService.nonempty Js.str_truthy].
  repeat split.
  - intros H. apply Nat.ltb_ge in H. rewrite H. reflexivity.
  - intros H. apply Nat.ltb_lt in H as Hb. rewrite Hb.
    destruct (substring0_prefix 997 (String c s)) as (rest & Hs & Hl); [lia|].
    eexists _, rest. repeat split; [exact Hs | exact Hl].
  - intros H. apply Nat.ltb_ge in H. rewrite H. reflexivity.
  - intros H. apply Nat.ltb_lt in H as Hb. rewrite Hb.
    destruct (substring0_prefix 497 (String c s)) as (rest & Hs & Hl); [lia|].
    eexists _, rest. repeat split; [exact Hs | exact Hl].
Qed.

Lemma excerpt_budgets_witness :
  reachable demo_env demo_pending /\ In demo_hello (posts (db demo_pending)) /\
  description (DiscordService.approvalEmbed demo_env 10 1 "Hello" None) = "Hello" /\
  description (DiscordService.statusEmbed demo_env 11 1 UPD_APPROVED (Some "Hello"))
    = "Hello".
Proof.
  assert (Hr : reachable demo_env demo_pending)
    by apply reachable_step, reachable_initial.
  assert (Hin : In demo_hello (posts (db demo_pending))) by (left; reflexivity).
  split; [exact Hr|]. split; [exact Hin|].
  destruct (excerpt_budgets demo_env demo_pending demo_hello 10 UPD_APPROVED Hr Hin)
    as (H1 & _ & _ & _).
  destruct (excerpt_budgets demo_env demo_pending demo_hello 11 UPD_APPROVED Hr Hin)
    as (_ & _ & H3 & _).
  split; [apply H1; cbn; lia | apply H3; cbn; lia].
Defined.

(** ** Decimal numbers *)

Lemma round_double_small v : v <= 2 ^ 53 -> Js.round_double v = v.
Proof.
  intros H. unfold Js.round_double.
  change (2 ^ 53) with 9007199254740992 in H.
  apply Z.leb_le in H. rewrite H. reflexivity.
Qed.

Lemma digits_value_acc d acc :
  Js.digits_value (Zpos acc) (NilEmpty.string_of_uint d)
  = Zpos (Pos.of_uint_acc d acc).
Proof.
  revert acc.
  induction d; intros acc;
    cbn [NilEmpty.string_of_uint Js.digits_value Pos.of_uint_acc];
    [reflexivity|..];
    change (Js.is_digit _) with true; cbn iota;
    rewrite <- IHd; f_equal;
    match goal with
    | |- context [Js.charCode ?c] =>
        let v := eval vm_compute in (Js.charCode c) in
        change (Js.charCode c) with v
    end; lia.
Qed.

Lemma digits_value_uint d :
  Js.digits_value 0 (NilEmpty.string_of_uint d) = Z.of_N (Pos.of_uint d).
Proof.
  induction d; cbn [NilEmpty.string_of_uint Js.digits_value Pos.of_uint];
    [reflexivity|..]; change (Js.is_digit _) with true; cbn iota.
  1: exact IHd.
  all: match goal with
       | |- Js.digits_value ?a _ = Z.of_N (Npos (Pos.of_uint_acc _ ?b)) =>
           change a with (Zpos b)
       end; apply digits_value_acc.
Qed.

Lemma digits_value_stop acc rest :
  match rest with String c _ => Js.is_digit c = false | EmptyString => True end ->
  Js.digits_value acc rest = acc.
Proof. destruct rest as [|c r]; cbn; [reflexivity | intros ->; reflexivity]. Qed.

Lemma digits_value_app d acc rest :
  Js.digits_value acc (NilEmpty.string_of_uint d +:+ rest)
  = Js.digits_value (Js.digits_value acc (NilEmpty.string_of_uint d)) rest.
Proof.
  revert acc. induction d; intros acc; [reflexivity|..];
    cbn [NilEmpty.string_of_uint];
    match goal with
    | |- Js.digits_value _ (String ?c ?s +:+ _) = _ =>
        change (String c s +:+ rest) with (String c (s +:+ rest))
    end;
    cbn [Js.digits_value]; change (Js.is_digit _) with true; cbn iota; apply IHd.
Qed.

Lemma parseInt_digits_then d rest :
  d <> Decimal.Nil ->
  Js.parseInt (NilEmpty.string_of_uint d +:+ rest)
    = Some (Js.round_double
              (Js.digits_value 0 (NilEmpty.string_of_uint d +:+ rest))) /\
  Js.parseInt (String "-" (NilEmpty.string_of_uint d +:+ rest))
    = Some (- Js.round_double
                (Js.digits_value 0 (NilEmpty.string_of_uint d +:+ rest))).
Proof.
  intros Hd.
  destruct d; [congruence|..]; cbn [NilEmpty.string_of_uint];
    match goal with
    | |- context [String ?c ?s +:+ rest] =>
        change (String c s +:+ rest) with (String c (s +:+ rest))
    end;
    unfold Js.parseInt; cbn [Js.skip_space];
    change (Js.is_space _) with false; cbn iota;
    change (Js.is_digit _) with true; cbn iota;
    split; f_equal; lia.
Qed.

(** The decimal text of an integer that a double holds exactly is read
    back as that integer, also when text that is no digit follows. *)
Lemma parseInt_showZ_then z rest :
  Z.abs z <= 2 ^ 53 ->
  match rest with String c _ => Js.is_digit c = false | EmptyString => True end ->
  Js.parseInt (Js.showZ z +:+ rest) = Some z.
Proof.
  intros Hz Hrest. unfold Js.showZ. destruct z as [|p|p].
  - change (Js.parseInt (String "0" rest) = Some 0).
    unfold Js.parseInt. cbn [Js.skip_space].
    change (Js.is_space "0") with false. cbn iota.
    change (Js.is_digit "0") with true. cbn iota.
    cbn [Js.digits_value]. change (Js.is_digit "0") with true. cbn iota.
    rewrite digits_value_stop by exact Hrest. reflexivity.
  - cbn [Z.to_int NilEmpty.string_of_int].
    destruct (parseInt_digits_then (Pos.to_uint p) rest) as [Hpos _];
      [apply DecimalPos.Unsigned.to_uint_nonnil|].
    rewrite Hpos, digits_value_app, digits_value_uint,
      DecimalPos.Unsigned.of_to, digits_value_stop by exact Hrest.
    rewrite round_double_small; [reflexivity | lia].
  - cbn [Z.to_int NilEmpty.string_of_int].
    change (String "-" (NilEmpty.string_of_uint (Pos.to_uint p)) +:+ rest)
      with (String "-" (NilEmpty.string_of_uint (Pos.to_uint p) +:+ rest)).
    destruct (parseInt_digits_then (Pos.to_uint p) rest) as [_ Hneg];
      [apply DecimalPos.Unsigned.to_uint_nonnil|].
    rewrite Hneg, digits_value_app, digits_value_uint,
      DecimalPos.Unsigned.of_to, digits_value_stop by exact Hrest.
    rewrite round_double_small; [reflexivity | lia].
Qed.

Lemma append_empty_r s : s +:+ "" = s.
Proof.
  induction s as [|c s IH]; [reflexivity|].
  change (String c (s +:+ "") = String c s). now rewrite IH.
Qed.

Lemma parseInt_showZ_exact z : Z.abs z <= 2 ^ 53 -> Js.parseInt (Js.showZ z) = Some z.
Proof.
  intros Hz. rewrite <- (append_empty_r (Js.showZ z)).
  now apply parseInt_showZ_then.
Qed.

(** The ids of the id column are read back from their decimal text. *)
Lemma parseInt_showZ_int4 z :
  Prisma.int4 z = true -> Js.parseInt (Js.showZ z) = Some z.
Proof.
  intros H. apply int4_true in H. apply parseInt_showZ_exact.
  change (2 ^ 53) with 9007199254740992. lia.
Qed.

(** ** Listing *)




(** C10: when the limit is the decimal text of a number above 100 that a
    double holds exactly (at most 2^53), also with text that is no digit
    after it, the pagination of the response reports that number, while at
    most 100 records are returned. *)
Theorem list_limit_echo req w n rest :
  q_limit req = Some (Js.showZ n +:+ rest) ->
  match rest with String c _ => Js.is_digit c = false | EmptyString => True end ->
  100 < n <= 2 ^ 53 ->
  status_param_ok req -> offset_param_ok req ->
  exists rows total offset,
    PostsRoutes.listPosts req w =
      (json 200 (JObj [
         ("success", JBool true);
         ("data", JArr (List.map listed rows));
         ("pagination", JObj [("total", JNum total);
                              ("limit", JNum n);
                              ("offset", JNum offset)])]), w) /\
    (length rows <= 100)%nat.
Proof.
  intros Hq Hrest Hn Hok Hoff.
  assert (Hp : Js.parseInt (Js.showZ n +:+ rest) = Some n)
    by (apply parseInt_showZ_then; [lia | exact Hrest]).
  assert (Hl : PostsRoutes.list_limit req = n)
    by (apply (list_limit_parsed req _ n Hq Hp); lia).
  assert (Hlim : limit_param_ok req).
  { intros s m Hs Hm. rewrite Hq in Hs. injection Hs as <-.
    rewrite Hp in Hm. injection Hm as <-. lia. }
  destruct (listPosts_ok req w Hok Hlim Hoff)
    as (rows & total & Heq & _ & _ & _ & Hlen).
  pose proof (offset_param_range req Hoff) as Ho.
  rewrite Hl in *. exists rows, total, (PostsRoutes.list_offset req).
  split; [|rewrite Z.min_r in Hlen by lia; lia].
  rewrite Heq. unfold listing.
  assert (Hfn : Js.finite n = true).
  { unfold Js.finite. apply Z.ltb_lt.
    assert (2 ^ 53 < 2 ^ 1024) by (apply Z.pow_lt_mono_r; lia). lia. }
  assert (Hfo : Js.finite (PostsRoutes.list_offset req) = true).
  { unfold Js.finite. apply Z.ltb_lt.
    assert (2 ^ 31 < 2 ^ 1024) by (apply Z.pow_lt_mono_r; lia).
    change (2 ^ 31) with 2147483648 in *. lia. }
  rewrite Hfn, Hfo. reflexivity.
Qed.

Lemma list_limit_echo_witness :
  exists rows total offset,
    PostsRoutes.listPosts (demo_list "500") demo_pending =
      (json 200 (JObj [
         ("success", JBool true);
         ("data", JArr (List.map listed rows));
         ("pagination", JObj [("total", JNum total);
                              ("limit", JNum 500);
                              ("offset", JNum offset)])]), demo_pending) /\
    (length rows <= 100)%nat.
Proof.
  apply (list_limit_echo (demo_list "500") demo_pending 500 EmptyString).
  - reflexivity.
  - exact I.
  - split; [lia | vm_compute; discriminate].
  - right. exists PENDING. reflexivity.
  - intros s o [=].
Defined.

(** C10, counterexample: the limit 9007199254740993 is a parsable positive
    number above 100; [parseInt] reads it as the nearest double, and the
    pagination reports 9007199254740992, not the limit that was sent. *)
Lemma list_limit_rounded_counterexample :
  let sent := 9007199254740993 in
  PostsRoutes.listPosts (demo_list (Js.showZ sent)) demo_pending =
    (json 200 (JObj [
       ("success", JBool true);
       ("data", JArr [listed demo_hello]);
       ("pagination", JObj [("total", JNum 1);
                            ("limit", JNum 9007199254740992);
                            ("offset", JNum 0)])]), demo_pending) /\
  Js.showZ sent = "9007199254740993" /\
  100 < sent /\ 9007199254740992 <> sent.
Proof.
  cbn zeta. split; [vm_compute; reflexivity|].
  split; [vm_compute; reflexivity|]. lia.
Qed.

(** ** Settings *)

(** C9: a bulk update whose body is an object, and in which no value
    offered for an allowed key holds the code unit 0, answers 200 with the
    whole resulting settings table as its data: one member for every entry
    of the table and no other (an entry under the key [__proto__], which
    the service never stores, cannot be a member); a key other than
    [discord_webhook_url] and [n8n_base_url], and a key whose value is not
    a string, keep what was stored for them, while an allowed key with a
    string value is stored; the posts are untouched.  A single-key update of a key outside the
    allow-list answers 400 and stores nothing, and a single-key read of a
    key without the code unit 0 that has no entry answers 404. *)
Theorem settings_contract req w :
  (forall es,
     body req = JObj es -> NoDup es.*1 ->
     (forall k v, In (k, JStr v) es ->
        k = "discord_webhook_url" \/ k = "n8n_base_url" -> nul_free v) ->
     exists data w',
       SettingsRoutes.putAll req w =
         (json 200 (JObj [("success", JBool true);
                          ("message", JStr "Settings updated successfully");
                          ("data", JObj data)]), w') /\
       NoDup data.*1 /\
       (forall k j, In (k, j) data <->
          k <> "__proto__" /\
          exists v, j = JStr v /\ settings (db w') !! k = Some v) /\
       posts (db w') = posts (db w) /\
       (forall k, k <> "discord_webhook_url" -> k <> "n8n_base_url" ->
          settings (db w') !! k = settings (db w) !! k) /\
       (forall k, (forall v, ~ In (k, JStr v) es) ->
          settings (db w') !! k = settings (db w) !! k) /\
       (forall k v, In (k, JStr v) es ->
          k = "discord_webhook_url" \/ k = "n8n_base_url" ->
          settings (db w') !! k = Some v)) /\
  (param req <> "discord_webhook_url" -> param req <> "n8n_base_url" ->
   SettingsRoutes.putKey req w =
     (json 400 (JObj [("error", JStr "Bad Request");
                      ("message", JStr "Invalid setting key")]), w)) /\
  (nul_free (param req) -> settings (db w) !! param req = None ->
   SettingsRoutes.getKey req w =
     (json 404 (JObj [("error", JStr "Not Found");
                      ("message", JStr "Setting not found")]), w)).
Proof.
  split; [|split].
  - intros es Hb Hnd Hnul.
    assert (Hnul' : forall k v, In (k, JStr v) es ->
              SettingsRoutes.allowed k = true -> Prisma.has_nul v = false).
    { intros k v Hin Hk. apply has_nul_free, (Hnul k v Hin).
      now apply allowed_keys. }
    destruct (putAll_object req w es Hb Hnul') as (ev & Heq). cbn zeta in Heq.
    destruct (settingsMap_members (upserted es (settings (db w))))
      as (data & Hdata & Hkeys & Hmem).
    rewrite Hdata in Heq.
    eexists data, _. split; [exact Heq|]. cbn [db settings posts].
    split; [exact Hkeys|]. split; [exact Hmem|]. split; [reflexivity|].
    split; [|split].
    + intros k Hk1 Hk2. apply upserted_disallowed, not_allowed_keys. now split.
    + intros k Hk. now apply upserted_untouched.
    + intros k v Hin Hk. apply upserted_written; [exact Hnd | exact Hin | |].
      * now apply allowed_keys.
      * apply has_nul_free, (Hnul k v Hin Hk).
  - intros Hk1 Hk2. apply putKey_disallowed, not_allowed_keys. now split.
  - intros Hn Hk. apply getKey_missing; [now apply has_nul_free | exact Hk].
Qed.

Lemma settings_contract_witness :
  (exists data w',
     SettingsRoutes.putAll demo_settings demo_pending =
       (json 200 (JObj [("success", JBool true);
                        ("message", JStr "Settings updated successfully");
                        ("data", JObj data)]), w') /\
     In ("discord_webhook_url", JStr "https://discord.example/hook") data /\
     settings (db w') !! "discord_webhook_url"
       = Some "https://discord.example/hook" /\
     settings (db w') !! "theme" = None /\
     settings (db w') !! "n8n_base_url" = None) /\
  SettingsRoutes.putKey (demo_request "theme") demo_pending =
    (json 400 (JObj [("error", JStr "Bad Request");
                     ("message", JStr "Invalid setting key")]), demo_pending) /\
  SettingsRoutes.getKey (demo_request "n8n_base_url") demo_pending =
    (json 404 (JObj [("error", JStr "Not Found");
                     ("message", JStr "Setting not found")]), demo_pending).
Proof.
  split; [|split].
  - destruct (settings_contract demo_settings demo_pending) as [H _].
    destruct (H _ eq_refl)
      as (data & w' & Heq & _ & Hmem & _ & Hskip & Hkeep & Hput).
    { apply (bool_decide_unpack _). vm_compute. exact I. }
    { intros k v Hin _. apply has_nul_free.
      destruct Hin as [[= <- <-]|[[= <- <-]|[[=]|[]]]]; reflexivity. }
    assert (Hhook : settings (db w') !! "discord_webhook_url"
                    = Some "https://discord.example/hook")
      by (apply Hput; [cbn; tauto | now left]).
    exists data, w'. split; [exact Heq|]. split; [|split; [exact Hhook|split]].
    + apply Hmem. split; [discriminate|].
      eexists. split; [reflexivity | exact Hhook].
    + rewrite Hskip; [reflexivity | discriminate | discriminate].
    + rewrite Hkeep; [reflexivity|].
      intros v [H1|[H1|[H1|[]]]]; discriminate.
  - destruct (settings_contract (demo_request "theme") demo_pending) as (_ & H & _).
    apply H; discriminate.
  - destruct (settings_contract (demo_request "n8n_base_url") demo_pending)
      as (_ & _ & H).
    apply H; [apply has_nul_free|]; reflexivity.
Defined.

(** C9, counterexample: a bulk update that offers for the allowed key
    [n8n_base_url] a string holding the code unit 0 is refused by the
    database; the answer is 500, not 200 with the settings. *)
Lemma settings_nul_counterexample :
  let value := String "a" (String (ascii_of_nat 0) EmptyString) in
  let req := mkRequest EmptyString None None None None
               (JObj [("n8n_base_url", JStr value)]) in
  SettingsRoutes.putAll req demo_pending =
    (json 500 (JObj [("error", JStr "Internal Server Error");
                     ("message", JStr "Failed to update settings")]),
     mkWorld (db demo_pending)
       (trace demo_pending ++ [EvConsole "Error updating settings:"])) /\
  ~ nul_free value.
Proof.
  cbn zeta. split; [vm_compute; reflexivity|].
  intros H. apply H. right. left. reflexivity.
Qed.

(** * Further properties of the routes *)

(** ** Decimal ids *)

(** X1: the decimal text of an integer that a double holds exactly (at
    most 2^53 in magnitude) parses back to that integer, also after leading
    white space (TAB, LF, VT, FF, CR, SPACE, NO-BREAK SPACE) and when text
    that does not start with a digit follows it; so an id printed into a
    link or a path selects the same record, and a path segment such as
    "12abc" selects record 12. *)
Theorem parseInt_showZ z lead rest :
  Forall (fun c => In (nat_of_ascii c) [9; 10; 11; 12; 13; 32; 160]%nat)
    (list_ascii_of_string lead) ->
  Z.abs z <= 2 ^ 53 ->
  match rest with String c _ => Js.is_digit c = false | EmptyString => True end ->
  Js.parseInt (lead +:+ Js.showZ z +:+ rest) = Some z.
Proof.
  intros Hlead Hz Hrest.
  induction lead as [|c lead IH]; cbn [list_ascii_of_string] in Hlead.
  - now apply parseInt_showZ_then.
  - inversion Hlead as [|? ? Hc Hl]; subst.
    change (String c lead +:+ Js.showZ z +:+ rest)
      with (String c (lead +:+ Js.showZ z +:+ rest)).
    assert (Hs : Js.is_space c = true).
    { unfold Js.is_space, Js.charCode. cbn [In] in Hc.
      destruct Hc as [<-|[<-|[<-|[<-|[<-|[<-|[<-|[]]]]]]]]; reflexivity. }
    unfold Js.parseInt. cbn [Js.skip_space]. rewrite Hs. apply (IH Hl).
Qed.

Lemma parseInt_showZ_witness :
  Js.parseInt (String (ascii_of_nat 160) " " +:+ Js.showZ 12 +:+ "abc") = Some 12.
Proof.
  apply (parseInt_showZ 12 (String (ascii_of_nat 160) " ") "abc").
  - repeat constructor; cbn; tauto.
  - vm_compute. discriminate.
  - reflexivity.
Defined.

(** ** Submission *)

Lemma required_string_not v :
  ~ (exists c, v = Some (JStr c) /\ c <> EmptyString) ->
  negb (JsVal.truthy v) || negb (JsVal.is_string v) = true.
Proof.
  intros H. destruct (negb (JsVal.truthy v) || negb (JsVal.is_string v)) eqn:E;
    [reflexivity|].
  exfalso. apply H. now apply required_string.
Qed.

Lemma required_string_ok c :
  c <> EmptyString ->
  negb (JsVal.truthy (Some (JStr c))) || negb (JsVal.is_string (Some (JStr c)))
  = false.
Proof. destruct c; [congruence | reflexivity]. Qed.

(** X2: a submission whose [content] is missing, not a string or empty is
    answered 400 "Content is required and must be a string"; with a good
    content, one whose [n8n_callback_url] is missing, not a string or empty
    is answered 400 "n8n_callback_url is required and must be a string".
    Neither stores or sends anything. *)
Theorem submit_validates env now req w :
  (~ (exists c, JsVal.get (body req) "content" = Some (JStr c)
                /\ c <> EmptyString) ->
   PostsRoutes.submit env now req w =
     (error_json 400 "Bad Request" "Content is required and must be a string", w)) /\
  ((exists c, JsVal.get (body req) "content" = Some (JStr c)
              /\ c <> EmptyString) ->
   ~ (exists u, JsVal.get (body req) "n8n_callback_url" = Some (JStr u)
                /\ u <> EmptyString) ->
   PostsRoutes.submit env now req w =
     (error_json 400 "Bad Request"
        "n8n_callback_url is required and must be a string", w)).
Proof.
  unfold PostsRoutes.submit. split.
  - intros H. rewrite (required_string_not _ H). reflexivity.
  - intros (c & Hc & Hne) H. rewrite Hc, (required_string_ok c Hne).
    rewrite (required_string_not _ H). reflexivity.
Qed.

Lemma submit_validates_witness :
  PostsRoutes.submit demo_env 10 (demo_request "") initial =
    (error_json 400 "Bad Request" "Content is required and must be a string",
     initial) /\
  PostsRoutes.submit demo_env 10
    (mkRequest "" None None None None (JObj [("content", JStr "Hello")])) initial =
    (error_json 400 "Bad Request"
       "n8n_callback_url is required and must be a string", initial).
Proof.
  split.
  - apply (submit_validates demo_env 10 (demo_request "") initial).
    intros (c & Hc & _). discriminate.
  - apply (submit_validates demo_env 10
             (mkRequest "" None None None None (JObj [("content", JStr "Hello")]))
             initial).
    + exists "Hello". split; [reflexivity | discriminate].
    + intros (u & Hu & _). discriminate.
Defined.

Lemma findUnique_in_fresh i l p :
  Prisma.int4 i = true ->
  Forall (fun q => id q < i) l -> id p = i ->
  Prisma.findUnique_in i (l ++ [p]) = Some p.
Proof.
  unfold Prisma.findUnique_in. intros -> Hl Hp.
  induction Hl as [|q r Hq _ IH]; cbn.
  - rewrite Hp, Z.eqb_refl. reflexivity.
  - destruct (id q =? i) eqn:E; [apply Z.eqb_eq in E; lia | exact IH].
Qed.

Lemma post_create_stored now c s url w :
  next_id (db w) <= 2147483647 ->
  nul_free c -> nul_free url -> (String.length url <= 500)%nat ->
  match s with
  | Some t => nul_free t /\ (String.length t <= 255)%nat
  | None => True
  end ->
  let p := mkPost (next_id (db w)) c s PENDING url now None None in
  Prisma.post_create now c (JStr <$> s) url w =
    (Some p,
     mkWorld (mkDb (posts (db w) ++ [p]) (next_id (db w) + 1) (settings (db w)))
       (trace w ++ [EvDb (PostCreated p)])).
Proof.
  intros Hn Hc Hu Hlen Hs p. subst p.
  apply has_nul_free in Hc. apply has_nul_free in Hu.
  apply Z.leb_le in Hn. apply Nat.leb_le in Hlen.
  unfold Prisma.post_create, Prisma.varchar, Prisma.fits. run_m.
  rewrite Hc, Hu, Hn, Hlen.
  destruct s as [t|]; cbn [fmap option_fmap option_map from_option Datatypes.id].
  - destruct Hs as [Ht Hl]. apply has_nul_free in Ht. apply Nat.leb_le in Hl.
    rewrite Ht, Hl. reflexivity.
  - reflexivity.
Qed.

(** The source that a submission stores: [source || null]. *)
Lemma submit_source (source : option Json) :
  JsVal.truthy source = false \/ (exists s, source = Some (JStr s)) ->
  (if JsVal.truthy source then source else None)
  = JStr <$> DiscordService.nonempty (PostsRoutes.string_of source).
Proof.
  intros [Hf | (s & ->)].
  - rewrite Hf. destruct source as [[|?|?|s|?|?|?]|]; try reflexivity.
    cbn in Hf. cbn. rewrite Hf. reflexivity.
  - cbn [JsVal.truthy PostsRoutes.string_of DiscordService.nonempty].
    destruct (Js.str_truthy s); reflexivity.
Qed.

Lemma submit_valid_run env now req w c u :
  next_id (db w) <= 2147483647 ->
  JsVal.get (body req) "content" = Some (JStr c) -> c <> EmptyString ->
  nul_free c ->
  JsVal.get (body req) "n8n_callback_url" = Some (JStr u) -> u <> EmptyString ->
  (String.length u <= 500)%nat -> nul_free u ->
  (JsVal.truthy (JsVal.get (body req) "source") = false \/
   exists s, JsVal.get (body req) "source" = Some (JStr s)
             /\ (String.length s <= 255)%nat /\ nul_free s) ->
  let created :=
    mkPost (next_id (db w)) c
      (DiscordService.nonempty
         (PostsRoutes.string_of (JsVal.get (body req) "source")))
      PENDING u now None None in
  exists ev,
    PostsRoutes.submit env now req w =
      (json 202 (JObj [
         ("success", JBool true);
         ("message", JStr "Post submitted successfully and pending approval");
         ("data", JObj [("id", JNum (next_id (db w)));
                        ("status", JStr "PENDING");
                        ("created_at", JDate now)])]),
       mkWorld (mkDb (posts (db w) ++ [created]) (next_id (db w) + 1)
                  (settings (db w)))
         (trace w ++ EvDb (PostCreated created) :: ev)) /\
    forallb notify_event ev = true.
Proof.
  intros Hnext Hc Hcne Hcn Hu Hune Hlen Hun Hsrc created.
  unfold PostsRoutes.submit.
  rewrite Hc, Hu, (required_string_ok c Hcne), (required_string_ok u Hune).
  cbn [PostsRoutes.as_string]. unfold mbind, M_bind.
  rewrite submit_source by (destruct Hsrc as [?|(s & ? & _)]; eauto).
  rewrite (post_create_stored now c _ u w Hnext Hcn Hun Hlen).
  2:{ destruct Hsrc as [Hf | (s & -> & Hs & Hsn)].
      - destruct (JsVal.get (body req) "source") as [[|?|?|s|?|?|?]|];
          try exact I.
        cbn in Hf. cbn. rewrite Hf. exact I.
      - cbn [PostsRoutes.string_of DiscordService.nonempty].
        destruct (Js.str_truthy s); [split; assumption | exact I]. }
  run_m. fold created.
  match goal with
  | |- context [DiscordService.sendApprovalNotification env ?t ?i ?c ?s ?w0] =>
      destruct (sendApprovalNotification_run env t i c s w0) as (b & ev & -> & Hev)
  end.
  exists ev. split; [|exact Hev]. cbn [db trace].
  rewrite <- app_assoc. reflexivity.
Qed.

(** X3: in a reachable store whose id sequence is not exhausted, a
    submission with a non-empty string [content], a non-empty
    [n8n_callback_url] of at most 500 characters and a [source] that is
    falsy or a string of at most 255 characters, none of them holding the
    code unit 0, is answered 202 with the new id, PENDING and the creation
    time; the store gains exactly one record, PENDING, with no approval or
    posting time, under an id larger than every id in use, and that id
    finds it. *)
Theorem submit_creates_pending env now req w c u :
  reachable env w -> next_id (db w) <= 2147483647 ->
  JsVal.get (body req) "content" = Some (JStr c) -> c <> EmptyString ->
  nul_free c ->
  JsVal.get (body req) "n8n_callback_url" = Some (JStr u) -> u <> EmptyString ->
  (String.length u <= 500)%nat -> nul_free u ->
  (JsVal.truthy (JsVal.get (body req) "source") = false \/
   exists s, JsVal.get (body req) "source" = Some (JStr s)
             /\ (String.length s <= 255)%nat /\ nul_free s) ->
  let created :=
    mkPost (next_id (db w)) c
      (DiscordService.nonempty
         (PostsRoutes.string_of (JsVal.get (body req) "source")))
      PENDING u now None None in
  exists r w',
    PostsRoutes.submit env now req w = (r, w') /\
    r = json 202 (JObj [
          ("success", JBool true);
          ("message", JStr "Post submitted successfully and pending approval");
          ("data", JObj [("id", JNum (next_id (db w)));
                         ("status", JStr "PENDING");
                         ("created_at", JDate now)])]) /\
    posts (db w') = posts (db w) ++ [created] /\
    settings (db w') = settings (db w) /\
    Forall (fun q => id q < id created) (posts (db w)) /\
    Prisma.findUnique_in (id created) (posts (db w')) = Some created.
Proof.
  intros Hr Hnext Hc Hcne Hcn Hu Hune Hlen Hun Hsrc created.
  pose proof (inv_fresh _ (reachable_Inv env w Hr)) as Hfresh.
  pose proof (inv_next _ (reachable_Inv env w Hr)) as Hlow.
  destruct (submit_valid_run env now req w c u Hnext Hc Hcne Hcn Hu Hune Hlen
              Hun Hsrc) as (ev & Heq & _).
  eexists _, _. split; [exact Heq|]. cbn [db posts settings].
  split; [reflexivity|]. split; [reflexivity|]. split; [reflexivity|].
  split; [exact Hfresh|].
  apply findUnique_in_fresh; [apply int4_range; cbn; lia | exact Hfresh | reflexivity].
Qed.

Lemma submit_creates_pending_witness :
  exists r w',
    PostsRoutes.submit demo_env 10 demo_submission initial = (r, w') /\
    code r = 202 /\
    posts (db w') = [demo_hello] /\
    Prisma.findUnique_in 1 (posts (db w')) = Some demo_hello.
Proof.
  destruct (submit_creates_pending demo_env 10 demo_submission initial
              "Hello" "https://cb.example/x")
    as (r & w' & Heq & -> & Hp & _ & _ & Hf).
  - apply reachable_initial.
  - cbn. lia.
  - reflexivity.
  - discriminate.
  - apply has_nul_free. reflexivity.
  - reflexivity.
  - discriminate.
  - cbn. lia.
  - apply has_nul_free. reflexivity.
  - left. reflexivity.
  - eexists _, w'. split; [exact Heq|]. split; [reflexivity|].
    split; [exact Hp | exact Hf].
Defined.

(** ** Rejection and posting *)

Lemma notify_event_fetch url b :
  notify_event (EvFetch url b) = true ->
  exists v rest, b = JObj (("embeds", v) :: rest).
Proof.
  cbn. destruct b as [|?|?|?|?|?|[|[k v] r]]; try discriminate.
  intros Hk. apply String.eqb_eq in Hk. subst k. eauto.
Qed.

Lemma notify_events_fetch ev url b :
  forallb notify_event ev = true -> In (EvFetch url b) ev ->
  exists v rest, b = JObj (("embeds", v) :: rest).
Proof.
  intros Hall Hin. rewrite forallb_forall in Hall.
  apply notify_event_fetch with url. now apply Hall.
Qed.

Lemma notify_events_no_db ev w :
  forallb notify_event ev = true -> ~ In (EvDb w) ev.
Proof.
  intros Hall Hin. rewrite forallb_forall in Hall.
  specialize (Hall _ Hin). discriminate.
Qed.

Lemma reject_pending_response env now req w i post :
  Js.parseInt (param req) = Some i ->
  Prisma.findUnique_in i (posts (db w)) = Some post ->
  status post = PENDING ->
  (PostsRoutes.reject env now req w).1
    = rejected_response req (PostsRoutes.set_rejected post).
Proof.
  intros Hp Hf Hst.
  unfold PostsRoutes.reject, Prisma.post_findUnique, Prisma.post_update.
  rewrite Hp. run_m. found Hf. rewrite Hst.
  cbn [PostStatus_eqb negb]. run_m. found Hf. run_m.
  match goal with
  | |- context [DiscordService.sendStatusUpdate env ?t i UPD_REJECTED ?c ?w0] =>
      destruct (sendStatusUpdate_run env t i UPD_REJECTED c w0)
        as (b & ev & -> & Hev)
  end.
  reflexivity.
Qed.



Lemma posted_approved_response env now req w i post :
  Js.parseInt (param req) = Some i ->
  Prisma.findUnique_in i (posts (db w)) = Some post ->
  status post = APPROVED ->
  (PostsRoutes.handlePostedConfirmation env now req w).1
    = posted_response (PostsRoutes.set_posted now post).
Proof.
  intros Hp Hf Hst.
  unfold PostsRoutes.handlePostedConfirmation, Prisma.post_findUnique,
    Prisma.post_update.
  rewrite Hp. run_m. found Hf. rewrite Hst.
  cbn [PostStatus_eqb negb]. run_m. found Hf. run_m.
  match goal with
  | |- context [DiscordService.sendStatusUpdate env ?t i UPD_POSTED ?c ?w0] =>
      destruct (sendStatusUpdate_run env t i UPD_POSTED c w0)
        as (b & ev & -> & Hev)
  end.
  reflexivity.
Qed.

(** X5: the posted confirmation of an APPROVED record answers 200 with the
    id, the status POSTED and the posting time; the record is stored as
    POSTED with [postedAt] set to the time of the request and [approvedAt]
    and its other fields as they were; one write is performed and every
    HTTP request sent is a webhook message. *)
Theorem posted_confirms env now req w i post :
  Js.parseInt (param req) = Some i ->
  Prisma.findUnique_in i (posts (db w)) = Some post ->
  status post = APPROVED ->
  let stored := PostsRoutes.set_posted now post in
  exists w' ev,
    PostsRoutes.handlePostedConfirmation env now req w
      = (json 200 (JObj [
           ("success", JBool true);
           ("message", JStr "Post marked as posted successfully");
           ("data", JObj [("id", JNum (id post));
                          ("status", JStr "POSTED");
                          ("posted_at", JDate now)])]), w') /\
    Prisma.findUnique_in i (posts (db w')) = Some stored /\
    status stored = POSTED /\ postedAt stored = Some now /\
    (content stored, n8nCallbackUrl stored, createdAt stored, approvedAt stored)
      = (content post, n8nCallbackUrl post, createdAt post, approvedAt post) /\
    trace w' = trace w ++ EvDb (PostUpdated stored) :: ev /\
    (forall wr, ~ In (EvDb wr) ev) /\
    (forall url b, In (EvFetch url b) ev ->
       exists v rest, b = JObj (("embeds", v) :: rest)).
Proof.
  intros Hp Hf Hst stored.
  pose proof (posted_approved_response env now req w i post Hp Hf Hst) as Hr.
  destruct (posted_approved env now req w i post Hp Hf Hst)
    as (r & ev & Heq & Hcode & Hev).
  rewrite Heq in Hr. cbn [fst] in Hr. subst r.
  eexists _, ev. split; [exact Heq|].
  cbn [db trace posts Prisma.with_posts].
  split; [apply findUnique_in_update; [exact Hf | reflexivity]|].
  split; [reflexivity|]. split; [reflexivity|]. split; [reflexivity|].
  split; [reflexivity|]. split.
  - intros wr. now apply notify_events_no_db.
  - intros url b. now apply notify_events_fetch.
Qed.

Lemma posted_confirms_witness :
  exists w' ev,
    PostsRoutes.handlePostedConfirmation demo_env 12 (demo_request "1")
      demo_approved
      = (json 200 (JObj [
           ("success", JBool true);
           ("message", JStr "Post marked as posted successfully");
           ("data", JObj [("id", JNum 1); ("status", JStr "POSTED");
                          ("posted_at", JDate 12)])]), w') /\
    Prisma.findUnique_in 1 (posts (db w'))
      = Some (PostsRoutes.set_posted 12 (PostsRoutes.set_approved 11 demo_hello)) /\
    trace w' = trace demo_approved
                 ++ EvDb (PostUpdated (PostsRoutes.set_posted 12
                                         (PostsRoutes.set_approved 11 demo_hello)))
                 :: ev.
Proof.
  destruct (posted_confirms demo_env 12 (demo_request "1") demo_approved
              1 (PostsRoutes.set_approved 11 demo_hello) eq_refl eq_refl eq_refl)
    as (w' & ev & Heq & Hf & _ & _ & _ & Ht & _).
  exists w', ev. repeat split; assumption.
Defined.

(** ** Ids that are not numbers *)

Lemma invalid_id_message req :
  Js.includes
    (message_of (PostsRoutes.fail req 400 "Bad Request" "Error" "Invalid post ID"
                   PostsRoutes.error))
    "Invalid post ID" = true.
Proof.
  unfold PostsRoutes.fail. destruct (PostsRoutes.wantsJson req);
    vm_compute; reflexivity.
Qed.

(** X6: when the id of the path does not start (after white space and a
    sign) with a digit, the five routes that take an id answer 400 with the
    text "Invalid post ID" and leave the database and the trace as they
    were. *)
Theorem invalid_id_refused env now req w :
  Js.parseInt (param req) = None ->
  forall handler,
    In handler [PostsRoutes.approve env now; PostsRoutes.reject env now;
                PostsRoutes.handlePostedConfirmation env now;
                PostsRoutes.getPost; PostsRoutes.deletePost] ->
    exists r,
      handler req w = (r, w) /\ code r = 400 /\
      Js.includes (message_of r) "Invalid post ID" = true.
Proof.
  intros Hp handler Hin.
  assert (Hjson : exists r,
    (error_json 400 "Bad Request" "Invalid post ID", w) = (r, w) /\ code r = 400 /\
    Js.includes (message_of r) "Invalid post ID" = true).
  { eexists. repeat split. }
  cbn in Hin. destruct Hin as [<-|[<-|[<-|[<-|[<-|[]]]]]].
  - rewrite (approve_invalid_id env now req w Hp).
    eexists. split; [reflexivity|]. split; [apply fail_code | apply invalid_id_message].
  - rewrite (reject_invalid_id env now req w Hp).
    eexists. split; [reflexivity|]. split; [apply fail_code | apply invalid_id_message].
  - rewrite (posted_invalid_id env now req w Hp). exact Hjson.
  - unfold PostsRoutes.getPost. rewrite Hp. exact Hjson.
  - unfold PostsRoutes.deletePost. rewrite Hp. exact Hjson.
Qed.

Lemma invalid_id_refused_witness :
  exists r,
    PostsRoutes.approve demo_env 11 (demo_request "abc") demo_pending
      = (r, demo_pending) /\
    code r = 400 /\ Js.includes (message_of r) "Invalid post ID" = true.
Proof.
  apply (invalid_id_refused demo_env 11 (demo_request "abc") demo_pending eq_refl).
  left. reflexivity.
Defined.

(** ** JSON or HTML *)

Lemma approve_pending_response env now req w i post :
  Js.parseInt (param req) = Some i ->
  Prisma.findUnique_in i (posts (db w)) = Some post ->
  status post = PENDING ->
  (PostsRoutes.approve env now req w).1
    = approved_response req (PostsRoutes.set_approved now post).
Proof.
  intros Hp Hf Hst.
  unfold PostsRoutes.approve, Prisma.post_findUnique, Prisma.post_update.
  rewrite Hp. run_m. found Hf. rewrite Hst.
  cbn [PostStatus_eqb negb]. run_m. found Hf. run_m.
  match goal with
  | |- context [network env ?a ?b ?c] =>
      destruct (network env a b c) as [st|]; [destruct (response_ok st)|]
  end; run_m;
    match goal with
    | |- context [DiscordService.sendStatusUpdate env ?t i UPD_APPROVED ?c ?w0] =>
        destruct (sendStatusUpdate_run env t i UPD_APPROVED c w0)
          as (b & ev & -> & Hev)
    end; reflexivity.
Qed.

Lemma fail_is_json req c e t m ty :
  is_json_body (PostsRoutes.fail req c e t m ty) = PostsRoutes.wantsJson req.
Proof. unfold PostsRoutes.fail. destruct (PostsRoutes.wantsJson req); reflexivity. Qed.

(** X7: whatever the outcome, [approve] and [reject] answer in JSON exactly
    when the Accept header contains "application/json", and with an HTML
    page otherwise (also when there is no Accept header); the posted
    confirmation always answers in JSON. *)
Theorem response_format env now req w :
  let accepts_json :=
    match accept req with
    | Some a => Js.includes a "application/json"
    | None => false
    end in
  is_json_body (PostsRoutes.approve env now req w).1 = accepts_json /\
  is_json_body (PostsRoutes.reject env now req w).1 = accepts_json /\
  is_json_body (PostsRoutes.handlePostedConfirmation env now req w).1 = true.
Proof.
  cbn zeta. change (match accept req with
                    | Some a => Js.includes a "application/json"
                    | None => false
                    end) with (PostsRoutes.wantsJson req).
  split; [|split].
  - destruct (Js.parseInt (param req)) as [i|] eqn:Hp;
      [|rewrite (approve_invalid_id env now req w Hp); apply fail_is_json].
    destruct (Prisma.int4 i) eqn:Hi;
      [|rewrite (approve_raised env now req w i Hp Hi); apply fail_is_json].
    destruct (Prisma.findUnique_in i (posts (db w))) as [post|] eqn:Hf;
      [|rewrite (approve_missing env now req w i Hp (int4_true i Hi) Hf);
        apply fail_is_json].
    destruct (PostStatus_eqb (status post) PENDING) eqn:Hst.
    + apply PostStatus_eqb_eq in Hst.
      rewrite (approve_pending_response env now req w i post Hp Hf Hst).
      unfold approved_response. destruct (PostsRoutes.wantsJson req); reflexivity.
    + apply PostStatus_eqb_neq in Hst.
      rewrite (approve_processed env now req w i post Hp Hf Hst).
      apply fail_is_json.
  - destruct (Js.parseInt (param req)) as [i|] eqn:Hp;
      [|rewrite (reject_invalid_id env now req w Hp); apply fail_is_json].
    destruct (Prisma.int4 i) eqn:Hi;
      [|rewrite (reject_raised env now req w i Hp Hi); apply fail_is_json].
    destruct (Prisma.findUnique_in i (posts (db w))) as [post|] eqn:Hf;
      [|rewrite (reject_missing env now req w i Hp (int4_true i Hi) Hf);
        apply fail_is_json].
    destruct (PostStatus_eqb (status post) PENDING) eqn:Hst.
    + apply PostStatus_eqb_eq in Hst.
      rewrite (reject_pending_response env now req w i post Hp Hf Hst).
      unfold rejected_response. destruct (PostsRoutes.wantsJson req); reflexivity.
    + apply PostStatus_eqb_neq in Hst.
      rewrite (reject_processed env now req w i post Hp Hf Hst).
      apply fail_is_json.
  - destruct (Js.parseInt (param req)) as [i|] eqn:Hp;
      [|rewrite (posted_invalid_id env now req w Hp); reflexivity].
    destruct (Prisma.int4 i) eqn:Hi;
      [|rewrite (posted_raised env now req w i Hp Hi); reflexivity].
    destruct (Prisma.findUnique_in i (posts (db w))) as [post|] eqn:Hf;
      [|rewrite (posted_missing env now req w i Hp (int4_true i Hi) Hf);
        reflexivity].
    destruct (PostStatus_eqb (status post) APPROVED) eqn:Hst.
    + apply PostStatus_eqb_eq in Hst.
      rewrite (posted_approved_response env now req w i post Hp Hf Hst).
      reflexivity.
    + apply PostStatus_eqb_neq in Hst.
      rewrite (posted_refused env now req w i post Hp Hf Hst). reflexivity.
Qed.

Lemma response_format_witness :
  is_json_body (PostsRoutes.approve demo_env 11
                  (mkRequest "1" None None None None (JObj [])) demo_pending).1
  = false /\
  is_json_body (PostsRoutes.reject demo_env 11
                  (mkRequest "1" (Some "text/html, application/json;q=0.9")
                     None None None (JObj [])) demo_pending).1
  = true.
Proof.
  split.
  - destruct (response_format demo_env 11
                (mkRequest "1" None None None None (JObj [])) demo_pending)
      as (Ha & _ & _).
    exact Ha.
  - destruct (response_format demo_env 11
                (mkRequest "1" (Some "text/html, application/json;q=0.9")
                   None None None (JObj [])) demo_pending)
      as (_ & Hr & _).
    rewrite Hr. vm_compute. reflexivity.
Defined.

(** X8: approving a PENDING record answers, in JSON, with the record's id,
    the status APPROVED and the approval time, which is the time of the
    request. *)
Theorem approve_reports_approval env now req w i post :
  Js.parseInt (param req) = Some i ->
  Prisma.findUnique_in i (posts (db w)) = Some post ->
  status post = PENDING ->
  PostsRoutes.wantsJson req = true ->
  (PostsRoutes.approve env now req w).1 =
    json 200 (JObj [
      ("success", JBool true);
      ("message", JStr "Post approved and sent for posting");
      ("data", JObj [("id", JNum (id post));
                     ("status", JStr "APPROVED");
                     ("approved_at", JDate now)])]).
Proof.
  intros Hp Hf Hst Hj.
  rewrite (approve_pending_response env now req w i post Hp Hf Hst).
  unfold approved_response. rewrite Hj. reflexivity.
Qed.

Lemma approve_reports_approval_witness :
  (PostsRoutes.approve demo_env 11 (demo_request "1") demo_pending).1 =
    json 200 (JObj [
      ("success", JBool true);
      ("message", JStr "Post approved and sent for posting");
      ("data", JObj [("id", JNum 1); ("status", JStr "APPROVED");
                     ("approved_at", JDate 11)])]).
Proof.
  apply (approve_reports_approval demo_env 11 (demo_request "1") demo_pending
           1 demo_hello); reflexivity.
Defined.

(** ** Reading and deleting *)

Lemma findUnique_in_filter_gone i l :
  Prisma.findUnique_in i (List.filter (fun p => negb (id p =? i)) l) = None.
Proof.
  unfold Prisma.findUnique_in. destruct (Prisma.int4 i); [|reflexivity].
  induction l as [|q r IH]; cbn; [reflexivity|].
  destruct (id q =? i) eqn:E; cbn; [exact IH|]. rewrite E. exact IH.
Qed.

Lemma findUnique_in_filter_other i j l :
  j <> i ->
  Prisma.findUnique_in j (List.filter (fun p => negb (id p =? i)) l)
  = Prisma.findUnique_in j l.
Proof.
  unfold Prisma.findUnique_in. intros Hne.
  destruct (Prisma.int4 j); [|reflexivity].
  induction l as [|q r IH]; cbn; [reflexivity|].
  destruct (id q =? i) eqn:E; cbn.
  - apply Z.eqb_eq in E.
    destruct (id q =? j) eqn:E'; [apply Z.eqb_eq in E'; lia | exact IH].
  - destruct (id q =? j); [reflexivity | exact IH].
Qed.

(** X9: deleting an existing record answers 200; afterwards its id finds
    nothing (reading it answers 404), every other id finds what it found
    before, and the settings are as they were.  Deleting an id within the
    32-bit range of the id column that no record has answers 404 and
    changes nothing. *)
Theorem delete_removes_record req w i :
  Js.parseInt (param req) = Some i ->
  (forall post,
     Prisma.findUnique_in i (posts (db w)) = Some post ->
     exists r w',
       PostsRoutes.deletePost req w = (r, w') /\ code r = 200 /\
       Prisma.findUnique_in i (posts (db w')) = None /\
       (forall j, j <> i ->
          Prisma.findUnique_in j (posts (db w'))
          = Prisma.findUnique_in j (posts (db w))) /\
       settings (db w') = settings (db w) /\
       PostsRoutes.getPost req w'
         = (error_json 404 "Not Found" "Post not found", w')) /\
  (-2147483648 <= i <= 2147483647 ->
   (forall p, In p (posts (db w)) -> id p <> i) ->
   PostsRoutes.deletePost req w = (error_json 404 "Not Found" "Post not found", w)).
Proof.
  intros Hp. split.
  - intros post Hf.
    unfold PostsRoutes.deletePost, Prisma.post_findUnique, Prisma.post_delete.
    rewrite Hp. run_m. found Hf. run_m.
    eexists _, _. split; [reflexivity|]. cbn [db posts settings Prisma.with_posts].
    split; [reflexivity|].
    split; [apply findUnique_in_filter_gone|].
    split; [intros j Hj; now apply findUnique_in_filter_other|].
    split; [reflexivity|].
    unfold PostsRoutes.getPost, Prisma.post_findUnique. rewrite Hp. run_m.
    cbn [Prisma.with_posts posts].
    rewrite (findUnique_in_int4 _ _ _ Hf), findUnique_in_filter_gone. reflexivity.
  - intros Hi Hno. apply findUnique_in_absent in Hno as Hf.
    unfold PostsRoutes.deletePost, Prisma.post_findUnique.
    rewrite Hp. run_m. rewrite (int4_range _ Hi), Hf. reflexivity.
Qed.

Lemma delete_removes_record_witness :
  exists r w',
    PostsRoutes.deletePost (demo_request "1") demo_pending = (r, w') /\
    code r = 200 /\
    Prisma.findUnique_in 1 (posts (db w')) = None.
Proof.
  destruct (delete_removes_record (demo_request "1") demo_pending 1 eq_refl)
    as [H _].
  destruct (H demo_hello eq_refl) as (r & w' & Heq & Hc & Hf & _).
  exists r, w'. repeat split; assumption.
Defined.

(** Reading one record by an id of the id column answers 200 with the
    stored record, all eight fields, when the id finds one and 404
    otherwise; in both cases nothing is written or sent. *)
Lemma get_returns_stored req w i :
  Js.parseInt (param req) = Some i -> Prisma.int4 i = true ->
  PostsRoutes.getPost req w =
    (match Prisma.findUnique_in i (posts (db w)) with
     | Some post =>
         json 200 (JObj [
           ("success", JBool true);
           ("data", JObj [
              ("id", JNum (id post));
              ("content", JStr (content post));
              ("source", match source post with Some s => JStr s | None => JNull end);
              ("status", JStr (status_string (status post)));
              ("n8n_callback_url", JStr (n8nCallbackUrl post));
              ("created_at", JDate (createdAt post));
              ("approved_at",
               match approvedAt post with Some t => JDate t | None => JNull end);
              ("posted_at",
               match postedAt post with Some t => JDate t | None => JNull end)])])
     | None => error_json 404 "Not Found" "Post not found"
     end, w).
Proof.
  intros Hp Hi. unfold PostsRoutes.getPost, Prisma.post_findUnique.
  rewrite Hp. run_m. rewrite Hi.
  destruct (Prisma.findUnique_in i (posts (db w))); reflexivity.
Qed.

(** ** From submission to posting *)

(** X10: in a reachable store whose id sequence is not exhausted, after a
    valid submission at time [t0] (content and callback URL without the
    code unit 0), a request for the approve route at [t1] and one for the
    posted route at [t2], both carrying the new id printed in decimal,
    leave the record POSTED with the submitted content and callback URL,
    created at [t0], approved at [t1] and posted at [t2]; reading the id
    then answers 200. *)
Theorem submit_approve_posted env w req link t0 t1 t2 c u :
  reachable env w -> next_id (db w) <= 2147483647 ->
  JsVal.get (body req) "content" = Some (JStr c) -> c <> EmptyString ->
  nul_free c ->
  JsVal.get (body req) "n8n_callback_url" = Some (JStr u) -> u <> EmptyString ->
  (String.length u <= 500)%nat -> nul_free u ->
  JsVal.truthy (JsVal.get (body req) "source") = false ->
  param link = Js.showZ (next_id (db w)) ->
  let final :=
    run_all env w [Submit t0 req; Approve t1 link; ConfirmPosted t2 link] in
  let record :=
    mkPost (next_id (db w)) c None POSTED u t0 (Some t1) (Some t2) in
  Prisma.findUnique_in (next_id (db w)) (posts (db final)) = Some record /\
  exists r, PostsRoutes.getPost link final = (r, final) /\ code r = 200.
Proof.
  intros Hr Hnext Hc Hcne Hcn Hu Hune Hlen Hun Hsrc Hlink final record.
  assert (Hi : Prisma.int4 (next_id (db w)) = true).
  { pose proof (inv_next _ (reachable_Inv env w Hr)). apply int4_range. lia. }
  assert (Hp : Js.parseInt (param link) = Some (next_id (db w)))
    by (rewrite Hlink; apply parseInt_showZ_int4, Hi).
  destruct (submit_valid_run env t0 req w c u Hnext Hc Hcne Hcn Hu Hune Hlen Hun
              (or_introl Hsrc)) as (ev0 & Heq0 & _).
  match type of Heq0 with _ = (?x, ?y) => set (r0 := x) in *; set (w1 := y) in * end.
  assert (Hf1 : Prisma.findUnique_in (next_id (db w)) (posts (db w1))
                = Some (mkPost (next_id (db w)) c
                          (DiscordService.nonempty
                             (PostsRoutes.string_of (JsVal.get (body req) "source")))
                          PENDING u t0 None None)).
  { subst w1. cbn [db posts].
    apply findUnique_in_fresh; [exact Hi| |reflexivity].
    apply (inv_fresh _ (reachable_Inv env w Hr)). }
  assert (Hsource : DiscordService.nonempty
                      (PostsRoutes.string_of (JsVal.get (body req) "source")) = None).
  { destruct (JsVal.get (body req) "source") as [[|?|?|s|?|?|?]|]; try reflexivity.
    cbn in Hsrc. cbn. rewrite Hsrc. reflexivity. }
  rewrite Hsource in Hf1.
  destruct (approve_pending env t1 link w1 _ _ Hp Hf1 eq_refl)
    as (r1 & ev1 & Heq1 & _ & _).
  match type of Heq1 with _ = (_, ?x) => set (w2 := x) in * end.
  assert (Hf2 : Prisma.findUnique_in (next_id (db w)) (posts (db w2))
                = Some (PostsRoutes.set_approved t1
                          (mkPost (next_id (db w)) c None PENDING u t0 None None))).
  { subst w2. cbn [db posts Prisma.with_posts].
    apply findUnique_in_update; [exact Hf1 | reflexivity]. }
  destruct (posted_approved env t2 link w2 _ _ Hp Hf2 eq_refl)
    as (r2 & ev2 & Heq2 & _ & _).
  match type of Heq2 with _ = (_, ?x) => set (w3 := x) in * end.
  assert (Hfinal : final = w3).
  { subst final. unfold run_all, run. cbn [fold_left handle].
    rewrite Heq0. cbn [snd]. rewrite Heq1. cbn [snd]. rewrite Heq2. reflexivity. }
  rewrite Hfinal.
  assert (Hf3 : Prisma.findUnique_in (next_id (db w)) (posts (db w3)) = Some record).
  { subst w3. cbn [db posts Prisma.with_posts].
    apply (findUnique_in_update _ (PostsRoutes.set_posted t2) _ _ Hf2). reflexivity. }
  split; [exact Hf3|].
  rewrite (get_returns_stored link w3 _ Hp Hi), Hf3.
  eexists. split; reflexivity.
Qed.

Lemma submit_approve_posted_witness :
  Prisma.findUnique_in 1
    (posts (db (run_all demo_env initial
                  [Submit 10 demo_submission; Approve 11 (demo_request "1");
                   ConfirmPosted 12 (demo_request "1")])))
  = Some (mkPost 1 "Hello" None POSTED "https://cb.example/x" 10 (Some 11) (Some 12)).
Proof.
  apply (submit_approve_posted demo_env initial demo_submission (demo_request "1")
           10 11 12 "Hello" "https://cb.example/x").
  - apply reachable_initial.
  - cbn. lia.
  - reflexivity.
  - discriminate.
  - apply has_nul_free. reflexivity.
  - reflexivity.
  - discriminate.
  - cbn. lia.
  - apply has_nul_free. reflexivity.
  - reflexivity.
  - reflexivity.
Defined.

(** ** Routes that only read *)

(** X11: listing, reading one record, the statistics and the two settings
    reads never change the database, whatever they answer. *)
Theorem read_routes_keep_db env w c :
  read_only c = true -> db (run env w c) = db w.
Proof.
  unfold run. destruct c; try discriminate; intros _; cbn [handle].
  - rewrite listPosts_run. cbn zeta.
    destruct (Prisma.where_ok _); [destruct (Prisma.page _ _ _)|]; reflexivity.
  - unfold PostsRoutes.getPost, Prisma.post_findUnique.
    destruct (Js.parseInt _); run_m; [|reflexivity].
    destruct (Prisma.int4 _); [|reflexivity].
    destruct (Prisma.findUnique_in _ _); reflexivity.
  - reflexivity.
  - reflexivity.
  - unfold SettingsRoutes.getKey, Prisma.settings_findUnique.
    run_m. destruct (Prisma.has_nul _); [reflexivity|].
    destruct (settings (db w) !! param req); reflexivity.
Qed.

Lemma read_routes_keep_db_witness :
  db (run demo_env demo_pending (ListPosts (demo_list "5"))) = db demo_pending.
Proof.
  apply (read_routes_keep_db demo_env demo_pending (ListPosts (demo_list "5"))).
  reflexivity.
Defined.

(** ** Statistics *)

Lemma count_status_total l :
  count_status PENDING l + count_status APPROVED l
  + count_status REJECTED l + count_status POSTED l = Z.of_nat (length l).
Proof.
  unfold count_status. induction l as [|p r IH]; [reflexivity|].
  cbn [List.filter length]. destruct (status p); cbn [PostStatus_eqb length]; lia.
Qed.

(** X12: the statistics answer 200 with the number of records in each of
    the four statuses and their sum as total, and the total is the number
    of records in the store; nothing is written or sent. *)
Theorem stats_counts w :
  let l := posts (db w) in
  PostsRoutes.stats w =
    (json 200 (JObj [
       ("success", JBool true);
       ("data", JObj [
          ("pending", JNum (count_status PENDING l));
          ("approved", JNum (count_status APPROVED l));
          ("rejected", JNum (count_status REJECTED l));
          ("posted", JNum (count_status POSTED l));
          ("total", JNum (count_status PENDING l + count_status APPROVED l
                          + count_status REJECTED l + count_status POSTED l))])]),
     w) /\
  count_status PENDING l + count_status APPROVED l
  + count_status REJECTED l + count_status POSTED l = Z.of_nat (length l).
Proof.
  split; [reflexivity | apply count_status_total].
Qed.

(** ** The total of a listing *)

(** X13: in a successful listing the reported total is the number of
    records that match the status filter, whatever the limit and the
    offset, and the page never holds more records than that. *)
Theorem list_total req w rows total limit offset :
  PostsRoutes.listPosts req w = (listing rows total limit offset, w) ->
  exists keep,
    Prisma.where_ok (PostsRoutes.list_where req) = Some keep /\
    total = Z.of_nat (length (List.filter keep (posts (db w)))) /\
    Z.of_nat (length rows) <= total.
Proof.
  rewrite listPosts_run. cbn zeta. unfold listing, PostsRoutes.list_failed.
  destruct (Prisma.where_ok (PostsRoutes.list_where req)) as [keep|];
    [|discriminate].
  destruct (Prisma.page _ _ _) as [found|] eqn:Hpage; [|discriminate].
  intros [= Hrows <- _ _].
  exists keep. split; [reflexivity|]. split; [reflexivity|].
  assert (length rows = length found) as ->.
  { rewrite <- (length_map listed rows), <- Hrows.
    apply length_map. }
  apply page_sublist, sublist_length in Hpage.
  assert (Hs : length (Prisma.sort_desc (List.filter keep (posts (db w))))
               = length (List.filter keep (posts (db w)))).
  { generalize (List.filter keep (posts (db w))). intros l.
    induction l as [|p r IH]; [reflexivity|]. cbn [Prisma.sort_desc length].
    rewrite <- IH. generalize (Prisma.sort_desc r). intros k.
    induction k as [|q k IHk]; [reflexivity|]. cbn [Prisma.insert_desc].
    destruct (createdAt q <=? createdAt p); cbn [length]; lia. }
  lia.
Qed.

Lemma list_total_witness :
  exists keep,
    Prisma.where_ok (PostsRoutes.list_where (demo_list "0")) = Some keep /\
    1 = Z.of_nat (length (List.filter keep (posts (db demo_pending)))) /\
    Z.of_nat (length [demo_hello]) <= 1.
Proof.
  apply (list_total (demo_list "0") demo_pending [demo_hello] 1 50 0).
  vm_compute. reflexivity.
Defined.

(** ** Writing and reading one setting *)

(** X14: writing [discord_webhook_url] or [n8n_base_url] with a string
    value that does not hold the code unit 0 answers 200 and echoes the
    pair; reading that key afterwards answers 200 with the value just
    written, every other key reads as before, and the posts are untouched. *)
Theorem setting_write_then_read req read w v :
  param req = "discord_webhook_url" \/ param req = "n8n_base_url" ->
  JsVal.get (body req) "value" = Some (JStr v) -> nul_free v ->
  param read = param req ->
  exists w',
    SettingsRoutes.putKey req w =
      (json 200 (JObj [("success", JBool true);
                       ("message", JStr "Setting updated successfully");
                       ("data", JObj [("key", JStr (param req));
                                      ("value", JStr v)])]), w') /\
    SettingsRoutes.getKey read w' =
      (json 200 (JObj [("success", JBool true);
                       ("data", JObj [("key", JStr (param req));
                                      ("value", JStr v)])]), w') /\
    (forall k, k <> param req -> settings (db w') !! k = settings (db w) !! k) /\
    posts (db w') = posts (db w).
Proof.
  intros Hk Hv Hnul Hread. apply allowed_keys in Hk.
  apply has_nul_free in Hnul.
  unfold SettingsRoutes.putKey, Prisma.settings_upsert.
  rewrite Hk, Hv. cbn [negb]. run_m.
  rewrite (allowed_no_nul _ Hk), Hnul. cbn [orb]. run_m.
  eexists. split; [reflexivity|]. cbn [db settings posts].
  split; [|split; [|reflexivity]].
  - unfold SettingsRoutes.getKey, Prisma.settings_findUnique. run_m.
    rewrite Hread, (allowed_no_nul _ Hk), lookup_insert_eq. reflexivity.
  - intros k Hne. apply lookup_insert_ne. congruence.
Qed.

Lemma setting_write_then_read_witness :
  exists w',
    SettingsRoutes.getKey (demo_request "n8n_base_url") w' =
      (json 200 (JObj [("success", JBool true);
                       ("data", JObj [("key", JStr "n8n_base_url");
                                      ("value", JStr "https://n8n.example")])]),
       w').
Proof.
  destruct (setting_write_then_read
              (mkRequest "n8n_base_url" None None None None
                 (JObj [("value", JStr "https://n8n.example")]))
              (demo_request "n8n_base_url") demo_pending "https://n8n.example"
              (or_intror eq_refl) eq_refl) as (w' & _ & Hget & _).
  - apply has_nul_free. reflexivity.
  - reflexivity.
  - exists w'. exact Hget.
Defined.

(** X15: writing an allowed key with a value that is missing or not a string
    answers 400 "Value must be a string" and stores nothing. *)
Theorem setting_value_must_be_string req w :
  SettingsRoutes.allowed (param req) = true ->
  (forall v, JsVal.get (body req) "value" <> Some (JStr v)) ->
  SettingsRoutes.putKey req w =
    (error_json 400 "Bad Request" "Value must be a string", w).
Proof.
  intros Hk Hv. unfold SettingsRoutes.putKey. rewrite Hk. cbn [negb].
  destruct (JsVal.get (body req) "value") as [[|?|?|v|?|?|?]|]; try reflexivity.
  exfalso. apply (Hv v). reflexivity.
Qed.

Lemma setting_value_must_be_string_witness :
  SettingsRoutes.putKey
    (mkRequest "n8n_base_url" None None None None (JObj [("value", JNum 3)]))
    demo_pending
  = (error_json 400 "Bad Request" "Value must be a string", demo_pending).
Proof.
  apply setting_value_must_be_string; [reflexivity | intros v; discriminate].
Defined.

(** ** Only allowed keys are ever stored *)

Lemma upsertEntries_settings l w :
  settings (db (SettingsRoutes.upsertEntries l w).2) = upserted l (settings (db w)).
Proof.
  destruct (upsertEntries_upserted l w) as (b & ev & -> & _). reflexivity.
Qed.

Lemma submit_keeps_settings env now req w :
  settings (db (PostsRoutes.submit env now req w).2) = settings (db w).
Proof.
  unfold PostsRoutes.submit.
  destruct (negb (JsVal.truthy (JsVal.get (body req) "content")) || _);
    [reflexivity|].
  destruct (negb (JsVal.truthy (JsVal.get (body req) "n8n_callback_url")) || _);
    [reflexivity|].
  unfold mbind, M_bind.
  match goal with
  | |- context [Prisma.post_create now ?c ?src ?u w] =>
      destruct (post_create_cases now c src u w)
        as [(Hn & s & url & Heq)|[Heq|[Hn Heq]]]; rewrite Heq
  end; [|reflexivity|reflexivity].
  run_m.
  match goal with
  | |- context [DiscordService.sendApprovalNotification env ?t ?i ?c ?s ?w0] =>
      destruct (sendApprovalNotification_run env t i c s w0) as (r & ev & -> & _)
  end.
  reflexivity.
Qed.

Lemma handle_settings env c w k :
  is_Some (settings (db (run env w c)) !! k) ->
  is_Some (settings (db w) !! k) \/ SettingsRoutes.allowed k = true.
Proof.
  unfold run. destruct c; cbn [handle].
  - rewrite submit_keeps_settings. tauto.
  - destruct (Js.parseInt (param req)) as [i|] eqn:Hp;
      [|rewrite (approve_invalid_id env now req w Hp); tauto].
    destruct (Prisma.int4 i) eqn:Hi;
      [|rewrite (approve_raised env now req w i Hp Hi); tauto].
    destruct (Prisma.findUnique_in i (posts (db w))) as [post|] eqn:Hf;
      [|rewrite (approve_missing env now req w i Hp (int4_true i Hi) Hf); tauto].
    destruct (PostStatus_eqb (status post) PENDING) eqn:Hst.
    + apply PostStatus_eqb_eq in Hst.
      destruct (approve_pending env now req w i post Hp Hf Hst)
        as (r & ev & -> & _). tauto.
    + apply PostStatus_eqb_neq in Hst.
      rewrite (approve_processed env now req w i post Hp Hf Hst). tauto.
  - destruct (Js.parseInt (param req)) as [i|] eqn:Hp;
      [|rewrite (reject_invalid_id env now req w Hp); tauto].
    destruct (Prisma.int4 i) eqn:Hi;
      [|rewrite (reject_raised env now req w i Hp Hi); tauto].
    destruct (Prisma.findUnique_in i (posts (db w))) as [post|] eqn:Hf;
      [|rewrite (reject_missing env now req w i Hp (int4_true i Hi) Hf); tauto].
    destruct (PostStatus_eqb (status post) PENDING) eqn:Hst.
    + apply PostStatus_eqb_eq in Hst.
      destruct (reject_pending env now req w i post Hp Hf Hst)
        as (r & ev & -> & _). tauto.
    + apply PostStatus_eqb_neq in Hst.
      rewrite (reject_processed env now req w i post Hp Hf Hst). tauto.
  - destruct (Js.parseInt (param req)) as [i|] eqn:Hp;
      [|rewrite (posted_invalid_id env now req w Hp); tauto].
    destruct (Prisma.int4 i) eqn:Hi;
      [|rewrite (posted_raised env now req w i Hp Hi); tauto].
    destruct (Prisma.findUnique_in i (posts (db w))) as [post|] eqn:Hf;
      [|rewrite (posted_missing env now req w i Hp (int4_true i Hi) Hf); tauto].
    destruct (PostStatus_eqb (status post) APPROVED) eqn:Hst.
    + apply PostStatus_eqb_eq in Hst.
      destruct (posted_approved env now req w i post Hp Hf Hst)
        as (r & ev & -> & _). tauto.
    + apply PostStatus_eqb_neq in Hst.
      rewrite (posted_refused env now req w i post Hp Hf Hst). tauto.
  - rewrite listPosts_run. cbn zeta.
    destruct (Prisma.where_ok _); [destruct (Prisma.page _ _ _)|]; tauto.
  - unfold PostsRoutes.getPost, Prisma.post_findUnique.
    destruct (Js.parseInt _); run_m; [|tauto].
    destruct (Prisma.int4 _); [|tauto].
    destruct (Prisma.findUnique_in _ _); tauto.
  - unfold PostsRoutes.deletePost, Prisma.post_findUnique, Prisma.post_delete.
    destruct (Js.parseInt _); run_m; [|tauto].
    destruct (Prisma.int4 _); [|tauto].
    destruct (Prisma.findUnique_in _ _); run_m; tauto.
  - cbn. tauto.
  - cbn. tauto.
  - unfold SettingsRoutes.putAll, Prisma.settings_findMany.
    destruct (negb _ || negb _); run_m; [tauto|].
    pose proof (upsertEntries_settings (JsVal.entries (body req)) w) as Hs.
    destruct (SettingsRoutes.upsertEntries (JsVal.entries (body req)) w) as [[] w'];
      run_m; cbn [snd db settings] in *; rewrite Hs;
      (destruct (SettingsRoutes.allowed k) eqn:Hk; [tauto|]);
      rewrite (upserted_disallowed k _ _ Hk); tauto.
  - unfold SettingsRoutes.getKey, Prisma.settings_findUnique.
    run_m. destruct (Prisma.has_nul _); [tauto|].
    destruct (settings (db w) !! param req); tauto.
  - unfold SettingsRoutes.putKey, Prisma.settings_upsert.
    destruct (SettingsRoutes.allowed (param req)) eqn:Hk; cbn [negb]; run_m;
      [|tauto].
    destruct (JsVal.get (body req) "value") as [[|?|?|v|?|?|?]|]; run_m; try tauto.
    destruct (Prisma.has_nul _ || Prisma.has_nul _); run_m; [tauto|].
    destruct (decide (k = param req)) as [->|Hne]; [tauto|].
    rewrite lookup_insert_ne by congruence. tauto.
Qed.

(** X16: in every reachable state the settings hold only keys of the
    allow-list, [discord_webhook_url] and [n8n_base_url]. *)
Theorem settings_keys_allowed env w k :
  reachable env w -> is_Some (settings (db w) !! k) ->
  k = "discord_webhook_url" \/ k = "n8n_base_url".
Proof.
  intros Hr Hk.
  assert (H : SettingsRoutes.allowed k = true).
  { induction Hr as [|w c Hr IH].
    - cbn in Hk. rewrite lookup_empty in Hk. destruct Hk; discriminate.
    - destruct (handle_settings env c w k Hk) as [H|H]; auto. }
  unfold SettingsRoutes.allowed, SettingsRoutes.allowedKeys in H. cbn in H.
  rewrite !orb_true_iff in H.
  destruct H as [H|[H|H]]; [left | right | discriminate];
    now apply String.eqb_eq in H.
Qed.

Lemma settings_keys_allowed_witness :
  reachable demo_env demo_hooked /\
  is_Some (settings (db demo_hooked) !! "discord_webhook_url") /\
  ("discord_webhook_url" = "discord_webhook_url"
   \/ "discord_webhook_url" = "n8n_base_url").
Proof.
  assert (Hr : reachable demo_env demo_hooked)
    by apply reachable_step, reachable_step, reachable_initial.
  assert (Hk : is_Some (settings (db demo_hooked) !! "discord_webhook_url"))
    by (eexists; reflexivity).
  split; [exact Hr|]. split; [exact Hk|].
  exact (settings_keys_allowed demo_env demo_hooked "discord_webhook_url" Hr Hk).
Defined.

(** ** The life of a record *)

Lemma evolves_refl p : evolves p p.
Proof. constructor; auto. apply rt_refl. Qed.

Lemma evolves_trans p q r : evolves p q -> evolves q r -> evolves p r.
Proof.
  intros [H1 H2 H3 H4 H5 H6 H7 H8] [G1 G2 G3 G4 G5 G6 G7 G8].
  constructor; try congruence.
  - eapply rt_trans; eassumption.
  - intros Ht. pose proof (H7 Ht) as ->. auto.
  - intros t Ht. auto.
Qed.

Lemma transition_evolves p f :
  transition p f -> timestamps_ok p -> evolves p (f p).
Proof.
  intros Htr [Ha _].
  destruct Htr as [now p Hst|p Hst|now p Hst]; constructor; cbn;
    try reflexivity; try rewrite Hst;
    try (apply rt_step; constructor);
    try (intros [?|?]; discriminate); try tauto.
  intros t Ht. exfalso.
  assert (Hs : is_Some (approvedAt p)) by (rewrite Ht; eauto).
  apply Ha in Hs. rewrite Hst in Hs. destruct Hs; discriminate.
Qed.

Lemma update_in_other i f l p :
  In p l -> id p <> i -> In p (Prisma.update_in i f l).
Proof.
  induction l as [|q r IH]; cbn; [tauto|].
  intros [->|Hin] Hne.
  - destruct (id p =? i) eqn:E; [apply Z.eqb_eq in E; lia | now left].
  - destruct (id q =? i); right; auto.
Qed.

Lemma update_in_found i f l q :
  Prisma.findUnique_in i l = Some q -> In (f q) (Prisma.update_in i f l).
Proof.
  unfold Prisma.findUnique_in. destruct (Prisma.int4 i); [|discriminate].
  induction l as [|a r IH]; cbn; [discriminate|].
  destruct (id a =? i); [intros [= ->]; now left | right; auto].
Qed.

Lemma findUnique_in_none i l p :
  Prisma.int4 i = true ->
  Prisma.findUnique_in i l = None -> In p l -> id p <> i.
Proof.
  unfold Prisma.findUnique_in. intros -> Hf Hin Heq.
  pose proof (find_none _ _ Hf p Hin) as H. cbn in H.
  apply Z.eqb_neq in H. contradiction.
Qed.

Lemma findUnique_in_update_none i j f l :
  (forall q, id (f q) = id q) ->
  Prisma.findUnique_in i l = None ->
  Prisma.findUnique_in i (Prisma.update_in j f l) = None.
Proof.
  unfold Prisma.findUnique_in. intros Hid.
  destruct (Prisma.int4 i); [|reflexivity].
  induction l as [|q r IH]; cbn; [reflexivity|].
  destruct (id q =? i) eqn:E; [discriminate|]. intros Hf.
  destruct (id q =? j); cbn; [rewrite Hid, E; exact Hf | rewrite E; auto].
Qed.

Lemma findUnique_in_app_none i l k :
  Prisma.findUnique_in i l = None -> Prisma.findUnique_in i k = None ->
  Prisma.findUnique_in i (l ++ k) = None.
Proof.
  unfold Prisma.findUnique_in. destruct (Prisma.int4 i); [|reflexivity].
  induction l as [|q r IH]; cbn; [auto|].
  destruct (id q =? i); [discriminate | auto].
Qed.

Lemma db_step_next_id d d' : db_step d d' -> next_id d <= next_id d'.
Proof. destruct 1; cbn; lia. Qed.

Lemma db_step_evolves d d' p :
  Inv d -> db_step d d' -> In p (posts d) ->
  (exists p', In p' (posts d') /\ evolves p p') \/ absent (id p) d'.
Proof.
  intros Hinv Hstep Hin.
  destruct Hstep as [m|Hs|now c s url Hc Hn|i q f Hf Htr|i]; unfold absent; cbn.
  - left. exists p. split; [exact Hin | apply evolves_refl].
  - left. exists p. split; [exact Hin | apply evolves_refl].
  - left. exists p. split; [apply in_app_iff; now left | apply evolves_refl].
  - left. destruct (findUnique_in_id _ _ _ Hf) as [Hiq Hq].
    destruct (Z.eq_dec (id p) i) as [Heq|Hne].
    + assert (p = q) as -> by
        (eapply unique_by_id; [apply Hinv | exact Hin | exact Hq | congruence]).
      exists (f q). split; [now apply update_in_found|].
      apply transition_evolves; [exact Htr|].
      pose proof (inv_times _ Hinv) as Ht. rewrite Forall_forall in Ht.
      apply Ht. now apply list_elem_of_In.
    + exists p. split; [now apply update_in_other | apply evolves_refl].
  - destruct (Z.eq_dec (id p) i) as [Heq|Hne].
    + right. rewrite Heq. apply findUnique_in_filter_gone.
    + left. exists p. split; [|apply evolves_refl].
      apply filter_In. split; [exact Hin|].
      apply negb_true_iff, Z.eqb_neq. exact Hne.
Qed.

Lemma db_step_absent d d' i :
  i < next_id d -> absent i d -> db_step d d' -> absent i d'.
Proof.
  unfold absent. intros Hlt Habs Hstep.
  destruct Hstep as [m|Hs|now c s url Hc Hn|j q f Hf Htr|j];
    cbn [posts Prisma.with_posts].
  - exact Habs.
  - exact Habs.
  - apply findUnique_in_app_none; [exact Habs|].
    unfold Prisma.findUnique_in. cbn.
    destruct (next_id d =? i) eqn:E; [apply Z.eqb_eq in E; lia|].
    destruct (Prisma.int4 i); reflexivity.
  - apply findUnique_in_update_none; [apply (transition_id q f Htr) | exact Habs].
  - destruct (Z.eq_dec i j) as [->|Hne]; [apply findUnique_in_filter_gone|].
    rewrite findUnique_in_filter_other by exact Hne. exact Habs.
Qed.

Lemma absent_forever env cs w i :
  i < next_id (db w) -> absent i (db w) -> absent i (db (run_all env w cs)).
Proof.
  revert w. induction cs as [|c cs IH]; intros w Hlt Habs; [exact Habs|].
  cbn [run_all fold_left]. apply IH.
  - pose proof (db_step_next_id _ _ (handle_db_step env c w)). lia.
  - eapply db_step_absent; [exact Hlt | exact Habs | apply handle_db_step].
Qed.

(** X17: take a record of a reachable store and any later version of the
    record with its id, after any sequence of requests.  The later version
    has the same content, source, callback URL and creation time; its
    status is reached from the earlier one along the edges of the workflow;
    if the record was REJECTED or POSTED it is unchanged; and an approval
    time, once set, stays.  An id that has been deleted is never used
    again. *)
Theorem record_evolution env w cs p :
  reachable env w -> In p (posts (db w)) ->
  (forall p', In p' (posts (db (run_all env w cs))) -> id p' = id p ->
     evolves p p') /\
  (absent (id p) (db (run env w (DeletePost
                                   (mkRequest (Js.showZ (id p)) None None None None
                                      (JObj []))))) /\
   forall c, absent (id p) (db (run env w c)) ->
     absent (id p) (db (run_all env (run env w c) cs))).
Proof.
  intros Hr Hin. split; [|split].
  - revert w p Hr Hin. induction cs as [|c cs IH]; intros w p Hr Hin p' Hin' Hid.
    + cbn in Hin'.
      assert (p' = p) as ->; [|apply evolves_refl].
      eapply unique_by_id;
        [apply (reachable_Inv env w Hr) | exact Hin' | exact Hin | exact Hid].
    + cbn [run_all fold_left] in Hin'.
      pose proof (reachable_Inv env w Hr) as Hinv.
      destruct (db_step_evolves _ _ p Hinv (handle_db_step env c w) Hin)
        as [(p1 & Hin1 & Hev)|Habs].
      * apply (evolves_trans p p1 p' Hev).
        apply (IH (run env w c) p1); [now apply reachable_step | exact Hin1
                                     | exact Hin' | ].
        rewrite Hid. symmetry. apply Hev.
      * exfalso.
        assert (Hlt : id p < next_id (db (run env w c))).
        { pose proof (inv_fresh _ Hinv) as Hf. rewrite Forall_forall in Hf.
          apply list_elem_of_In in Hin. specialize (Hf p Hin). cbn in Hf.
          pose proof (db_step_next_id _ _ (handle_db_step env c w)). lia. }
        pose proof (absent_forever env cs _ _ Hlt Habs) as Hgone.
        apply (findUnique_in_none _ _ p' (Inv_int4 _ p Hinv Hin) Hgone Hin').
        exact Hid.
  - pose proof (Inv_int4 _ p (reachable_Inv env w Hr) Hin) as Hi.
    unfold run. cbn [handle].
    unfold PostsRoutes.deletePost, Prisma.post_findUnique, Prisma.post_delete.
    cbn [param]. rewrite (parseInt_showZ_int4 _ Hi). run_m. rewrite Hi.
    destruct (Prisma.findUnique_in (id p) (posts (db w))) eqn:Hf; run_m.
    + cbn [db posts Prisma.with_posts]. apply findUnique_in_filter_gone.
    + exact Hf.
  - intros c Habs. apply absent_forever; [|exact Habs].
    pose proof (inv_fresh _ (reachable_Inv env w Hr)) as Hf.
    rewrite Forall_forall in Hf.
    apply list_elem_of_In in Hin. specialize (Hf p Hin). cbn in Hf.
    pose proof (db_step_next_id _ _ (handle_db_step env c w)). lia.
Qed.

Lemma record_evolution_witness :
  evolves demo_hello
    (mkPost 1 "Hello" None POSTED "https://cb.example/x" 10 (Some 11) (Some 12)).
Proof.
  assert (Hr : reachable demo_env demo_pending)
    by apply reachable_step, reachable_initial.
  destruct (record_evolution demo_env demo_pending demo_approve_then_post
              demo_hello Hr (or_introl eq_refl)) as [H _].
  apply H; [left; reflexivity | reflexivity].
Defined.

(** ** Lengths of the excerpts *)

Lemma length_append a b :
  String.length (a +:+ b) = (String.length a + String.length b)%nat.
Proof.
  induction a as [|c a IH]; [reflexivity|].
  change (S (String.length (a +:+ b)) = S (String.length a + String.length b)).
  f_equal. exact IH.
Qed.

Lemma substring0_length n s :
  (n <= String.length s)%nat -> String.length (Js.substring0 n s) = n.
Proof.
  intros H. destruct (substring0_prefix n s H) as (_ & _ & Hl). exact Hl.
Qed.

(** X18: the description of a pending notice never exceeds 1000 characters,
    and the description of a status update that carries a non-empty content
    never exceeds 500; a content longer than the budget is shown with
    exactly 1000, respectively 500, characters. *)
Theorem excerpt_lengths env now postId content source st :
  let shown_pending :=
    description (DiscordService.approvalEmbed env now postId content source) in
  let shown_update :=
    description (DiscordService.statusEmbed env now postId st (Some content)) in
  (String.length shown_pending <= 1000)%nat /\
  ((1000 < String.length content)%nat -> String.length shown_pending = 1000%nat) /\
  (content <> EmptyString -> (String.length shown_update <= 500)%nat) /\
  ((500 < String.length content)%nat -> String.length shown_update = 500%nat).
Proof.
  cbn zeta.
  assert (Hupdate :
    description (DiscordService.statusEmbed env now postId st (Some content))
    = DiscordService.statusDescription postId st (Some content)).
  { unfold DiscordService.statusEmbed.
    destruct (DiscordService.statusConfig st) as [[? ?] ?]. reflexivity. }
  rewrite Hupdate. cbn [description DiscordService.approvalEmbed].
  unfold DiscordService.displayContent, DiscordService.statusDescription.
  assert (Hlong : forall n, (n < String.length content)%nat ->
            String.length (Js.substring0 n content +:+ "...") = (n + 3)%nat).
  { intros n Hn. rewrite length_append, substring0_length by lia. reflexivity. }
  repeat split.
  - destruct (1000 <? String.length content)%nat eqn:E.
    + apply Nat.ltb_lt in E. rewrite (Hlong 997%nat) by lia. lia.
    + apply Nat.ltb_ge in E. exact E.
  - intros H. apply Nat.ltb_lt in H as Hb. rewrite Hb. apply (Hlong 997%nat). lia.
  - intros Hne. destruct content as [|c s] eqn:Hc; [congruence|].
    cbn [DiscordService.nonempty Js.str_truthy]. rewrite <- Hc in *.
    destruct (500 <? String.length content)%nat eqn:E.
    + apply Nat.ltb_lt in E. rewrite (Hlong 497%nat) by lia. lia.
    + apply Nat.ltb_ge in E. exact E.
  - intros H. destruct content as [|c s] eqn:Hc; [cbn in H; lia|].
    cbn [DiscordService.nonempty Js.str_truthy]. rewrite <- Hc in *.
    apply Nat.ltb_lt in H as Hb. rewrite Hb. apply (Hlong 497%nat). lia.
Qed.

Lemma excerpt_lengths_witness :
  (String.length
     (description (DiscordService.statusEmbed demo_env 11 1 UPD_APPROVED
                     (Some "Hello"))) <= 500)%nat.
Proof.
  destruct (excerpt_lengths demo_env 11 1 "Hello" None UPD_APPROVED)
    as (_ & _ & H & _).
  apply H. discriminate.
Defined.

(** X19: the dashboard shows a content of at most [maxLength] characters
    (100 when the argument is omitted) unchanged, and a longer one as its
    first [maxLength] characters followed by "...", so the text shown has
    at most [maxLength] + 3 characters. *)
Theorem dashboard_truncation content maxLength :
  let budget := default 100%nat maxLength in
  let shown := Dashboard.truncateContent content maxLength in
  ((String.length content <= budget)%nat -> shown = content) /\
  ((budget < String.length content)%nat ->
   exists first rest,
     content = first +:+ rest /\ String.length first = budget /\
     shown = first +:+ "..." /\ String.length shown = (budget + 3)%nat) /\
  (String.length shown <= budget + 3)%nat.
Proof.
  cbn zeta. unfold Dashboard.truncateContent.
  set (budget := default 100%nat maxLength).
  destruct (String.length content <=? budget)%nat eqn:E.
  - apply Nat.leb_le in E. split; [reflexivity|]. split; [lia | lia].
  - apply Nat.leb_gt in E.
    destruct (substring0_prefix budget content) as (rest & Hs & Hl); [lia|].
    assert (Hlen : String.length (Js.substring0 budget content +:+ "...")
                   = (budget + 3)%nat)
      by (rewrite length_append, Hl; reflexivity).
    split; [lia|]. split; [|lia].
    intros _. eexists _, rest. repeat split; [exact Hs | exact Hl | exact Hlen].
Qed.

Lemma dashboard_truncation_witness :
  Dashboard.truncateContent "Hello" None = "Hello" /\
  exists first rest,
    "Hello" = first +:+ rest /\ String.length first = 2%nat /\
    Dashboard.truncateContent "Hello" (Some 2%nat) = first +:+ "...".
Proof.
  destruct (dashboard_truncation "Hello" None) as (H1 & _).
  destruct (dashboard_truncation "Hello" (Some 2%nat)) as (_ & H2 & _).
  split; [apply H1; cbn; lia|].
  destruct H2 as (first & rest & Hs & Hl & Hshown & _); [cbn; lia|].
  exists first, rest. repeat split; assumption.
Defined.

(** ** Where the notifications go *)

(** X20: when the [discord_webhook_url] setting is absent or empty and the
    environment variable is absent or empty, a status update returns false
    and does nothing at all, and a pending notice returns false after one
    console warning; neither sends a request nor touches the database. *)
Theorem notifications_without_webhook env now postId text content source st w :
  DiscordService.nonempty (settings (db w) !! "discord_webhook_url") = None ->
  DiscordService.nonempty (DISCORD_WEBHOOK_URL env) = None ->
  DiscordService.sendStatusUpdate env now postId st content w = (false, w) /\
  DiscordService.sendApprovalNotification env now postId text source w
  = (false, mkWorld (db w)
              (trace w ++ [EvConsole "Discord webhook URL not configured"])).
Proof.
  intros Hs He.
  unfold DiscordService.sendStatusUpdate, DiscordService.sendApprovalNotification.
  unfold mbind, M_bind. rewrite (getWebhookUrl_run env w), Hs, He.
  split; [reflexivity|]. reflexivity.
Qed.

Lemma notifications_without_webhook_witness :
  DiscordService.sendStatusUpdate demo_env 11 1 UPD_APPROVED (Some "Hello")
    demo_pending = (false, demo_pending).
Proof.
  apply (notifications_without_webhook demo_env 11 1 "Hello" (Some "Hello") None
           UPD_APPROVED demo_pending); reflexivity.
Defined.

Lemma stored_webhook w url :
  settings (db w) !! "discord_webhook_url" = Some url -> url <> EmptyString ->
  DiscordService.nonempty (settings (db w) !! "discord_webhook_url") = Some url.
Proof. intros -> Hne. destruct url; [congruence | reflexivity]. Qed.

Lemma sendApprovalNotification_stored env now postId content source w url :
  settings (db w) !! "discord_webhook_url" = Some url -> url <> EmptyString ->
  let notice :=
    DiscordService.message_json
      (DiscordService.approvalEmbed env now postId content source) in
  exists ev,
    DiscordService.sendApprovalNotification env now postId content source w
    = (fetch_ok (network env (trace w) url notice),
       mkWorld (db w) (trace w ++ EvFetch url notice :: ev)) /\
    forall e, In e ev -> exists line, e = EvConsole line.
Proof.
  intros Hs Hne notice.
  unfold DiscordService.sendApprovalNotification. unfold mbind, M_bind.
  rewrite (getWebhookUrl_run env w), (stored_webhook w url Hs Hne). run_m.
  fold notice.
  destruct (network env (trace w) url notice) as [c|]; cbn [fetch_ok];
    [destruct (response_ok c)|]; run_m.
  - exists []. split; [reflexivity | intros e []].
  - eexists [_]. split; [rewrite <- app_assoc; reflexivity|].
    intros e [<-|[]]. eauto.
  - eexists [_]. split; [rewrite <- app_assoc; reflexivity|].
    intros e [<-|[]]. eauto.
Qed.

Lemma sendStatusUpdate_stored env now postId st content w url :
  settings (db w) !! "discord_webhook_url" = Some url -> url <> EmptyString ->
  let update :=
    DiscordService.message_json
      (DiscordService.statusEmbed env now postId st content) in
  exists ev,
    DiscordService.sendStatusUpdate env now postId st content w
    = (fetch_ok (network env (trace w) url update),
       mkWorld (db w) (trace w ++ EvFetch url update :: ev)) /\
    forall e, In e ev -> exists line, e = EvConsole line.
Proof.
  intros Hs Hne update.
  unfold DiscordService.sendStatusUpdate. unfold mbind, M_bind.
  rewrite (getWebhookUrl_run env w), (stored_webhook w url Hs Hne). run_m.
  fold update.
  destruct (network env (trace w) url update) as [c|]; cbn [fetch_ok]; run_m.
  - exists []. split; [reflexivity | intros e []].
  - eexists [_]. split; [rewrite <- app_assoc; reflexivity|].
    intros e [<-|[]]. eauto.
Qed.

(** X21: when a non-empty [discord_webhook_url] is stored in the settings,
    every notification is one POST to that URL, whatever the environment
    variable says, followed by console lines only; the pending notice
    returns true exactly when the webhook answers with a 2xx status, and so
    does the status update. *)
Theorem notifications_use_stored_webhook env now postId content source st w url :
  settings (db w) !! "discord_webhook_url" = Some url -> url <> EmptyString ->
  let notice :=
    DiscordService.message_json
      (DiscordService.approvalEmbed env now postId content source) in
  let update :=
    DiscordService.message_json
      (DiscordService.statusEmbed env now postId st (Some content)) in
  (exists ev,
     DiscordService.sendApprovalNotification env now postId content source w
     = (fetch_ok (network env (trace w) url notice),
        mkWorld (db w) (trace w ++ EvFetch url notice :: ev)) /\
     forall e, In e ev -> exists line, e = EvConsole line) /\
  (exists ev,
     DiscordService.sendStatusUpdate env now postId st (Some content) w
     = (fetch_ok (network env (trace w) url update),
        mkWorld (db w) (trace w ++ EvFetch url update :: ev)) /\
     forall e, In e ev -> exists line, e = EvConsole line) /\
  (forall r, fetch_ok r = true <->
             exists c, r = FetchResponse c /\ 200 <= c <= 299).
Proof.
  intros Hs Hne notice update. split; [|split].
  - apply sendApprovalNotification_stored; assumption.
  - apply sendStatusUpdate_stored; assumption.
  - intros r. unfold fetch_ok, response_ok. split.
    + destruct r as [c|]; [|discriminate]. intros H.
      apply andb_true_iff in H as [H1 H2].
      exists c. split; [reflexivity | lia].
    + intros (c & -> & Hc). apply andb_true_iff. split; lia.
Qed.

Lemma notifications_use_stored_webhook_witness :
  exists ev,
    DiscordService.sendStatusUpdate demo_env 11 1 UPD_APPROVED (Some "Hello")
      demo_hooked
    = (false,
       mkWorld (db demo_hooked)
         (trace demo_hooked
            ++ EvFetch "https://discord.example/hook"
                 (DiscordService.message_json
                    (DiscordService.statusEmbed demo_env 11 1 UPD_APPROVED
                       (Some "Hello"))) :: ev)).
Proof.
  destruct (notifications_use_stored_webhook demo_env 11 1 "Hello" None
              UPD_APPROVED demo_hooked "https://discord.example/hook"
              eq_refl ltac:(discriminate)) as (_ & (ev & Heq & _) & _).
  exists ev. exact Heq.
Defined.

(** ** What the routes announce *)

(** X22: with a webhook stored in the settings, a valid submission without
    source (content and callback URL without the code unit 0) in a
    reachable store whose id sequence is not exhausted writes the new
    record and then posts one pending notice for it to the webhook.  The
    body of that POST is one embed: the title, the content excerpt, the
    colour orange, an Actions field with the approve and the reject link of
    the new id under the public URL of the service, the footer with the id,
    and the time read from the clock after the record was written.  The
    answer is 202 whatever the webhook replies. *)
Theorem submit_announces env now req w c u url :
  reachable env w -> next_id (db w) <= 2147483647 ->
  JsVal.get (body req) "content" = Some (JStr c) -> c <> EmptyString ->
  nul_free c ->
  JsVal.get (body req) "n8n_callback_url" = Some (JStr u) -> u <> EmptyString ->
  (String.length u <= 500)%nat -> nul_free u ->
  JsVal.truthy (JsVal.get (body req) "source") = false ->
  settings (db w) !! "discord_webhook_url" = Some url -> url <> EmptyString ->
  let i := next_id (db w) in
  let created := mkPost i c None PENDING u now None None in
  let written := trace w ++ [EvDb (PostCreated created)] in
  let base :=
    match APP_URL env with
    | Some (String a r) => String a r
    | _ => "http://localhost:3001"
    end in
  let approveUrl := base +:+ "/api/v1/posts/" +:+ Js.showZ i +:+ "/approve" in
  let rejectUrl := base +:+ "/api/v1/posts/" +:+ Js.showZ i +:+ "/reject" in
  let excerpt :=
    if (1000 <? String.length c)%nat
    then String.substring 0 997 c +:+ "..." else c in
  let notice :=
    JObj [("embeds", JArr [JObj [
      ("title", JStr "📝 New Post Pending Approval");
      ("description", JStr excerpt);
      ("color", JNum 16753920);
      ("fields", JArr [JObj [
         ("name", JStr "🔗 Actions");
         ("value", JStr ("[✅ Approve](" +:+ approveUrl +:+ ") | [❌ Reject]("
                         +:+ rejectUrl +:+ ")"));
         ("inline", JBool false)]]);
      ("footer", JObj [("text", JStr ("Post ID: " +:+ Js.showZ i))]);
      ("timestamp", JStr (toISOString env (clock env written)))]])] in
  exists r w' ev,
    PostsRoutes.submit env now req w = (r, w') /\ code r = 202 /\
    trace w' = written ++ EvFetch url notice :: ev /\
    (forall e, In e ev -> exists line, e = EvConsole line).
Proof.
  intros Hr Hnext Hc Hcne Hcn Hu Hune Hlen Hun Hsrc Hs Hurl i created written
    base approveUrl rejectUrl excerpt notice.
  unfold PostsRoutes.submit.
  rewrite Hc, Hu, (required_string_ok c Hcne), (required_string_ok u Hune).
  rewrite Hsrc. cbn [PostsRoutes.as_string]. unfold mbind, M_bind.
  pose proof (post_create_stored now c None u w Hnext Hcn Hun Hlen I) as Hcreate.
  cbn [fmap option_fmap option_map] in Hcreate. cbn zeta in Hcreate.
  cbn iota. rewrite Hcreate.
  run_m. fold i. fold created. fold written.
  assert (Hsource : DiscordService.nonempty
                      (PostsRoutes.string_of (JsVal.get (body req) "source")) = None).
  { destruct (JsVal.get (body req) "source") as [[|?|?|s|?|?|?]|]; try reflexivity.
    cbn in Hsrc. cbn. rewrite Hsrc. reflexivity. }
  match goal with
  | |- context [DiscordService.sendApprovalNotification env ?t ?j c ?s ?w0] =>
      destruct (sendApprovalNotification_stored env t j c s w0 url Hs Hurl)
        as (ev & Heq & Hev);
      rewrite Heq
  end.
  eexists _, _, ev. split; [reflexivity|]. split; [reflexivity|].
  cbn [trace]. split; [|exact Hev].
  do 3 f_equal.
  unfold DiscordService.message_json, DiscordService.approvalEmbed,
    DiscordService.field_json, DiscordService.displayContent, Js.substring0.
  rewrite Hsource.
  cbn [title description color fields footer timestamp field_name field_value
       field_inline List.map app id created].
  subst notice approveUrl rejectUrl base excerpt.
  rewrite append_empty_r.
  destruct (APP_URL env) as [[|a r]|]; reflexivity.
Qed.

Lemma submit_announces_witness :
  exists r w' ev,
    PostsRoutes.submit demo_env 20 demo_submission demo_hooked = (r, w') /\
    code r = 202 /\
    trace w' =
      (trace demo_hooked
         ++ [EvDb (PostCreated
                     (mkPost 2 "Hello" None PENDING "https://cb.example/x" 20
                        None None))])
        ++ EvFetch "https://discord.example/hook"
             (JObj [("embeds", JArr [JObj [
                ("title", JStr "📝 New Post Pending Approval");
                ("description", JStr "Hello");
                ("color", JNum 16753920);
                ("fields", JArr [JObj [
                   ("name", JStr "🔗 Actions");
                   ("value", JStr "[✅ Approve](http://localhost:3001/api/v1/posts/2/approve) | [❌ Reject](http://localhost:3001/api/v1/posts/2/reject)");
                   ("inline", JBool false)]]);
                ("footer", JObj [("text", JStr "Post ID: 2")]);
                ("timestamp", JStr "1970-01-01T00:00:24.000Z")]])])
        :: ev.
Proof.
  destruct (submit_announces demo_env 20 demo_submission demo_hooked
              "Hello" "https://cb.example/x" "https://discord.example/hook")
    as (r & w' & ev & Heq & Hc & Ht & _).
  - apply reachable_step, reachable_step, reachable_initial.
  - vm_compute. discriminate.
  - reflexivity.
  - discriminate.
  - apply has_nul_free. reflexivity.
  - reflexivity.
  - discriminate.
  - cbn. lia.
  - apply has_nul_free. reflexivity.
  - reflexivity.
  - reflexivity.
  - discriminate.
  - exists r, w', ev. split; [exact Heq|]. split; [exact Hc | exact Ht].
Defined.

Lemma approve_pending_run env now req w i post :
  Js.parseInt (param req) = Some i ->
  Prisma.findUnique_in i (posts (db w)) = Some post ->
  status post = PENDING ->
  let stored := PostsRoutes.set_approved now post in
  let committed := trace w ++ [EvDb (PostUpdated stored)] in
  let outcome :=
    network env committed (n8nCallbackUrl post) (PostsRoutes.callback_body post) in
  let called :=
    committed
      ++ EvFetch (n8nCallbackUrl post) (PostsRoutes.callback_body post)
      :: callback_log outcome in
  (PostsRoutes.approve env now req w).2 =
    (DiscordService.sendStatusUpdate env (clock env called) i UPD_APPROVED
       (Some (content post))
       (mkWorld
          (Prisma.with_posts (db w)
             (Prisma.update_in i (PostsRoutes.set_approved now) (posts (db w))))
          called)).2.
Proof.
  intros Hp Hf Hst stored committed outcome called.
  unfold PostsRoutes.approve, Prisma.post_findUnique, Prisma.post_update.
  rewrite Hp. run_m. found Hf. rewrite Hst.
  cbn [PostStatus_eqb negb]. run_m. found Hf. run_m.
  fold stored. fold committed. fold outcome.
  subst called. unfold callback_log.
  destruct outcome as [st|]; [destruct (response_ok st)|]; run_m;
    rewrite <- ?app_assoc; cbn [app];
    match goal with
    | |- context [DiscordService.sendStatusUpdate env ?t i UPD_APPROVED ?c ?w0] =>
        destruct (DiscordService.sendStatusUpdate env t i UPD_APPROVED c w0)
    end; reflexivity.
Qed.

(** X23: with a webhook stored in the settings, approving a PENDING record
    performs, in this order, the update of the row, the callback POST, the
    console line of a failed callback if any, and one POST to the webhook.
    The body of that POST is one embed: the title "Post Approved" after the
    check mark, the record's content excerpt, the colour green, the footer
    with the id, and the time read from the clock after the callback; only
    console lines follow. *)
Theorem approve_announces env now req w i post url :
  Js.parseInt (param req) = Some i ->
  Prisma.findUnique_in i (posts (db w)) = Some post ->
  status post = PENDING ->
  content post <> EmptyString ->
  settings (db w) !! "discord_webhook_url" = Some url -> url <> EmptyString ->
  let stored := PostsRoutes.set_approved now post in
  let outcome :=
    network env (trace w ++ [EvDb (PostUpdated stored)])
      (n8nCallbackUrl post) (PostsRoutes.callback_body post) in
  let called :=
    trace w ++ EvDb (PostUpdated stored)
      :: EvFetch (n8nCallbackUrl post)
           (JObj [("post_id", JNum (id post));
                  ("status", JStr "APPROVED");
                  ("post_content", JStr (content post))])
      :: callback_log outcome in
  let excerpt :=
    if (500 <? String.length (content post))%nat
    then String.substring 0 497 (content post) +:+ "..."
    else content post in
  let announcement :=
    JObj [("embeds", JArr [JObj [
      ("title", JStr "✅ Post Approved");
      ("description", JStr excerpt);
      ("color", JNum 65280);
      ("footer", JObj [("text", JStr ("Post ID: " +:+ Js.showZ i))]);
      ("timestamp", JStr (toISOString env (clock env called)))]])] in
  exists ev,
    trace (PostsRoutes.approve env now req w).2 =
      called ++ EvFetch url announcement :: ev /\
    (forall e, In e ev -> exists line, e = EvConsole line).
Proof.
  intros Hp Hf Hst Hne Hs Hurl stored outcome called excerpt announcement.
  rewrite (approve_pending_run env now req w i post Hp Hf Hst).
  fold stored. fold outcome.
  assert (Hcalled :
    (trace w ++ [EvDb (PostUpdated stored)])
      ++ EvFetch (n8nCallbackUrl post) (PostsRoutes.callback_body post)
      :: callback_log outcome = called).
  { subst called. rewrite <- app_assoc. reflexivity. }
  rewrite Hcalled.
  match goal with
  | |- context [DiscordService.sendStatusUpdate env ?t i UPD_APPROVED _ ?w0] =>
      destruct (sendStatusUpdate_stored env t i UPD_APPROVED
                  (Some (content post)) w0 url Hs Hurl) as (ev & Heq & Hev);
      rewrite Heq
  end.
  exists ev. split; [|exact Hev]. cbn [snd trace]. do 3 f_equal.
  unfold DiscordService.message_json, DiscordService.statusEmbed,
    DiscordService.statusDescription, Js.substring0.
  cbn [DiscordService.statusConfig title description color fields footer
       timestamp app].
  subst announcement excerpt.
  destruct (content post) as [|a s] eqn:Hc; [congruence|]. reflexivity.
Qed.

Lemma approve_announces_witness :
  exists ev,
    trace (PostsRoutes.approve demo_env 21 (demo_request "1") demo_hooked).2 =
      (trace demo_hooked
         ++ EvDb (PostUpdated (PostsRoutes.set_approved 21 demo_hello))
         :: EvFetch "https://cb.example/x"
              (JObj [("post_id", JNum 1); ("status", JStr "APPROVED");
                     ("post_content", JStr "Hello")])
         :: callback_log (FetchResponse 500))
        ++ EvFetch "https://discord.example/hook"
             (JObj [("embeds", JArr [JObj [
                ("title", JStr "✅ Post Approved");
                ("description", JStr "Hello");
                ("color", JNum 65280);
                ("footer", JObj [("text", JStr "Post ID: 1")]);
                ("timestamp", JStr "1970-01-01T00:00:26.000Z")]])]) :: ev.
Proof.
  destruct (approve_announces demo_env 21 (demo_request "1") demo_hooked 1
              demo_hello "https://discord.example/hook")
    as (ev & Ht & _); try reflexivity; try discriminate.
  exists ev. exact Ht.
Defined.
